(** * OpenCK3 build service: a shallow embedding of [backend/app/build.py]

    The development follows the Python module top-down: strings and paths
    as [pathlib] sees them, the JSON values a manifest or sidecar may hold,
    the storage tree of [backend/app/storage.py], the four pipeline stages
    and [BuildService.build_mod], and finally [BuildManager] with its
    registry of shared, mutable [BuildJob] objects.

    Modelling conventions.
    - A Python [float] progress ratio is an exact rational ([Q]); the
      arithmetic of the source is kept term for term.  [Binary64] has the
      same expressions on binary64 numbers, to evaluate them as Python
      does.
    - A [Path] is its list of components, as [pathlib] has them in
      [parts]: an absolute path begins with the root ["/"].  A project
      identifier is one component.
    - The file system is a finite map from paths to nodes, keyed by the
      names the program uses; the program reaches no file under two names.
      Operating-system failures (permissions, a full disk) are outside the
      model.  Where the code makes the directory before it writes into it,
      the write succeeds; [_write_descriptor] writes without, and raises
      when the directory is not there.
    - A file holds opaque bytes, a JSON document, or a zip archive; reading a
      JSON document yields its value, writing one stores the value.
    - The external converter process, the clock, the working directory of
      the process and the names drawn by [uuid] and [tempfile] are
      inputs. *)

From Stdlib Require Import QArith Lqa ZArith Ascii String.
From Corelib Require Import PrimFloat.
From stdpp Require Import gmap strings list fin_maps pretty.

Local Open Scope Z_scope.
Set Warnings "-register-all".
Set Default Proof Using "Type".

(** ** Python strings *)

Module PyStr.

(** [str.rfind(c)]: the highest index of [c], or [-1]. *)
Fixpoint rfind_nat (c : ascii) (s : string) : option nat :=
  match s with
  | EmptyString => None
  | String a rest =>
      match rfind_nat c rest with
      | Some i => Some (S i)
      | None => if Ascii.eqb a c then Some O else None
      end
  end.

Definition rfind (c : ascii) (s : string) : Z :=
  match rfind_nat c s with
  | Some i => Z.of_nat i
  | None => -1
  end.

Definition len (s : string) : Z := Z.of_nat (String.length s).

(** [s[i:]] and [s[:i]] for [0 <= i]. *)
Definition slice_from (i : Z) (s : string) : string :=
  substring (Z.to_nat i) (String.length s - Z.to_nat i) s.

Definition slice_to (i : Z) (s : string) : string :=
  substring 0 (Z.to_nat i) s.

(** [str.lower()], on the ASCII letters. *)
Definition lower_ascii (c : ascii) : ascii :=
  let n := nat_of_ascii c in
  if (65 <=? n)%nat && (n <=? 90)%nat then ascii_of_nat (n + 32) else c.

Fixpoint lower (s : string) : string :=
  match s with
  | EmptyString => EmptyString
  | String a rest => String (lower_ascii a) (lower rest)
  end.

(** [str.replace(a, b)] for single characters. *)
Fixpoint replace_char (a b : ascii) (s : string) : string :=
  match s with
  | EmptyString => EmptyString
  | String c rest =>
      String (if Ascii.eqb c a then b else c) (replace_char a b rest)
  end.

(** [str.removeprefix(p)]. *)
Definition removeprefix (p s : string) : string :=
  if String.prefix p s
  then substring (String.length p) (String.length s - String.length p) s
  else s.

(** [sep.join(parts)]. *)
Fixpoint join (sep : string) (parts : list string) : string :=
  match parts with
  | [] => EmptyString
  | [x] => x
  | x :: rest => x +:+ sep +:+ join sep rest
  end.

(** The characters of a string, as iteration over a [str] yields them. *)
Fixpoint chars (s : string) : list string :=
  match s with
  | EmptyString => []
  | String a rest => String a EmptyString :: chars rest
  end.

End PyStr.

(** ** [pathlib] paths *)

Definition Path := list string.

Module PurePath.

(** [p / q]. *)
Definition joinpath (p q : Path) : Path := p ++ q.

(** [p.name]: the final component, empty for the empty path. *)
Definition name (p : Path) : string := List.last p EmptyString.

(** [p.parent]. *)
Definition parent (p : Path) : Path := removelast p.

Definition has_suffix_at (nm : string) (i : Z) : bool :=
  (0 <? i) && (i <? PyStr.len nm - 1).

(** [p.suffix]: from the last dot of the name on, unless that dot opens
    or closes the name. *)
Definition suffix (p : Path) : string :=
  let nm := name p in
  let i := PyStr.rfind "." nm in
  if has_suffix_at nm i then PyStr.slice_from i nm else EmptyString.

(** [p.stem]. *)
Definition stem (p : Path) : string :=
  let nm := name p in
  let i := PyStr.rfind "." nm in
  if has_suffix_at nm i then PyStr.slice_to i nm else nm.

(** [p.with_suffix(s)]: the name's suffix replaced by [s]. *)
Definition with_suffix (p : Path) (s : string) : Path :=
  parent p ++ [stem p +:+ s].

(** [p.relative_to(root)] when [root] is a prefix of [p]. *)
Definition relative_to (p root : Path) : Path :=
  drop (length root) p.

(** [p.is_absolute()]: the first component is the root. *)
Definition is_absolute (p : Path) : bool :=
  match p with
  | root :: _ => String.eqb root "/"
  | [] => false
  end.

End PurePath.

Notation "p // q" := (PurePath.joinpath p q) (at level 40, left associativity).

(** ** Exceptions *)

(** [BuildError] is the module's own class; the built-in classes the code
    can meet are kept with their class name.  [exn_str] is [str(exc)]. *)
Inductive exn :=
  | BuildError (msg : string)
  | BuiltinError (cls : string) (msg : string).

Definition exn_str (e : exn) : string :=
  match e with
  | BuildError msg => msg
  | BuiltinError _ msg => msg
  end.

Inductive result (A : Type) :=
  | Ok (a : A)
  | Raise (e : exn).
Arguments Ok {A} a.
Arguments Raise {A} e.

(** ** JSON values, as [json.load] hands them to Python *)

(** Numbers are the integers; a JSON object is a [dict] in insertion order. *)
Inductive json :=
  | JNull
  | JBool (b : bool)
  | JInt (n : Z)
  | JStr (s : string)
  | JArr (items : list json)
  | JObj (members : list (string * json)).

Module Py.

(** [type(v).__name__]. *)
Definition type_name (v : json) : string :=
  match v with
  | JNull => "NoneType"
  | JBool _ => "bool"
  | JInt _ => "int"
  | JStr _ => "str"
  | JArr _ => "list"
  | JObj _ => "dict"
  end.

(** Truth value of an object, as [if v:] tests it. *)
Definition truthy (v : json) : bool :=
  match v with
  | JNull => false
  | JBool b => b
  | JInt n => negb (n =? 0)
  | JStr s => negb (String.eqb s EmptyString)
  | JArr items => match items with [] => false | _ => true end
  | JObj members => match members with [] => false | _ => true end
  end.

Fixpoint assoc (k : string) (members : list (string * json)) : option json :=
  match members with
  | [] => None
  | (k', v) :: rest => if String.eqb k' k then Some v else assoc k rest
  end.

(** [d.get(k, default)]; only a [dict] has the method. *)
Definition get (d : json) (k : string) (dflt : json) : result json :=
  match d with
  | JObj members => Ok (default dflt (assoc k members))
  | _ => Raise (BuiltinError "AttributeError"
                  ("'" +:+ type_name d +:+ "' object has no attribute 'get'"))
  end.

(** [repr] of a [str]: single quotes unless the text holds a single quote
    and no double quote; the quote in use, the backslash and the control
    characters are escaped. *)
Definition hex_digit (n : nat) : ascii :=
  ascii_of_nat (if (n <? 10)%nat then 48 + n else 87 + n).

Definition repr_char (quote : ascii) (c : ascii) : string :=
  let n := nat_of_ascii c in
  if Ascii.eqb c quote then String "\" (String c EmptyString)
  else if Ascii.eqb c "\" then "\\"
  else if (n =? 9)%nat then "\t"
  else if (n =? 10)%nat then "\n"
  else if (n =? 13)%nat then "\r"
  else if (n <? 32)%nat || (n =? 127)%nat
       then "\x" +:+ String (hex_digit (n / 16)) (String (hex_digit (n mod 16)) EmptyString)
  else String c EmptyString.

Fixpoint repr_chars (quote : ascii) (s : string) : string :=
  match s with
  | EmptyString => EmptyString
  | String c rest => repr_char quote c +:+ repr_chars quote rest
  end.

Fixpoint mem_char (c : ascii) (s : string) : bool :=
  match s with
  | EmptyString => false
  | String a rest => Ascii.eqb a c || mem_char c rest
  end.

Definition dquote : ascii := ascii_of_nat 34.

Definition repr_str (s : string) : string :=
  let quote : ascii :=
    if mem_char "'" s && negb (mem_char dquote s) then dquote else "'"%char in
  String quote (repr_chars quote s) +:+ String quote EmptyString.

(** [repr(v)]. *)
Fixpoint repr (v : json) : string :=
  match v with
  | JNull => "None"
  | JBool b => if b then "True" else "False"
  | JInt n => pretty n
  | JStr s => repr_str s
  | JArr items => "[" +:+ PyStr.join ", " (List.map repr items) +:+ "]"
  | JObj members =>
      "{" +:+ PyStr.join ", "
                (List.map (fun kv => repr_str (fst kv) +:+ ": " +:+ repr (snd kv))
                          members) +:+ "}"
  end.

(** [str(v)], which is also what an f-string field formats to. *)
Definition str (v : json) : string :=
  match v with
  | JStr s => s
  | _ => repr v
  end.

(** [iter(v)]: the items of a list, the characters of a string, the keys
    of a dict; nothing else iterates. *)
Definition iter (v : json) : result (list json) :=
  match v with
  | JArr items => Ok items
  | JStr s => Ok (List.map JStr (PyStr.chars s))
  | JObj members => Ok (List.map (fun kv => JStr (fst kv)) members)
  | _ => Raise (BuiltinError "TypeError"
                  ("'" +:+ type_name v +:+ "' object is not iterable"))
  end.

(** The members of a [dict] by ascending key, as [sort_keys=True] has
    [json.dump] write them, at every depth. *)
Fixpoint insert_member (kv : string * json) (sorted : list (string * json))
    : list (string * json) :=
  match sorted with
  | [] => [kv]
  | kv' :: rest =>
      if String.leb (fst kv) (fst kv') then kv :: sorted
      else kv' :: insert_member kv rest
  end.

Definition sort_members (members : list (string * json)) : list (string * json) :=
  foldr insert_member [] members.

Fixpoint sort_keys (v : json) : json :=
  match v with
  | JArr items => JArr (List.map sort_keys items)
  | JObj members =>
      JObj (sort_members (List.map (fun kv => (fst kv, sort_keys (snd kv))) members))
  | _ => v
  end.

End Py.

(** ** The file system *)

Inductive data :=
  | Bytes (s : string)
  | JsonDoc (v : json)
  | ZipArchive (members : list (Path * data)).

Inductive node :=
  | Dir
  | File (d : data).

Abbreviation FS := (gmap Path node).

Module Fs.

(** [p.exists()], [p.is_file()], [p.is_dir()]. *)
Definition exists_ (fs : FS) (p : Path) : bool :=
  match fs !! p with Some _ => true | None => false end.

Definition is_file (fs : FS) (p : Path) : bool :=
  match fs !! p with Some (File _) => true | _ => false end.

Definition is_dir (fs : FS) (p : Path) : bool :=
  match fs !! p with Some Dir => true | _ => false end.

(** The non-empty prefixes of a path: the directories [mkdir -p] visits. *)
Definition ancestors_and_self (p : Path) : list Path :=
  List.map (fun n => take n p) (seq 1 (length p)).

(** [p.mkdir(parents=True, exist_ok=True)]: what is there stays. *)
Definition mkdir_p (fs : FS) (p : Path) : FS :=
  fs ∪ list_to_map (List.map (fun q => (q, Dir)) (ancestors_and_self p)).

(** [shutil.copy2(src, dst)], [dst] naming the file to write. *)
Definition copy2 (fs : FS) (src dst : Path) : FS :=
  match fs !! src with
  | Some (File d) => <[dst := File d]> fs
  | _ => fs
  end.

(** The write of a file whose directory is there. *)
Definition write (fs : FS) (p : Path) (d : data) : FS :=
  <[p := File d]> fs.

(** [p.iterdir()]: the entries directly below [p], in the order the
    system lists them. *)
Definition iterdir (fs : FS) (p : Path) : list Path :=
  List.filter (fun q => bool_decide (q ≠ [] ∧ PurePath.parent q = p))
              (List.map fst (map_to_list fs)).

(** [p.rglob("*")]: everything strictly below [p]. *)
Definition rglob (fs : FS) (p : Path) : list Path :=
  List.filter (fun q => bool_decide (p `prefix_of` q ∧ q ≠ p))
              (List.map fst (map_to_list fs)).

(** Removal of a directory and all below it. *)
Definition rmtree (fs : FS) (p : Path) : FS :=
  filter (fun kv => ¬ p `prefix_of` kv.1) fs.

(** The files below [root] with their paths relative to it: the members
    [shutil.make_archive] stores. *)
Definition members (fs : FS) (root : Path) : list (Path * data) :=
  omap (fun kv => match kv.2 with
                  | File d =>
                      if bool_decide (root `prefix_of` kv.1 ∧ kv.1 ≠ root)
                      then Some (PurePath.relative_to kv.1 root, d)
                      else None
                  | Dir => None
                  end)
       (map_to_list fs).

(** [str(p)]. *)
Definition to_str (p : Path) : string :=
  match p with
  | [] => "."
  | root :: rest =>
      if String.eqb root "/" then "/" +:+ PyStr.join "/" rest else PyStr.join "/" p
  end.

(** [os.path.abspath(p)] in a process whose working directory is [cwd]. *)
Definition abspath (cwd p : Path) : Path :=
  if PurePath.is_absolute p then p else cwd ++ p.

(** [open(p, "w")], the first half of [p.write_text(text)]: the directory
    of [p] must be there, and [p] no directory; a path of one component
    lies in the working directory. *)
Definition open_w (fs : FS) (p : Path) : result unit :=
  let errno (cls no : string) :=
    Raise (BuiltinError cls (no +:+ ": " +:+ Py.repr_str (to_str p))) in
  let opened :=
    if is_dir fs p then errno "IsADirectoryError" "[Errno 21] Is a directory"
    else Ok tt in
  match PurePath.parent p with
  | [] => opened
  | parent =>
      match fs !! parent with
      | None => errno "FileNotFoundError" "[Errno 2] No such file or directory"
      | Some (File _) => errno "NotADirectoryError" "[Errno 20] Not a directory"
      | Some Dir => opened
      end
  end.

(** [json.dump(payload, stream, indent=2, sort_keys=True)]: the document
    written holds the payload with its keys in order. *)
Definition dump_json (payload : json) : data := JsonDoc (Py.sort_keys payload).

(** [json.load] on the file at [p]. *)
Definition load_json (fs : FS) (p : Path) : result json :=
  match fs !! p with
  | Some (File (JsonDoc v)) => Ok v
  | Some (File _) =>
      Raise (BuiltinError "JSONDecodeError"
               "Expecting value: line 1 column 1 (char 0)")
  | Some Dir =>
      Raise (BuiltinError "IsADirectoryError"
               ("[Errno 21] Is a directory: " +:+ Py.repr_str (to_str p)))
  | None =>
      Raise (BuiltinError "FileNotFoundError"
               ("[Errno 2] No such file or directory: " +:+ Py.repr_str (to_str p)))
  end.

End Fs.

(** ** [backend/app/storage.py] *)

Module storage.

Definition BASE_STORAGE : Path := ["storage"].
Definition ASSET_ROOT : Path := BASE_STORAGE // ["assets"].
Definition DDS_ROOT : Path := ASSET_ROOT // ["dds"].
Definition AUDIO_ROOT : Path := ASSET_ROOT // ["audio"].
Definition PROJECT_ROOT : Path := BASE_STORAGE // ["projects"].
Definition WORKSHOP_ROOT : Path := BASE_STORAGE // ["workshop"].
Definition METADATA_EXTENSION : string := ".json".

Definition ensure_storage_layout (fs : FS) : FS :=
  foldl Fs.mkdir_p fs
    [BASE_STORAGE; ASSET_ROOT; DDS_ROOT; AUDIO_ROOT; PROJECT_ROOT; WORKSHOP_ROOT].

(** [project_dir] creates the directory it returns. *)
Definition project_dir (fs : FS) (project_id : string) : Path * FS :=
  let fs1 := ensure_storage_layout fs in
  let project_path := PROJECT_ROOT // [project_id] in
  (project_path, Fs.mkdir_p fs1 project_path).

(** [asset_dir] creates the directory it returns, as [project_dir] does. *)
Definition asset_dir (fs : FS) (root : Path) (project_id : string) : Path * FS :=
  let fs1 := ensure_storage_layout fs in
  let project_assets := root // [project_id] in
  (project_assets, Fs.mkdir_p fs1 project_assets).

(** [AssetRecord]; its [to_dict] has the same four fields. *)
Record AssetRecord := {
  project_id : string;
  filename : string;
  kind : string;
  metadata : json;
}.

Definition load_asset_metadata (fs : FS) (asset_path : Path) : result json :=
  let metadata_path :=
    PurePath.with_suffix asset_path
      (PurePath.suffix asset_path +:+ METADATA_EXTENSION) in
  if Fs.exists_ fs metadata_path
  then Fs.load_json fs metadata_path
  else Ok (JObj []).

Definition save_metadata (fs : FS) (metadata_path : Path) (payload : json) : FS :=
  let fs1 := Fs.mkdir_p fs (PurePath.parent metadata_path) in
  Fs.write fs1 metadata_path (Fs.dump_json payload).

Definition iter_project_files (fs : FS) (root : Path) : list Path :=
  if negb (Fs.exists_ fs root) then []
  else List.filter (Fs.is_file fs) (Fs.rglob fs root).

End storage.

(** ** Computations: a file system, an observer's state, and exceptions *)

(** A build runs over the file system and over whatever state its progress
    callback keeps ([Obs]).  An exception leaves both as they were when it
    was raised. *)

Record world (Obs : Type) := World { w_fs : FS; w_obs : Obs }.
Arguments World {Obs} w_fs w_obs.
Arguments w_fs {Obs} w.
Arguments w_obs {Obs} w.

Definition M (Obs A : Type) : Type := world Obs -> result A * world Obs.

(** [ProgressCallback = Callable[[str, float, str], None]]. *)
Definition ProgressCallback (Obs : Type) : Type := string -> Q -> string -> Obs -> Obs.

Section Monad.
Context {Obs : Type}.

Definition ret {A} (a : A) : M Obs A := fun w => (Ok a, w).

Definition bind {A B} (m : M Obs A) (k : A -> M Obs B) : M Obs B :=
  fun w =>
    match m w with
    | (Ok a, w') => k a w'
    | (Raise e, w') => (Raise e, w')
    end.

Definition raise {A} (e : exn) : M Obs A := fun w => (Raise e, w).

Definition of_result {A} (r : result A) : M Obs A := fun w => (r, w).

(** Reading from and acting on the file system. *)
Definition ask {A} (f : FS -> A) : M Obs A := fun w => (Ok (f (w_fs w)), w).

Definition act (f : FS -> FS) : M Obs unit :=
  fun w => (Ok tt, World (f (w_fs w)) (w_obs w)).

(** A file-system operation that returns a value, or raises. *)
Definition fs_op {A} (f : FS -> A * FS) : M Obs A :=
  fun w => let '(a, fs') := f (w_fs w) in (Ok a, World fs' (w_obs w)).

Definition fs_try {A} (f : FS -> result A) : M Obs A :=
  fun w => (f (w_fs w), w).

(** [callback(step, ratio, message)]. *)
Definition call (cb : ProgressCallback Obs) (step : string) (ratio : Q)
    (message : string) : M Obs unit :=
  fun w => (Ok tt, World (w_fs w) (cb step ratio message (w_obs w))).

(** [if callback: callback(step, ratio, message)]. *)
Definition notify (callback : option (ProgressCallback Obs)) (step : string)
    (ratio : Q) (message : string) : M Obs unit :=
  match callback with
  | Some cb => call cb step ratio message
  | None => ret tt
  end.

(** [for x in xs: body(x)]. *)
Fixpoint for_each {A} (xs : list A) (body : A -> M Obs unit) : M Obs unit :=
  match xs with
  | [] => ret tt
  | x :: rest => bind (body x) (fun _ => for_each rest body)
  end.

(** [with ...:] on a resource whose release cannot fail: [release] runs on
    both exits and the body's outcome stands. *)
Definition with_cleanup {A} (body : M Obs A) (release : FS -> FS) : M Obs A :=
  fun w =>
    let '(r, w') := body w in
    (r, World (release (w_fs w')) (w_obs w')).

End Monad.

Declare Scope build_scope.
Delimit Scope build_scope with build.
Notation "'let!' x ':=' m 'in' k" := (bind m (fun x => k))
  (at level 10, x pattern, m at level 100, k at level 200) : build_scope.
Notation "m '>>' k" := (bind m (fun _ => k))
  (at level 100, right associativity) : build_scope.

(** [enumerate(xs, start)]. *)
Fixpoint enumerate {A} (start : Z) (xs : list A) : list (Z * A) :=
  match xs with
  | [] => []
  | x :: rest => (start, x) :: enumerate (start + 1) rest
  end.

(** [len(xs) or 1]. *)
Definition len_or_1 {A} (xs : list A) : Z :=
  let n := Z.of_nat (length xs) in
  if n =? 0 then 1 else n.

(** [index / total] on integers: true division. *)
Definition true_div (index total : Z) : Q := (inject_Z index / inject_Z total)%Q.

(** ** [BuildService] *)

(** What [subprocess.run] reports of the converter, and the file system it
    leaves. *)
Record CompletedProcess := {
  returncode : Z;
  stderr : string;
  fs_after : FS;
}.

(** The two attributes of a [BuildService], and with them the working
    directory of the process the service lives in: [shutil.make_archive]
    consults it, and the code never changes it. *)
Record BuildService := {
  _converter : option string;
  build_root : Path;
  cwd : Path;
}.

Definition dq : string := String Py.dquote EmptyString.
Definition nl : string := String (ascii_of_nat 10) EmptyString.

(** The list [lines] that [_render_descriptor] builds. *)
Definition descriptor_lines (project_id : string) (metadata : json)
    : result (list string) :=
  match Py.get metadata "name" (JStr ("OpenCK3 " +:+ project_id)) with
  | Raise e => Raise e
  | Ok name =>
  match Py.get metadata "version" (JStr "1.0") with
  | Raise e => Raise e
  | Ok version =>
  match Py.get metadata "tags" (JArr []) with
  | Raise e => Raise e
  | Ok tags =>
  match Py.get metadata "supported_version" (JStr "1.11.*") with
  | Raise e => Raise e
  | Ok supported_version =>
      let lines :=
        [ "version=" +:+ dq +:+ Py.str version +:+ dq;
          "name=" +:+ dq +:+ Py.str name +:+ dq;
          "supported_version=" +:+ dq +:+ Py.str supported_version +:+ dq ] in
      if Py.truthy tags then
        match Py.iter tags with
        | Raise e => Raise e
        | Ok items =>
            let tags_str := PyStr.join "," (List.map Py.str items) in
            Ok (lines ++ ["tags={ " +:+ tags_str +:+ " }"])
        end
      else Ok lines
  end end end end.

Definition _render_descriptor (project_id : string) (metadata : json) : result string :=
  match descriptor_lines project_id metadata with
  | Ok lines => Ok (PyStr.join nl lines +:+ nl)
  | Raise e => Raise e
  end.

Definition allowed_extensions : gset string := {[ ".ogg"; ".wav" ]}.

Definition _validate_audio (file_path : Path) : result unit :=
  if bool_decide (PyStr.lower (PurePath.suffix file_path) ∉ allowed_extensions)
  then Raise (BuildError ("Unsupported audio format: " +:+ PurePath.suffix file_path))
  else Ok tt.

Definition _build_converter_command (self : BuildService)
    (source destination : Path) : result (list string) :=
  if bool_decide (_converter self = Some "texconv") then
    Ok [ "texconv"; "-f"; "BC7_UNORM"; "-y"; "-o";
         Fs.to_str (PurePath.parent destination); Fs.to_str source ]
  else
    match _converter self with
    | Some c =>
        if bool_decide (c ∈ ({[ "magick"; "convert" ]} : gset string))
        then Ok [ c; Fs.to_str source; Fs.to_str destination ]
        else Raise (BuildError "Unsupported converter configured")
    | None => Raise (BuildError "Unsupported converter configured")
    end.

(** [shutil.which] decides which of the three candidates is found first. *)
Definition _detect_converter (which : string -> bool) : option string :=
  List.find which ["magick"; "convert"; "texconv"].

Section Stages.
Context {Obs : Type}.
Variable subprocess_run : list string -> FS -> CompletedProcess.

Local Open Scope build_scope.

Definition _convert_to_dds (self : BuildService) (source destination : Path)
    : M Obs unit :=
  act (fun fs => Fs.mkdir_p fs (PurePath.parent destination)) >>
  if String.eqb (PyStr.lower (PurePath.suffix source)) ".dds" then
    act (fun fs => Fs.copy2 fs source destination)
  else
    match _converter self with
    | None | Some EmptyString =>
        raise (BuildError "No DDS converter (ImageMagick or texconv) available")
    | Some _ =>
        let! command := of_result (_build_converter_command self source destination) in
        let! proc := fs_op (fun fs => let p := subprocess_run command fs in (p, fs_after p)) in
        if returncode proc =? 0 then ret tt
        else raise (BuildError ("Failed to convert " +:+ PurePath.name source
                                +:+ " to DDS: " +:+ stderr proc))
    end.

(** The body of the loop of [_collect_project_files], up to its report. *)
Definition collect_file (project_path destination file_path : Path) : M Obs unit :=
  let rel := PurePath.relative_to file_path project_path in
  let target := destination // rel in
  act (fun fs => Fs.mkdir_p fs (PurePath.parent target)) >>
  act (fun fs => Fs.copy2 fs file_path target).

(** The loop of [_collect_project_files] over the [files] found. *)
Definition collect_files (project_path destination : Path) (files : list Path)
    (callback : option (ProgressCallback Obs)) : M Obs unit :=
  let total := len_or_1 files in
  for_each (enumerate 1 files) (fun '(index, file_path) =>
    collect_file project_path destination file_path >>
    notify callback "collect" (true_div index total)
           ("Copied " +:+ Fs.to_str (PurePath.relative_to file_path project_path))).

Definition _collect_project_files (project_id : string) (destination : Path)
    (callback : option (ProgressCallback Obs)) : M Obs unit :=
  let! project_path := fs_op (fun fs => storage.project_dir fs project_id) in
  let! files := ask (fun fs => storage.iter_project_files fs project_path) in
  collect_files project_path destination files callback.

(** The body of the loop of [_convert_dds_assets], up to its report. *)
Definition convert_file (self : BuildService) (dds_root file_path : Path) : M Obs unit :=
  let out_name := PurePath.stem file_path +:+ ".dds" in
  let target := dds_root // [out_name] in
  _convert_to_dds self file_path target.

(** The loop of [_convert_dds_assets] over the [files] found. *)
Definition convert_files (self : BuildService) (dds_root : Path) (files : list Path)
    (callback : option (ProgressCallback Obs)) : M Obs unit :=
  let total := len_or_1 files in
  for_each (enumerate 1 files) (fun '(index, file_path) =>
    convert_file self dds_root file_path >>
    notify callback "dds" (true_div index total)
           ("Processed " +:+ PurePath.name file_path)).

Definition _convert_dds_assets (self : BuildService) (project_id : string)
    (destination : Path) (callback : option (ProgressCallback Obs)) : M Obs unit :=
  let source_root := storage.DDS_ROOT // [project_id] in
  let! present := ask (fun fs => Fs.exists_ fs source_root) in
  if negb present then ret tt
  else
    let dds_root := destination // ["gfx"] in
    act (fun fs => Fs.mkdir_p fs dds_root) >>
    let! files := ask (fun fs => List.filter (Fs.is_file fs) (Fs.iterdir fs source_root)) in
    convert_files self dds_root files callback.

(** The body of the loop of [_package_audio_tracks], up to its report. *)
Definition package_file (audio_root file_path : Path) : M Obs unit :=
  of_result (_validate_audio file_path) >>
  let target := audio_root // [PurePath.name file_path] in
  act (fun fs => Fs.copy2 fs file_path target) >>
  let! metadata := fs_try (fun fs => storage.load_asset_metadata fs file_path) in
  if Py.truthy metadata then
    let meta_target :=
      audio_root // [PurePath.name file_path +:+ storage.METADATA_EXTENSION] in
    act (fun fs => storage.save_metadata fs meta_target metadata)
  else ret tt.

(** The loop of [_package_audio_tracks] over the [files] found. *)
Definition package_files (audio_root : Path) (files : list Path)
    (callback : option (ProgressCallback Obs)) : M Obs unit :=
  let total := len_or_1 files in
  for_each (enumerate 1 files) (fun '(index, file_path) =>
    package_file audio_root file_path >>
    notify callback "audio" (true_div index total)
           ("Packaged " +:+ PurePath.name file_path)).

Definition _package_audio_tracks (project_id : string) (destination : Path)
    (callback : option (ProgressCallback Obs)) : M Obs unit :=
  let source_root := storage.AUDIO_ROOT // [project_id] in
  let! present := ask (fun fs => Fs.exists_ fs source_root) in
  if negb present then ret tt
  else
    let audio_root := destination // ["sound"] in
    act (fun fs => Fs.mkdir_p fs audio_root) >>
    let! files := ask (fun fs => List.filter (Fs.is_file fs) (Fs.iterdir fs source_root)) in
    package_files audio_root files callback.

Definition _write_descriptor (project_id : string) (destination : Path)
    (callback : option (ProgressCallback Obs)) : M Obs unit :=
  let! project_path := fs_op (fun fs => storage.project_dir fs project_id) in
  let descriptor_path := destination // ["descriptor.mod"] in
  let metadata_file := project_path // ["project.json"] in
  let! metadata :=
    fs_try (fun fs => if Fs.exists_ fs metadata_file
                      then Fs.load_json fs metadata_file
                      else Ok (JObj [])) in
  let! descriptor := of_result (_render_descriptor project_id metadata) in
  fs_try (fun fs => Fs.open_w fs descriptor_path) >>
  act (fun fs => Fs.write fs descriptor_path (Bytes descriptor)) >>
  notify callback "descriptor" 1 "Descriptor generated".

(** [shutil.make_archive(base_name, "zip", root_dir=work_dir)] packs the
    tree below [work_dir] into [base_name + ".zip"] and returns the name
    of the archive, which it has made absolute. *)
Definition make_archive (self : BuildService) (base_name : Path) (root_dir : Path)
    (fs : FS) : Path * FS :=
  let zip_filename :=
    Fs.abspath (cwd self)
               (PurePath.parent base_name // [PurePath.name base_name +:+ ".zip"]) in
  (zip_filename, Fs.write fs zip_filename (ZipArchive (Fs.members fs root_dir))).

(** [now] is [int(time.time())]. *)
Definition _archive_build (self : BuildService) (now : Z) (project_id : string)
    (work_dir : Path) : M Obs Path :=
  let build_name := project_id +:+ "-" +:+ pretty now in
  let archive_base := build_root self // [build_name] in
  act (fun fs => Fs.mkdir_p fs (PurePath.parent archive_base)) >>
  let! archive_file := fs_op (make_archive self archive_base work_dir) in
  ret archive_file.

End Stages.

(** A stage takes the project, the working directory and a callback of
    any kind. *)
Definition Stage : Type :=
  forall Obs : Type, string -> Path -> option (ProgressCallback Obs) -> M Obs unit.

Section Pipeline.
Variable subprocess_run : list string -> FS -> CompletedProcess.

Local Open Scope build_scope.

(** The [steps] of [build_mod], in order, each with its [__name__]. *)
Definition steps (self : BuildService) : list (string * Stage) :=
  [ ("_collect_project_files", fun Obs => @_collect_project_files Obs);
    ("_convert_dds_assets", fun Obs => @_convert_dds_assets Obs subprocess_run self);
    ("_package_audio_tracks", fun Obs => @_package_audio_tracks Obs);
    ("_write_descriptor", fun Obs => @_write_descriptor Obs) ].

Context {Obs : Type}.

(** [span = 1 / (len(steps) + 1)]. *)
Definition span_of (n : nat) : Q := (1 / inject_Z (Z.of_nat n + 1))%Q.

(** The closure [step_callback] of the loop, with [_index] bound. *)
Definition step_callback (callback : option (ProgressCallback Obs)) (span : Q)
    (_index : Z) : ProgressCallback Obs :=
  fun step_label ratio message obs =>
    match callback with
    | None => obs
    | Some cb => cb step_label (inject_Z (_index - 1) * span + ratio * span)%Q message obs
    end.

(** The body of [build_mod] for a given list of steps; [tmp] is the
    directory [tempfile] creates and removes. *)
Definition build_steps (stages : list (string * Stage)) (self : BuildService)
    (tmp : Path) (now : Z) (project_id : string)
    (callback : option (ProgressCallback Obs)) : M Obs Path :=
  with_cleanup
    (act (fun fs => Fs.mkdir_p fs tmp) >>
     let work_dir := tmp // ["mod"] in
     act (fun fs => Fs.mkdir_p fs work_dir) >>
     let span := span_of (length stages) in
     for_each (enumerate 1 stages) (fun '(index, (__name__, step)) =>
       let step_name := PyStr.removeprefix "_" __name__ in
       notify callback step_name (inject_Z (index - 1) * span)%Q
              ("Running " +:+ PyStr.replace_char "_" " " step_name) >>
       step Obs project_id work_dir (Some (step_callback callback span index))) >>
     notify callback "archive" (inject_Z (Z.of_nat (length stages)) * span)%Q
            "Creating archive" >>
     let! archive_path := _archive_build self now project_id work_dir in
     notify callback "archive" 1 "Build complete" >>
     ret archive_path)
    (fun fs => Fs.rmtree fs tmp).

Definition build_mod (self : BuildService) (tmp : Path) (now : Z)
    (project_id : string) (callback : option (ProgressCallback Obs)) : M Obs Path :=
  build_steps (steps self) self tmp now project_id callback.

End Pipeline.

(** A callback that keeps every call it receives. *)
Definition event : Type := string * Q * string.
Definition recorder : ProgressCallback (list event) :=
  fun step ratio message trace => trace ++ [(step, ratio, message)].

(** The effect on an observer of a callback fed a list of calls in order. *)
Definition replay {Obs} (cb : ProgressCallback Obs) (trace : list event) (obs : Obs) : Obs :=
  foldl (fun o '(step, ratio, message) => cb step ratio message o) obs trace.

(** ** Two runs of one computation under two callbacks *)

(** A relation [R] between what two observers hold extends to worlds that
    share their file system, and to computations that keep worlds related
    and agree on their outcome. *)
Section Relating.
Context {O1 O2 : Type} (R : O1 -> O2 -> Prop).

Definition wrel (w1 : world O1) (w2 : world O2) : Prop :=
  w_fs w1 = w_fs w2 /\ R (w_obs w1) (w_obs w2).

Definition mrel {A} (m1 : M O1 A) (m2 : M O2 A) : Prop :=
  forall w1 w2, wrel w1 w2 ->
    (m1 w1).1 = (m2 w2).1 /\ wrel (m1 w1).2 (m2 w2).2.

(** What an optional callback does to its observer. *)
Definition cbrel (c1 : option (ProgressCallback O1))
    (c2 : option (ProgressCallback O2)) : Prop :=
  forall step ratio message o1 o2, R o1 o2 ->
    R (from_option (fun cb => cb step ratio message o1) o1 c1)
      (from_option (fun cb => cb step ratio message o2) o2 c2).

End Relating.

(** A stage is [parametric] when it does with any two related callbacks
    related things: it only ever calls the callback it is given. *)
Definition parametric (step : Stage) : Prop :=
  forall (O1 O2 : Type) (R : O1 -> O2 -> Prop) c1 c2 project_id work_dir,
    cbrel R c1 c2 ->
    mrel R (step O1 project_id work_dir c1) (step O2 project_id work_dir c2).

(** ** The slicing of progress, as the specification words it *)

(** Stage [index] owns the slice from [(index - 1) * span] on: a report [r]
    of the stage becomes [(index - 1) * span + r * span]. *)
Definition rescale (span : Q) (index : Z) (e : event) : event :=
  let '(label, r, message) := e in
  (label, (inject_Z (index - 1) * span + r * span)%Q, message).

(** What the stage itself reports, and what it leaves. *)
Definition stage_alone (step : Stage) (project_id : string) (work_dir : Path) (fs : FS)
    : result unit * world (list event) :=
  step (list event) project_id work_dir (Some recorder) (World fs []).

(** Before stage [index] the report [(index - 1) * span], then the reports
    of the stage in its slice; the stages follow each other until one
    fails. *)
Fixpoint spec_stage_slices (span : Q) (project_id : string) (work_dir : Path)
    (stages : list (Z * (string * Stage))) (fs : FS)
    : result unit * FS * list event :=
  match stages with
  | [] => (Ok tt, fs, [])
  | (index, (__name__, step)) :: rest =>
      let step_name := PyStr.removeprefix "_" __name__ in
      let '(r, w) := stage_alone step project_id work_dir fs in
      let slice :=
        (step_name, (inject_Z (index - 1) * span)%Q,
         "Running " +:+ PyStr.replace_char "_" " " step_name)
        :: List.map (rescale span index) (w_obs w) in
      match r with
      | Ok _ =>
          let '(r', fs', later) :=
            spec_stage_slices span project_id work_dir rest (w_fs w) in
          (r', fs', slice ++ later)
      | Raise e => (Raise e, w_fs w, slice)
      end
  end.

(** After the [n] stages the report [n * span], the archive, the report
    [1]; the working directory goes on every exit. *)
Definition spec_build_trace (stages : list (string * Stage)) (self : BuildService)
    (tmp : Path) (now : Z) (project_id : string) (fs : FS)
    : result Path * FS * list event :=
  let n := length stages in
  let span := span_of n in
  let work_dir := tmp // ["mod"] in
  let fs0 := Fs.mkdir_p (Fs.mkdir_p fs tmp) work_dir in
  match spec_stage_slices span project_id work_dir (enumerate 1 stages) fs0 with
  | (Raise e, fs1, slices) => (Raise e, Fs.rmtree fs1 tmp, slices)
  | (Ok _, fs1, slices) =>
      let '(r, w) :=
        _archive_build (Obs:=unit) self now project_id work_dir (World fs1 tt) in
      (r, Fs.rmtree (w_fs w) tmp,
       slices ++ [("archive", (inject_Z (Z.of_nat n) * span)%Q, "Creating archive")]
              ++ match r with
                 | Ok _ => [("archive", 1%Q, "Build complete")]
                 | Raise _ => []
                 end)
  end.

(** A stage reports ratios of [[0, 1]] that never decrease. *)
Definition ratio_of (e : event) : Q := e.1.2.

Definition nondecreasing (qs : list Q) : Prop :=
  forall i j a b, (i <= j)%nat -> qs !! i = Some a -> qs !! j = Some b -> (a <= b)%Q.

Definition within (lo hi : Q) (qs : list Q) : Prop :=
  Forall (fun q => (lo <= q <= hi)%Q) qs.

Definition sub_progress (trace : list event) : Prop :=
  within 0 1 (List.map ratio_of trace) /\ nondecreasing (List.map ratio_of trace).

Definition well_reported (step : Stage) : Prop :=
  forall project_id work_dir fs,
    sub_progress (w_obs (stage_alone step project_id work_dir fs).2).

(** ** [BuildJob] and [BuildManager] *)

Module BuildJob.

Record t := mk {
  id : string;
  project_id : string;
  status : string;
  progress : Q;
  message : string;
  artifact_path : option Path;
  created_at : Q;
  updated_at : Q;
}.

Definition set_status (v : string) (j : t) : t :=
  mk (id j) (project_id j) v (progress j) (message j) (artifact_path j)
     (created_at j) (updated_at j).
Definition set_progress (v : Q) (j : t) : t :=
  mk (id j) (project_id j) (status j) v (message j) (artifact_path j)
     (created_at j) (updated_at j).
Definition set_message (v : string) (j : t) : t :=
  mk (id j) (project_id j) (status j) (progress j) v (artifact_path j)
     (created_at j) (updated_at j).
Definition set_artifact_path (v : option Path) (j : t) : t :=
  mk (id j) (project_id j) (status j) (progress j) (message j) v
     (created_at j) (updated_at j).
Definition set_updated_at (v : Q) (j : t) : t :=
  mk (id j) (project_id j) (status j) (progress j) (message j) (artifact_path j)
     (created_at j) v.

(** [to_dict]: the fields by value, the artifact path as a string. *)
Record dict := mk_dict {
  d_id : string;
  d_project_id : string;
  d_status : string;
  d_progress : Q;
  d_message : string;
  d_artifact_path : option string;
  d_created_at : Q;
  d_updated_at : Q;
}.

Definition to_dict (j : t) : dict :=
  mk_dict (id j) (project_id j) (status j) (progress j) (message j)
          (match artifact_path j with
           | Some p => Some (Fs.to_str p)
           | None => None
           end)
          (created_at j) (updated_at j).

(** A status from which the job does not move. *)
Definition terminal (j : t) : bool :=
  String.eqb (status j) "completed" || String.eqb (status j) "failed".

End BuildJob.

(** [time.time()]: the clock hands out its readings one after the other. *)
Record Clock := { reads : nat; reading : nat -> Q }.

Definition time_time (c : Clock) : Q * Clock :=
  (reading c (reads c), {| reads := S (reads c); reading := reading c |}).

(** A [BuildJob] object lives at a location of the heap; the registry
    [BuildManager.jobs] maps a job id to the object, not to a copy of it. *)
Definition loc := positive.

Record Runtime := {
  jobs : gmap string loc;
  heap : gmap loc BuildJob.t;
  clock : Clock;
}.

Definition modify_job (job : loc) (f : BuildJob.t -> BuildJob.t) (rt : Runtime) : Runtime :=
  {| jobs := jobs rt; heap := alter f job (heap rt); clock := clock rt |}.

(** Reading a field through a reference. *)
Definition deref (rt : Runtime) (job : loc) : option BuildJob.t := heap rt !! job.

(** [start_build], up to the start of the thread; [job_id] is the
    [uuid4] drawn.  The reference returned is the one stored. *)
Definition start_build (job_id project_id : string) (rt : Runtime) : loc * Runtime :=
  let '(t1, c1) := time_time (clock rt) in
  let '(t2, c2) := time_time c1 in
  let job := BuildJob.mk job_id project_id "queued" 0 "Queued" None t1 t2 in
  let l := fresh (dom (heap rt)) in
  (l, {| jobs := <[job_id := l]> (jobs rt); heap := <[l := job]> (heap rt); clock := c2 |}).

Definition get_job (rt : Runtime) (job_id : string) : option loc :=
  jobs rt !! job_id.

Definition list_jobs (rt : Runtime) : list loc :=
  List.map snd (map_to_list (jobs rt)).

(** What a caller reads who polls [get_job] and looks at the record. *)
Definition poll (rt : Runtime) (job_id : string) : option BuildJob.t :=
  match get_job rt job_id with
  | Some job => deref rt job
  | None => None
  end.

(** The closure [update] of [_run_job]: one critical section. *)
Definition update (job : loc) : ProgressCallback Runtime :=
  fun step ratio message rt =>
    let '(now, c) := time_time (clock rt) in
    {| jobs := jobs rt;
       heap := alter (fun j => BuildJob.set_updated_at now
                        (BuildJob.set_message message
                          (BuildJob.set_progress ratio
                            (BuildJob.set_status "running" j)))) job (heap rt);
       clock := c |}.

(** The critical section of the success branch. *)
Definition complete (job : loc) (archive_path : Path) (rt : Runtime) : Runtime :=
  let '(now, c) := time_time (clock rt) in
  {| jobs := jobs rt;
     heap := alter (fun j => BuildJob.set_updated_at now
                      (BuildJob.set_artifact_path (Some archive_path)
                        (BuildJob.set_message "Build completed"
                          (BuildJob.set_progress 1
                            (BuildJob.set_status "completed" j))))) job (heap rt);
     clock := c |}.

(** The critical section of the [except] branch. *)
Definition fail (job : loc) (msg : string) (rt : Runtime) : Runtime :=
  let '(now, c) := time_time (clock rt) in
  {| jobs := jobs rt;
     heap := alter (fun j => BuildJob.set_updated_at now
                      (BuildJob.set_message msg
                        (BuildJob.set_status "failed" j))) job (heap rt);
     clock := c |}.

Section RunJob.
Variable subprocess_run : list string -> FS -> CompletedProcess.
Variable self : BuildService.

(** [_run_job] from start to end. *)
Definition _run_job (tmp : Path) (now : Z) (job_id : string)
    (fs : FS) (rt : Runtime) : FS * Runtime :=
  match get_job rt job_id with
  | None => (fs, rt)
  | Some job =>
      let rt1 := modify_job job (BuildJob.set_status "running") rt in
      let rt2 := modify_job job (BuildJob.set_message "Starting build") rt1 in
      match deref rt2 job with
      | None => (fs, rt2)
      | Some j =>
          match build_mod subprocess_run self tmp now (BuildJob.project_id j)
                          (Some (update job)) (World fs rt2) with
          | (Ok archive_path, w) => (w_fs w, complete job archive_path (w_obs w))
          | (Raise exc, w) => (w_fs w, fail job (exn_str exc) (w_obs w))
          end
      end
  end.

(** *** The writes of one job, one by one *)

(** Every assignment [_run_job] makes to its job, as other threads can
    see it happen: the two unguarded assignments, then one step per
    critical section. *)
Inductive write :=
  | SetRunning
  | SetStarting
  | Update (step : string) (ratio : Q) (message : string)
  | Complete (archive_path : Path)
  | Fail (msg : string).

Definition apply_write (job : loc) (rt : Runtime) (wr : write) : Runtime :=
  match wr with
  | SetRunning => modify_job job (BuildJob.set_status "running") rt
  | SetStarting => modify_job job (BuildJob.set_message "Starting build") rt
  | Update step ratio message => update job step ratio message rt
  | Complete archive_path => complete job archive_path rt
  | Fail msg => fail job msg rt
  end.

(** The writes of a job whose build produced [trace] and ended in [r]. *)
Definition writes_of (trace : list event) (r : result Path) : list write :=
  SetRunning :: SetStarting ::
  List.map (fun '(step, ratio, message) => Update step ratio message) trace ++
  [match r with
   | Ok archive_path => Complete archive_path
   | Raise exc => Fail (exn_str exc)
   end].

(** The build of a job, run with the recording callback. *)
Definition recorded_build (tmp : Path) (now : Z) (project_id : string) (fs : FS)
    : result Path * world (list event) :=
  build_mod subprocess_run self tmp now project_id (Some recorder) (World fs []).

Definition job_writes (tmp : Path) (now : Z) (project_id : string) (fs : FS)
    : list write :=
  let '(r, w) := recorded_build tmp now project_id fs in
  writes_of (w_obs w) r.

(** The states the registry goes through while [writes] are applied. *)
Fixpoint states_from (job : loc) (rt : Runtime) (writes : list write) : list Runtime :=
  match writes with
  | [] => [rt]
  | wr :: rest => rt :: states_from job (apply_write job rt wr) rest
  end.

(** *** The assignments of one job, one by one *)

(** A write is a run of assignments to the fields of the job.  The lock
    keeps the critical sections of different threads apart; it hides
    nothing from a reader, who holds the record itself ([get_job] returns
    it, not a copy) and reads its fields without the lock. *)
Inductive assign :=
  | SetStatus (v : string)
  | SetProgress (v : Q)
  | SetMessage (v : string)
  | SetArtifactPath (v : Path)
  | SetUpdatedAt.

(** The assignments of a write, in the order of the source. *)
Definition assignments (wr : write) : list assign :=
  match wr with
  | SetRunning => [SetStatus "running"]
  | SetStarting => [SetMessage "Starting build"]
  | Update _ ratio message =>
      [SetStatus "running"; SetProgress ratio; SetMessage message; SetUpdatedAt]
  | Complete archive_path =>
      [SetStatus "completed"; SetProgress 1; SetMessage "Build completed";
       SetArtifactPath archive_path; SetUpdatedAt]
  | Fail msg => [SetStatus "failed"; SetMessage msg; SetUpdatedAt]
  end.

(** One assignment through the reference; [job.updated_at = time.time()]
    reads the clock. *)
Definition apply_assign (job : loc) (rt : Runtime) (a : assign) : Runtime :=
  match a with
  | SetStatus v => modify_job job (BuildJob.set_status v) rt
  | SetProgress v => modify_job job (BuildJob.set_progress v) rt
  | SetMessage v => modify_job job (BuildJob.set_message v) rt
  | SetArtifactPath v => modify_job job (BuildJob.set_artifact_path (Some v)) rt
  | SetUpdatedAt =>
      let '(now, c) := time_time (clock rt) in
      {| jobs := jobs rt;
         heap := alter (BuildJob.set_updated_at now) job (heap rt);
         clock := c |}
  end.

(** *** Threads *)

(** A thread of [_run_job] is about to fetch its job, or holds the
    reference and has some assignments still to make, or has returned for
    want of a job. *)
Inductive thread :=
  | Spawned (job_id : string)
  | Running (job : loc) (pending : list assign)
  | Returned.

Record config := {
  c_fs : FS;
  c_rt : Runtime;
  c_threads : list thread;
}.

(** [tempfile] hands out a directory that is not there yet, in the
    temporary directory of the system: away from the build root. *)
Definition fresh_dir (fs : FS) (tmp : Path) : Prop :=
  let root := Fs.abspath (cwd self) (build_root self) in
  (forall p : Path, is_Some (fs !! p) -> ~ tmp `prefix_of` p) /\
  ~ tmp `prefix_of` root /\ ~ root `prefix_of` tmp.

(** One step of the process: a call of [start_build] with a [uuid4] not
    drawn before, a thread that takes up its job and builds, a thread
    that makes its next assignment.  Any thread may go next, so that the
    runs of the relation include every interleaving the lock allows.
    [get_job], [list_jobs] and the reading of a field change nothing and
    are no steps: a reader sees the record of the state it reads in. *)
Inductive step : config -> config -> Prop :=
  | step_start_build c job_id project_id :
      jobs (c_rt c) !! job_id = None ->
      step c {| c_fs := c_fs c;
                c_rt := (start_build job_id project_id (c_rt c)).2;
                c_threads := c_threads c ++ [Spawned job_id] |}
  | step_thread_gone c before after job_id :
      c_threads c = before ++ Spawned job_id :: after ->
      get_job (c_rt c) job_id = None ->
      step c {| c_fs := c_fs c; c_rt := c_rt c;
                c_threads := before ++ Returned :: after |}
  | step_thread_build c before after job_id job j tmp now :
      c_threads c = before ++ Spawned job_id :: after ->
      get_job (c_rt c) job_id = Some job ->
      deref (c_rt c) job = Some j ->
      fresh_dir (c_fs c) tmp ->
      step c {| c_fs := w_fs (recorded_build tmp now (BuildJob.project_id j) (c_fs c)).2;
                c_rt := c_rt c;
                c_threads := before ++
                  Running job (List.flat_map assignments
                                 (job_writes tmp now (BuildJob.project_id j) (c_fs c)))
                  :: after |}
  | step_thread_assign c before after job a pending :
      c_threads c = before ++ Running job (a :: pending) :: after ->
      step c {| c_fs := c_fs c;
                c_rt := apply_assign job (c_rt c) a;
                c_threads := before ++ Running job pending :: after |}.

Definition initial (c : config) : Prop :=
  jobs (c_rt c) = ∅ /\ heap (c_rt c) = ∅ /\ c_threads c = [].

Definition reachable (c : config) : Prop :=
  exists c0, initial c0 /\ rtc step c0 c.

End RunJob.

(** The progress a record shows after a write, and after each of a list
    of writes in turn. *)
Definition progress_after (p : Q) (wr : write) : Q :=
  match wr with
  | Update _ ratio _ => ratio
  | Complete _ => 1%Q
  | SetRunning | SetStarting | Fail _ => p
  end.

Fixpoint progress_trail (p : Q) (writes : list write) : list Q :=
  match writes with
  | [] => []
  | wr :: rest => progress_after p wr :: progress_trail (progress_after p wr) rest
  end.


(** ** The arithmetic of the slices in binary64 *)

Module Binary64.

(** [span = 1 / (len(steps) + 1)], [(index - 1) * span] and
    [(_index - 1) * span + ratio * span] on binary64 numbers; the integers
    of the source are small and exact as such. *)
Definition span_of (n : float) : float := (1 / (n + 1))%float.

Definition before_stage (span index : float) : float := ((index - 1) * span)%float.

Definition in_stage (span index ratio : float) : float :=
  ((index - 1) * span + ratio * span)%float.

Fixpoint nondecreasing (xs : list float) : bool :=
  match xs with
  | x :: (y :: _) as rest => PrimFloat.leb x y && nondecreasing rest
  | _ => true
  end.

End Binary64.

(** ** Predicates of the statements *)

(** A file the texture stage copies as it is. *)
Definition is_dds (file_path : Path) : bool :=
  String.eqb (PyStr.lower (PurePath.suffix file_path)) ".dds".

(** A computation is [sound] for an invariant of the file system when it
    keeps the invariant and raises no exception without a message. *)
Definition sound {Obs A : Type} (I : FS -> Prop) (m : M Obs A) : Prop :=
  forall w, I (w_fs w) ->
    I (w_fs (m w).2) /\ forall e, (m w).1 = Raise e -> exn_str e <> EmptyString.

(** The file at [p] is there. *)
Definition file_kept (p : Path) (fs : FS) : Prop := Fs.is_file fs p = true.

(** The path of the archive of a build. *)
Definition archive_path_of (self : BuildService) (now : Z) (project_id : string) : Path :=
  Fs.abspath (cwd self) (build_root self // [project_id +:+ "-" +:+ pretty now +:+ ".zip"]).

(** What an assignment does to the record it is made to; [now] is the
    reading of the clock. *)
Definition assign_record (now : Q) (a : assign) (j : BuildJob.t) : BuildJob.t :=
  match a with
  | SetStatus v => BuildJob.set_status v j
  | SetProgress v => BuildJob.set_progress v j
  | SetMessage v => BuildJob.set_message v j
  | SetArtifactPath v => BuildJob.set_artifact_path (Some v) j
  | SetUpdatedAt => BuildJob.set_updated_at now j
  end.

(** An assignment of the writes before the last: the status of a running
    job, a ratio up to [hi], a message that says something. *)
Definition plain (hi : Q) (a : assign) : Prop :=
  match a with
  | SetStatus v => v = "running"
  | SetProgress r => (0 <= r <= hi)%Q
  | SetMessage m => m <> EmptyString
  | SetArtifactPath _ => False
  | SetUpdatedAt => True
  end.

(** The progress a record shows once the assignments [pre] are made. *)
Definition progress_through (p : Q) (pre : list assign) : Q :=
  foldl (fun p a => match a with SetProgress r => r | _ => p end) p pre.

(** The last write of a thread names an archive of the project that is
    there, or carries a message. *)
Definition last_write_ok (self : BuildService) (fs : FS) (project_id : string)
    (fin : write) : Prop :=
  match fin with
  | Complete archive_path =>
      Fs.is_file fs archive_path = true /\
      exists now, archive_path = archive_path_of self now project_id
  | Fail msg => msg <> EmptyString
  | _ => False
  end.

(** A record whose thread has its last write [fin] still before it, the
    assignments [pre] coming first. *)
Definition before_last (fin : write) (j : BuildJob.t) (pre : list assign) : Prop :=
  (BuildJob.status j = "queued" /\ (exists pre', pre = SetStatus "running" :: pre') \/
   BuildJob.status j = "running") /\
  BuildJob.artifact_path j = None /\
  match fin with
  | Complete _ =>
      Forall (plain 1) pre /\ (progress_through (BuildJob.progress j) pre == 1)%Q
  | Fail _ => Forall (plain (4 # 5)) pre /\ (BuildJob.progress j <= 4 # 5)%Q
  | _ => False
  end.

(** A record whose thread has made the first [k] assignments of its last
    write [fin]. *)
Definition in_last (fin : write) (k : nat) (j : BuildJob.t) : Prop :=
  match fin with
  | Complete archive_path =>
      BuildJob.status j = "completed" /\
      ((3 <= k)%nat -> BuildJob.message j = "Build completed") /\
      BuildJob.artifact_path j = (if (4 <=? k)%nat then Some archive_path else None)
  | Fail msg =>
      BuildJob.status j = "failed" /\
      ((2 <= k)%nat -> BuildJob.message j = msg) /\
      BuildJob.artifact_path j = None
  | _ => False
  end.

Definition pending_ok (self : BuildService) (fs : FS) (j : BuildJob.t)
    (pending : list assign) : Prop :=
  exists fin,
    last_write_ok self fs (BuildJob.project_id j) fin /\
    ((exists pre, pending = pre ++ assignments fin /\ before_last fin j pre) \/
     (exists k, (0 < k)%nat /\ pending = drop k (assignments fin) /\ in_last fin k j)).

(** What every record shows, whatever its thread is at. *)
Definition record_ok (self : BuildService) (fs : FS) (j : BuildJob.t) : Prop :=
  (0 <= BuildJob.progress j <= 1)%Q /\
  BuildJob.message j <> EmptyString /\
  (BuildJob.status j = "queued" /\ (BuildJob.progress j == 0)%Q \/
   BuildJob.status j = "running" \/
   BuildJob.status j = "completed" /\ (BuildJob.progress j == 1)%Q \/
   BuildJob.status j = "failed" /\ (BuildJob.progress j <= 4 # 5)%Q) /\
  match BuildJob.artifact_path j with
  | Some archive_path =>
      BuildJob.status j = "completed" /\ Fs.is_file fs archive_path = true /\
      exists now, archive_path = archive_path_of self now (BuildJob.project_id j)
  | None => True
  end.

Definition thread_loc (rt : Runtime) (th : thread) : option loc :=
  match th with
  | Spawned job_id => jobs rt !! job_id
  | Running job _ => Some job
  | Returned => None
  end.

Definition thread_ok (self : BuildService) (fs : FS) (rt : Runtime) (th : thread) : Prop :=
  match th with
  | Spawned job_id =>
      exists job j, jobs rt !! job_id = Some job /\ heap rt !! job = Some j /\
                    BuildJob.status j = "queued" /\ BuildJob.artifact_path j = None
  | Running job pending =>
      exists j, heap rt !! job = Some j /\ pending_ok self fs j pending
  | Returned => True
  end.

(** What holds of every state the process reaches: each thread is where
    its assignments say, no two threads have the same job, every record
    is as a record can be, and the registry knows each job by its id. *)
Definition invariant (self : BuildService) (c : config) : Prop :=
  Forall (thread_ok self (c_fs c) (c_rt c)) (c_threads c) /\
  NoDup (omap (thread_loc (c_rt c)) (c_threads c)) /\
  (forall job j, heap (c_rt c) !! job = Some j -> record_ok self (c_fs c) j) /\
  (forall job_id job, jobs (c_rt c) !! job_id = Some job ->
     exists j, heap (c_rt c) !! job = Some j /\ BuildJob.id j = job_id).

(** The worker of a job is through when it has no assignment left. *)
Definition through (c : config) (job : loc) : Prop := Running job [] ∈ c_threads c.

(** A trace whose messages all say something, a callback that keeps such
    a trace when it is told something, and a computation that does. *)
Definition spoken (trace : list event) : Prop :=
  Forall (fun e : event => e.2 <> EmptyString) trace.

Definition polite (cb : ProgressCallback (list event)) : Prop :=
  forall step ratio message trace,
    message <> EmptyString -> spoken trace -> spoken (cb step ratio message trace).

Definition speaks {A : Type} (m : M (list event) A) : Prop :=
  forall w, spoken (w_obs w) -> spoken (w_obs (m w).2).

(** The converter is taken to remove no file. *)
Definition keeps_files (subprocess_run : list string -> FS -> CompletedProcess) : Prop :=
  forall command fs (p : Path),
    Fs.is_file fs p = true -> Fs.is_file (fs_after (subprocess_run command fs)) p = true.

(** ** A project, a service and a registry to run the definitions on *)

Module Example.

(** A converter that always fails, and a service that found none. *)
Definition converter_fails : list string -> FS -> CompletedProcess :=
  fun _ fs => {| returncode := 1; stderr := "no decode delegate"; fs_after := fs |}.

Definition service : BuildService :=
  {| _converter := _detect_converter (fun _ => false);
     build_root := storage.BASE_STORAGE // ["builds"];
     cwd := ["/"; "srv"; "openck3"] |}.

Definition tmp : Path := ["/"; "tmp"; "openck3-abc-k3x9"].
Definition work_dir : Path := tmp // ["mod"].

(** Project [abc]: one file, one texture already in DDS, one sound. *)
Definition fs_abc : FS :=
  list_to_map
    [ (["storage"], Dir); (["storage"; "builds"], Dir);
      (["storage"; "projects"], Dir); (["storage"; "projects"; "abc"], Dir);
      (["storage"; "projects"; "abc"; "events.txt"], File (Bytes "namespace = abc"));
      (["storage"; "assets"], Dir); (["storage"; "assets"; "dds"], Dir);
      (["storage"; "assets"; "dds"; "abc"], Dir);
      (["storage"; "assets"; "dds"; "abc"; "crest.dds"], File (Bytes "DDS "));
      (["storage"; "assets"; "audio"], Dir); (["storage"; "assets"; "audio"; "abc"], Dir);
      (["storage"; "assets"; "audio"; "abc"; "march.OGG"], File (Bytes "OggS")) ].

(** A sound with a sidecar that says something, and one whose sidecar is
    the empty object. *)
Definition march : Path := ["storage"; "assets"; "audio"; "abc"; "march.ogg"].

Definition fs_sidecar (metadata : json) : FS :=
  list_to_map
    [ (["storage"; "assets"; "audio"; "abc"], Dir);
      (march, File (Bytes "OggS"));
      (["storage"; "assets"; "audio"; "abc"; "march.ogg.json"], File (JsonDoc metadata)) ].

Definition credits : json :=
  JObj [("title", JStr "March"); ("composer", JStr "Anon")].

(** An audio directory with two sounds, and the same with a file that is
    no sound. *)
Definition fs_sounds : FS :=
  list_to_map
    [ (["storage"; "assets"; "audio"; "abc"], Dir);
      (march, File (Bytes "OggS"));
      (["storage"; "assets"; "audio"; "abc"; "theme.wav"], File (Bytes "RIFF")) ].

Definition fs_mp3 : FS :=
  <[ (["storage"; "assets"; "audio"; "abc"; "song.mp3"] : Path) := File (Bytes "ID3") ]>
    fs_sounds.

Definition clock0 : Clock :=
  {| reads := 0; reading := fun n => inject_Z (1700000000 + Z.of_nat n) |}.

Definition rt0 : Runtime := {| jobs := ∅; heap := ∅; clock := clock0 |}.

Definition job1 : loc := (start_build "job-1" "abc" rt0).1.
Definition rt1 : Runtime := (start_build "job-1" "abc" rt0).2.

Definition queued1 : BuildJob.t :=
  BuildJob.mk "job-1" "abc" "queued" 0 "Queued" None
              (inject_Z 1700000000) (inject_Z 1700000001).

(** The process before any build, and after the build of [job-1]. *)
Definition c_start : config := {| c_fs := fs_abc; c_rt := rt0; c_threads := [] |}.

Definition c_end : config :=
  {| c_fs := w_fs (recorded_build converter_fails service tmp 1700000000 "abc" fs_abc).2;
     c_rt := (_run_job converter_fails service tmp 1700000000 "job-1" fs_abc rt1).2;
     c_threads := [Running job1 []] |}.

(** The same process one assignment into the last critical section of
    [job-1]: the status is written, the four assignments after it are
    still to come. *)
Definition assigns1 : list assign :=
  List.flat_map assignments (job_writes converter_fails service tmp 1700000000 "abc" fs_abc).

Definition c_torn : config :=
  {| c_fs := w_fs (recorded_build converter_fails service tmp 1700000000 "abc" fs_abc).2;
     c_rt := foldl (apply_assign job1) rt1 (take (length assigns1 - 4) assigns1);
     c_threads := [Running job1 (drop (length assigns1 - 4) assigns1)] |}.

End Example.

(** ** [backend/app/api.py] *)

Module api.

(** A handler returns its response, raises [HTTPException], or lets
    another exception through. *)
Inductive outcome (A : Type) :=
  | Response (a : A)
  | HTTPException (status_code : Z) (detail : string)
  | Uncaught (e : exn).
Arguments Response {A} a.
Arguments HTTPException {A} status_code detail.
Arguments Uncaught {A} e.

(** [_parse_metadata]; [json_loads] is [json.loads], [None] standing for
    [JSONDecodeError]. *)
Definition _parse_metadata (json_loads : string -> option json)
    (raw_metadata : option string) : outcome json :=
  match raw_metadata with
  | None | Some EmptyString => Response (JObj [])
  | Some raw =>
      match json_loads raw with
      | None => HTTPException 400 "Invalid metadata payload"
      | Some (JObj members) => Response (JObj members)
      | Some _ => HTTPException 400 "Metadata must be an object"
      end
  end.

(** [key in payload] on a [dict]. *)
Definition has_key (key : string) (payload : json) : bool :=
  match payload with
  | JObj members => bool_decide (is_Some (Py.assoc key members))
  | _ => false
  end.

(** The first of the [required] keys that the payload lacks. *)
Definition first_missing (required : list string) (payload : json) : option string :=
  List.find (fun key => negb (has_key key payload)) required.

(** [_persist_upload]: [temp_path.replace(destination)] moves the file,
    over a file that is there, and fails on a directory.  The temporary
    path holds a file; the move of a tree is not modelled. *)
Definition _persist_upload (fs : FS) (temp_path destination : Path) : result unit * FS :=
  let fs1 := Fs.mkdir_p fs (PurePath.parent destination) in
  match fs1 !! temp_path, fs1 !! destination with
  | Some (File d), Some Dir =>
      (Raise (BuiltinError "IsADirectoryError"
                ("[Errno 21] Is a directory: " +:+ Py.repr_str (Fs.to_str temp_path)
                 +:+ " -> " +:+ Py.repr_str (Fs.to_str destination))), fs1)
  | Some n, _ => (Ok tt, <[destination := n]> (delete temp_path fs1))
  | None, _ =>
      (Raise (BuiltinError "FileNotFoundError"
                ("[Errno 2] No such file or directory: " +:+ Py.repr_str (Fs.to_str temp_path)
                 +:+ " -> " +:+ Py.repr_str (Fs.to_str destination))), fs1)
  end.

(** The body shared by [upload_dds] and [upload_audio]: the extension
    check, the metadata with its required keys, the temporary file, the
    move into the asset directory, the sidecar, and the removal of the
    temporary file on every exit.  The name of the upload is one path
    component; [temp_path] is the name [tempfile] draws. *)
Definition upload (json_loads : string -> option json)
    (allowed_extensions : gset string) (unsupported : string)
    (required : list string) (missing : string -> string)
    (root : Path) (kind : string) (temp_path : Path)
    (project_id filename content : string) (metadata : option string) (fs : FS)
    : outcome storage.AssetRecord * FS :=
  let extension := PyStr.lower (PurePath.suffix [filename]) in
  if bool_decide (extension ∉ allowed_extensions) then (HTTPException 415 unsupported, fs)
  else
    match _parse_metadata json_loads metadata with
    | HTTPException code detail => (HTTPException code detail, fs)
    | Uncaught e => (Uncaught e, fs)
    | Response meta_payload =>
        match first_missing required meta_payload with
        | Some key => (HTTPException 422 (missing key), fs)
        | None =>
            let fs1 := Fs.write fs temp_path (Bytes content) in
            let '(destination_dir, fs2) := storage.asset_dir fs1 root project_id in
            let destination := destination_dir // [filename] in
            match _persist_upload fs2 temp_path destination with
            | (Raise e, fs3) => (Uncaught e, delete temp_path fs3)
            | (Ok _, fs3) =>
                let sidecar :=
                  PurePath.with_suffix destination
                    (PurePath.suffix destination +:+ storage.METADATA_EXTENSION) in
                let fs4 := storage.save_metadata fs3 sidecar meta_payload in
                (Response {| storage.project_id := project_id;
                             storage.filename := filename;
                             storage.kind := kind;
                             storage.metadata := meta_payload |},
                 delete temp_path fs4)
            end
        end
    end.

Definition upload_dds (json_loads : string -> option json) :=
  upload json_loads {[ ".dds"; ".png"; ".tga"; ".jpg"; ".jpeg" ]}
         "Unsupported texture format" ["usage"]
         (fun _ => "Texture metadata must include a 'usage' field")
         storage.DDS_ROOT "dds".

Definition upload_audio (json_loads : string -> option json) :=
  upload json_loads {[ ".ogg"; ".wav" ]}
         "Unsupported audio format" ["title"; "composer"]
         (fun required => "Audio metadata must include '" +:+ required +:+ "'")
         storage.AUDIO_ROOT "audio".

(** [get_build]: the record of the job by value. *)
Definition get_build (rt : Runtime) (job_id : string) : outcome BuildJob.dict :=
  match poll rt job_id with
  | Some j => Response (BuildJob.to_dict j)
  | None => HTTPException 404 "Build not found"
  end.

Definition list_builds (rt : Runtime) : list BuildJob.dict :=
  omap (fun job => BuildJob.to_dict <$> deref rt job) (list_jobs rt).

(** [FileResponse(path, filename=...)]. *)
Record FileResponse := { path : Path; filename : string }.

Definition download_build (rt : Runtime) (job_id : string) : outcome FileResponse :=
  match poll rt job_id with
  | Some j =>
      if negb (String.eqb (BuildJob.status j) "completed")
      then HTTPException 404 "Build artifact unavailable"
      else
        match BuildJob.artifact_path j with
        | Some artifact_path =>
            Response {| path := artifact_path; filename := PurePath.name artifact_path |}
        | None => HTTPException 404 "Build artifact unavailable"
        end
  | None => HTTPException 404 "Build artifact unavailable"
  end.

(** [shutil.copy2] with the failures it can meet: a destination that is a
    directory receives the file under its own name; source and
    destination may not be the same file; the source must be a file. *)
Definition copy2 (fs : FS) (src dst : Path) : result FS :=
  let target := if Fs.is_dir fs dst then dst // [PurePath.name src] else dst in
  if Fs.exists_ fs src && bool_decide (target = src) then
    Raise (BuiltinError "SameFileError"
             ("PosixPath(" +:+ Py.repr_str (Fs.to_str src) +:+ ") and "
              +:+ (if Fs.is_dir fs dst then Py.repr_str (Fs.to_str target)
                   else "PosixPath(" +:+ Py.repr_str (Fs.to_str target) +:+ ")")
              +:+ " are the same file"))
  else
    match fs !! src with
    | None =>
        Raise (BuiltinError "FileNotFoundError"
                 ("[Errno 2] No such file or directory: " +:+ Py.repr_str (Fs.to_str src)))
    | Some Dir =>
        Raise (BuiltinError "IsADirectoryError"
                 ("[Errno 21] Is a directory: " +:+ Py.repr_str (Fs.to_str src)))
    | Some (File d) =>
        if Fs.is_dir fs target
        then Raise (BuiltinError "IsADirectoryError"
                      ("[Errno 21] Is a directory: " +:+ Py.repr_str (Fs.to_str target)))
        else Ok (<[target := File d]> fs)
    end.

(** [upload_to_workshop]; the response is the dictionary it returns. *)
Definition upload_to_workshop (job_id visibility : string) (fs : FS) (rt : Runtime)
    : outcome (list (string * string)) * FS :=
  let unavailable :=
    (HTTPException 404 "Completed build required for Workshop upload", fs) in
  match poll rt job_id with
  | Some j =>
      if negb (String.eqb (BuildJob.status j) "completed") then unavailable
      else
        match BuildJob.artifact_path j with
        | Some artifact_path =>
            let fs1 := Fs.mkdir_p fs storage.WORKSHOP_ROOT in
            let destination := storage.WORKSHOP_ROOT // [PurePath.name artifact_path] in
            match copy2 fs1 artifact_path destination with
            | Ok fs2 =>
                (Response [ ("status", "uploaded"); ("job_id", job_id);
                            ("visibility", visibility);
                            ("path", Fs.to_str destination) ], fs2)
            | Raise e => (Uncaught e, fs1)
            end
        | None => unavailable
        end
  | None => unavailable
  end.

End api.

(** ** Predicates of the further statements *)

(** A function on file systems [preserves] the entries outside [W] when
    what is there at a path outside [W] is there afterwards, and a
    computation is [confined] to [W] when it does so on every exit. *)
Definition preserves (W : Path -> Prop) (f : FS -> FS) : Prop :=
  forall (fs : FS) (q : Path) n, ~ W q -> fs !! q = Some n -> f fs !! q = Some n.

Definition confined {Obs A : Type} (W : Path -> Prop) (m : M Obs A) : Prop :=
  forall (w : world Obs) (q : Path) n,
    ~ W q -> w_fs w !! q = Some n -> w_fs (m w).2 !! q = Some n.

(** The converter is taken to leave what is there as it is. *)
Definition keeps_entries (subprocess_run : list string -> FS -> CompletedProcess) : Prop :=
  forall command (fs : FS) (p : Path) n,
    fs !! p = Some n -> fs_after (subprocess_run command fs) !! p = Some n.

(** A function on file systems leaves the entry at [q] as it is, there
    or not; so does a computation; so does the converter. *)
Definition leaves (q : Path) (f : FS -> FS) : Prop :=
  forall fs : FS, f fs !! q = fs !! q.

Definition untouched {Obs A : Type} (q : Path) (m : M Obs A) : Prop :=
  forall w : world Obs, w_fs (m w).2 !! q = w_fs w !! q.

Definition converter_leaves (q : Path)
    (subprocess_run : list string -> FS -> CompletedProcess) : Prop :=
  forall command (fs : FS), fs_after (subprocess_run command fs) !! q = fs !! q.

(** The members of a [dict] stand by ascending key. *)
Fixpoint keys_sorted (members : list (string * json)) : Prop :=
  match members with
  | kv :: (kv' :: _) as rest => String.leb (fst kv) (fst kv') = true /\ keys_sorted rest
  | _ => True
  end.

(** ** Uploads and a converter to run the definitions on *)

Module Sample.

(** A service that found ImageMagick, and a converter that exits with
    code zero and writes nothing. *)
Definition service_magick : BuildService :=
  {| _converter := _detect_converter (fun c => String.eqb c "magick");
     build_root := storage.BASE_STORAGE // ["builds"];
     cwd := ["/"; "srv"; "openck3"] |}.

Definition converter_idle : list string -> FS -> CompletedProcess :=
  fun _ fs => {| returncode := 0; stderr := EmptyString; fs_after := fs |}.

(** The metadata of an upload, as text and as [json.loads] reads it. *)
Definition credits_text : string :=
  "{" +:+ dq +:+ "title" +:+ dq +:+ ": " +:+ dq +:+ "March" +:+ dq +:+ ", "
      +:+ dq +:+ "composer" +:+ dq +:+ ": " +:+ dq +:+ "Anon" +:+ dq +:+ "}".

Definition usage_text : string :=
  "{" +:+ dq +:+ "usage" +:+ dq +:+ ": " +:+ dq +:+ "coat of arms" +:+ dq +:+ "}".

Definition json_loads (raw : string) : option json :=
  if String.eqb raw credits_text then Some Example.credits
  else if String.eqb raw usage_text then Some (JObj [("usage", JStr "coat of arms")])
  else if String.eqb raw "[]" then Some (JArr [])
  else None.

Definition temp_audio : Path := ["/"; "tmp"; "openck3-audio-7f3a.ogg"].
Definition temp_dds : Path := ["/"; "tmp"; "openck3-dds-c41e.png"].

End Sample.


(** * Properties *)

Module PyStrFacts.
Import PyStr.

Lemma lower_ascii_dot c : lower_ascii c = "."%char -> c = "."%char.
Proof.
  destruct c as [[] [] [] [] [] [] [] []]; vm_compute; intros H; try discriminate H; reflexivity.
Qed.

Lemma lower_ascii_not_dot c : lower_ascii c <> "."%char -> c <> "."%char.
Proof. intros H ->. apply H. reflexivity. Qed.

Lemma app_nil s : EmptyString +:+ s = s.
Proof. reflexivity. Qed.

Lemma app_cons a b s : String a b +:+ s = String a (b +:+ s).
Proof. reflexivity. Qed.

Lemma rfind_nat_app_dot base e :
  rfind_nat "." e = None ->
  rfind_nat "." (base +:+ String "." e) = Some (String.length base).
Proof.
  intros He. induction base as [|a base IH].
  - rewrite app_nil. simpl. rewrite He. reflexivity.
  - rewrite app_cons. simpl. rewrite IH. reflexivity.
Qed.

Lemma substring_all s : substring 0 (String.length s) s = s.
Proof. induction s as [|b s IHs]; simpl; [reflexivity|]. by rewrite IHs. Qed.

Lemma substring_skip base s :
  substring (String.length base) (String.length s) (base +:+ s) = s.
Proof.
  induction base as [|a base IH].
  - rewrite app_nil. apply substring_all.
  - rewrite app_cons. simpl. exact IH.
Qed.

Lemma length_app a b : String.length (a +:+ b) = (String.length a + String.length b)%nat.
Proof. induction a; [reflexivity|]. rewrite app_cons. simpl. congruence. Qed.

End PyStrFacts.

Lemma name_snoc dir x : PurePath.name (dir ++ [x]) = x.
Proof. unfold PurePath.name. apply last_last. Qed.

Lemma suffix_of_extension dir base e :
  base <> EmptyString -> e <> EmptyString -> PyStr.rfind_nat "." e = None ->
  PurePath.suffix (dir ++ [base +:+ String "." e]) = String "." e.
Proof.
  intros Hb He Hdot. unfold PurePath.suffix. rewrite name_snoc.
  unfold PyStr.rfind. rewrite PyStrFacts.rfind_nat_app_dot by done.
  unfold PurePath.has_suffix_at, PyStr.len. rewrite PyStrFacts.length_app.
  destruct base as [|a base]; [done|]. destruct e as [|b e]; [done|].
  replace (0 <? Z.of_nat (String.length (String a base))) with true
    by (symmetry; apply Z.ltb_lt; simpl; lia).
  replace (Z.of_nat (String.length (String a base)) <?
           Z.of_nat (String.length (String a base) + String.length (String "." (String b e))) - 1)
    with true by (symmetry; apply Z.ltb_lt; simpl; lia).
  simpl andb. cbv iota. unfold PyStr.slice_from. rewrite Nat2Z.id.
  rewrite PyStrFacts.length_app.
  replace (String.length (String a base) + String.length (String "." (String b e))
           - String.length (String a base))%nat
    with (String.length (String "." (String b e))) by lia.
  apply PyStrFacts.substring_skip.
Qed.

Lemma lower_ext_shape ext (x y z : ascii) :
  x <> "."%char -> y <> "."%char -> z <> "."%char ->
  PyStr.lower ext = String "." (String x (String y (String z EmptyString))) ->
  exists e, ext = String "." e /\ e <> EmptyString /\ PyStr.rfind_nat "." e = None.
Proof.
  intros Hx Hy Hz H.
  destruct ext as [|c0 [|c1 [|c2 [|c3 [|c4 rest]]]]]; simpl in H; try discriminate H.
  injection H as H0 H1 H2 H3.
  apply PyStrFacts.lower_ascii_dot in H0 as ->.
  exists (String c1 (String c2 (String c3 EmptyString))). split; [done|]. split; [done|].
  assert (c1 <> "."%char) by (apply PyStrFacts.lower_ascii_not_dot; congruence).
  assert (c2 <> "."%char) by (apply PyStrFacts.lower_ascii_not_dot; congruence).
  assert (c3 <> "."%char) by (apply PyStrFacts.lower_ascii_not_dot; congruence).
  simpl. rewrite !(proj2 (Ascii.eqb_neq _ _)) by done. reflexivity.
Qed.

Lemma validate_audio_accepts file_path :
  _validate_audio file_path = Ok tt <->
  PyStr.lower (PurePath.suffix file_path) = ".ogg" \/
  PyStr.lower (PurePath.suffix file_path) = ".wav".
Proof.
  unfold _validate_audio, allowed_extensions.
  case_bool_decide as H; split; intros G; try discriminate G; try reflexivity.
  - exfalso. apply H. set_solver.
  - set_solver.
Qed.

(** C10: [_validate_audio] accepts a path exactly when its lowercased suffix
    is [.ogg] or [.wav]; so a name ending in any letter-case variant of the
    two (such as [.OGG] or [.Wav]) is accepted, and one ending in any
    letter-case variant of [.mp3] is rejected with the message naming the
    suffix. *)
Theorem validate_audio_case_insensitive :
  (forall file_path,
     _validate_audio file_path = Ok tt <->
     PyStr.lower (PurePath.suffix file_path) = ".ogg" \/
     PyStr.lower (PurePath.suffix file_path) = ".wav") /\
  (forall dir base ext,
     base <> EmptyString ->
     PyStr.lower ext = ".ogg" \/ PyStr.lower ext = ".wav" ->
     PurePath.suffix (dir ++ [base +:+ ext]) = ext /\
     _validate_audio (dir ++ [base +:+ ext]) = Ok tt) /\
  (forall dir base ext,
     base <> EmptyString ->
     PyStr.lower ext = ".mp3" ->
     PurePath.suffix (dir ++ [base +:+ ext]) = ext /\
     _validate_audio (dir ++ [base +:+ ext])
       = Raise (BuildError ("Unsupported audio format: " +:+ ext))) /\
  _validate_audio ["storage"; "assets"; "audio"; "abc"; "march.OGG"] = Ok tt /\
  _validate_audio ["storage"; "assets"; "audio"; "abc"; "theme.Wav"] = Ok tt /\
  _validate_audio ["storage"; "assets"; "audio"; "abc"; "song.Mp3"]
    = Raise (BuildError "Unsupported audio format: .Mp3").
Proof.
  split; [exact validate_audio_accepts|].
  split; [|split].
  - intros dir base ext Hb Hext.
    assert (exists e, ext = String "." e /\ e <> EmptyString /\ PyStr.rfind_nat "." e = None)
      as (e & -> & He & Hdot).
    { destruct Hext as [H|H]; eapply lower_ext_shape; try exact H; discriminate. }
    assert (PurePath.suffix (dir ++ [base +:+ String "." e]) = String "." e) as Hs
      by (by apply suffix_of_extension).
    split; [exact Hs|]. apply validate_audio_accepts. rewrite Hs. exact Hext.
  - intros dir base ext Hb Hext.
    assert (exists e, ext = String "." e /\ e <> EmptyString /\ PyStr.rfind_nat "." e = None)
      as (e & -> & He & Hdot).
    { eapply lower_ext_shape; try exact Hext; discriminate. }
    assert (PurePath.suffix (dir ++ [base +:+ String "." e]) = String "." e) as Hs
      by (by apply suffix_of_extension).
    split; [exact Hs|]. unfold _validate_audio. rewrite Hs, Hext.
    reflexivity.
  - repeat split; reflexivity.
Qed.

(** ** The file system *)

Module FsFacts.
Import Fs.

Lemma elem_of_ancestors (p q : Path) :
  p ∈ ancestors_and_self q <-> p <> [] /\ p `prefix_of` q.
Proof.
  unfold ancestors_and_self. rewrite list_elem_of_In, in_map_iff. split.
  - intros (n & <- & Hn). apply in_seq in Hn. split.
    + intros Habs. apply (f_equal length) in Habs.
      rewrite length_take in Habs. simpl in Habs. lia.
    + apply prefix_take.
  - intros [Hne [k ->]]. exists (length p). split.
    + by rewrite take_app_length.
    + apply in_seq. rewrite length_app. destruct p; [done|]. simpl. lia.
Qed.

Lemma lookup_mkdir_p (fs : FS) (q p : Path) :
  mkdir_p fs q !! p =
    match fs !! p with
    | Some n => Some n
    | None => if bool_decide (p ∈ ancestors_and_self q) then Some Dir else None
    end.
Proof.
  unfold mkdir_p. rewrite lookup_union.
  destruct (fs !! p) as [n|] eqn:E.
  - by destruct (list_to_map _ !! p).
  - rewrite (left_id None _).
    case_bool_decide as H.
    + apply elem_of_list_to_map_1'.
      * intros y Hy. apply list_elem_of_In, in_map_iff in Hy as (? & [= _ <-] & _). done.
      * apply list_elem_of_In, in_map_iff. exists p. split; [done|]. by apply list_elem_of_In.
    + apply not_elem_of_list_to_map_1. rewrite <- list_fmap_compose.
      intros Hin. apply H. apply list_elem_of_In, in_map_iff in Hin as (x & <- & Hx).
      by apply list_elem_of_In.
Qed.

Lemma lookup_mkdir_p_file (fs : FS) (q p : Path) d :
  fs !! p = Some (File d) -> mkdir_p fs q !! p = Some (File d).
Proof. intros H. rewrite lookup_mkdir_p, H. done. Qed.

Lemma lookup_mkdir_p_is_Some (fs : FS) (q p : Path) :
  is_Some (fs !! p) -> mkdir_p fs q !! p = fs !! p.
Proof. intros [n H]. rewrite lookup_mkdir_p, H. done. Qed.

Lemma lookup_mkdir_p_other (fs : FS) (q p : Path) :
  ~ p `prefix_of` q -> mkdir_p fs q !! p = fs !! p.
Proof.
  intros H. rewrite lookup_mkdir_p. destruct (fs !! p); [done|].
  rewrite bool_decide_eq_false_2; [done|]. rewrite elem_of_ancestors. tauto.
Qed.

Lemma is_file_mkdir_p (fs : FS) (q p : Path) : is_file (mkdir_p fs q) p = is_file fs p.
Proof.
  unfold is_file. rewrite lookup_mkdir_p.
  destruct (fs !! p); [done|]. by case_bool_decide.
Qed.

End FsFacts.

(** ** Two runs of one computation under two callbacks *)

Section Related.
Context {O1 O2 : Type} (R : O1 -> O2 -> Prop).

Lemma mrel_ret {A} (a : A) : mrel R (ret a) (ret a).
Proof. intros w1 w2 H. done. Qed.

Lemma mrel_raise {A} e : mrel R (raise (A:=A) e) (raise e).
Proof. intros w1 w2 H. done. Qed.

Lemma mrel_of_result {A} (r : result A) : mrel R (of_result r) (of_result r).
Proof. intros w1 w2 H. done. Qed.

Lemma mrel_ask {A} (f : FS -> A) : mrel R (ask f) (ask f).
Proof. intros w1 w2 [Hfs H]. unfold ask. simpl. rewrite Hfs. done. Qed.

Lemma mrel_act (f : FS -> FS) : mrel R (act f) (act f).
Proof. intros w1 w2 [Hfs H]. unfold act, wrel. simpl. rewrite Hfs. done. Qed.

Lemma mrel_fs_op {A} (f : FS -> A * FS) : mrel R (fs_op f) (fs_op f).
Proof.
  intros w1 w2 [Hfs H]. unfold fs_op, wrel. rewrite Hfs.
  destruct (f (w_fs w2)). done.
Qed.

Lemma mrel_fs_try {A} (f : FS -> result A) : mrel R (fs_try f) (fs_try f).
Proof. intros w1 w2 [Hfs H]. unfold fs_try, wrel. simpl. rewrite Hfs. done. Qed.

Lemma mrel_bind {A B} (m1 : M O1 A) (m2 : M O2 A) (k1 : A -> M O1 B) (k2 : A -> M O2 B) :
  mrel R m1 m2 -> (forall a, mrel R (k1 a) (k2 a)) -> mrel R (bind m1 k1) (bind m2 k2).
Proof.
  intros Hm Hk w1 w2 H. unfold bind.
  destruct (Hm w1 w2 H) as [Hr Hw].
  destruct (m1 w1) as [r1 w1'], (m2 w2) as [r2 w2']. simpl in *. subst r2.
  destruct r1 as [a|e]; [by apply Hk|done].
Qed.

Lemma mrel_notify c1 c2 step ratio message :
  cbrel R c1 c2 -> mrel R (notify c1 step ratio message) (notify c2 step ratio message).
Proof.
  intros Hc w1 w2 [Hfs H]. specialize (Hc step ratio message _ _ H).
  destruct c1, c2; done.
Qed.

Lemma mrel_for_each {A} (xs : list A) (b1 : A -> M O1 unit) (b2 : A -> M O2 unit) :
  (forall x, mrel R (b1 x) (b2 x)) -> mrel R (for_each xs b1) (for_each xs b2).
Proof.
  intros Hb. induction xs as [|x xs IH]; simpl.
  - apply mrel_ret.
  - apply mrel_bind; [apply Hb|]. intros _. exact IH.
Qed.

Lemma mrel_with_cleanup {A} (m1 : M O1 A) (m2 : M O2 A) release :
  mrel R m1 m2 -> mrel R (with_cleanup m1 release) (with_cleanup m2 release).
Proof.
  intros Hm w1 w2 H. unfold with_cleanup.
  destruct (Hm w1 w2 H) as [Hr [Hfs Ho]].
  destruct (m1 w1) as [r1 w1'], (m2 w2) as [r2 w2']. simpl in *.
  unfold wrel. simpl. rewrite Hfs. done.
Qed.

End Related.

(** The tactic walks a stage the way it is written. *)
Ltac mrel_step :=
  lazymatch goal with
  | |- mrel _ (bind _ _) (bind _ _) => apply mrel_bind; [|intros ?]
  | |- mrel _ (ret _) (ret _) => apply mrel_ret
  | |- mrel _ (raise _) (raise _) => apply mrel_raise
  | |- mrel _ (of_result _) (of_result _) => apply mrel_of_result
  | |- mrel _ (ask _) (ask _) => apply mrel_ask
  | |- mrel _ (act _) (act _) => apply mrel_act
  | |- mrel _ (fs_op _) (fs_op _) => apply mrel_fs_op
  | |- mrel _ (fs_try _) (fs_try _) => apply mrel_fs_try
  | |- mrel _ (notify _ _ _ _) (notify _ _ _ _) => apply mrel_notify; try assumption
  | |- mrel _ (for_each _ _) (for_each _ _) => apply mrel_for_each; intros [? ?]
  | |- mrel _ (with_cleanup _ _) (with_cleanup _ _) => apply mrel_with_cleanup
  | |- mrel _ (if ?b then _ else _) (if ?b then _ else _) => destruct b
  | |- mrel _ (match ?x with _ => _ end) (match ?x with _ => _ end) => destruct x
  end.

Section StagesRelated.
Context {O1 O2 : Type} (R : O1 -> O2 -> Prop).
Variable subprocess_run : list string -> FS -> CompletedProcess.

Lemma mrel_convert_to_dds self source destination :
  mrel R (_convert_to_dds subprocess_run self source destination)
         (_convert_to_dds subprocess_run self source destination).
Proof. unfold _convert_to_dds. repeat mrel_step. Qed.

Lemma mrel_collect_file project_path destination file_path :
  mrel R (collect_file project_path destination file_path)
         (collect_file project_path destination file_path).
Proof. unfold collect_file. repeat mrel_step. Qed.

Lemma mrel_convert_file self dds_root file_path :
  mrel R (convert_file subprocess_run self dds_root file_path)
         (convert_file subprocess_run self dds_root file_path).
Proof. unfold convert_file. apply mrel_convert_to_dds. Qed.

Lemma mrel_package_file audio_root file_path :
  mrel R (package_file audio_root file_path) (package_file audio_root file_path).
Proof. unfold package_file. repeat mrel_step. Qed.

Lemma mrel_archive_build self now project_id work_dir :
  mrel R (_archive_build self now project_id work_dir)
         (_archive_build self now project_id work_dir).
Proof. unfold _archive_build. repeat mrel_step. Qed.

Context (c1 : option (ProgressCallback O1)) (c2 : option (ProgressCallback O2)).
Hypothesis Hc : cbrel R c1 c2.

Lemma mrel_collect_project_files project_id destination :
  mrel R (_collect_project_files project_id destination c1)
         (_collect_project_files project_id destination c2).
Proof using Hc.
  unfold _collect_project_files, collect_files. repeat mrel_step. apply mrel_collect_file.
Qed.

Lemma mrel_convert_dds_assets self project_id destination :
  mrel R (_convert_dds_assets subprocess_run self project_id destination c1)
         (_convert_dds_assets subprocess_run self project_id destination c2).
Proof using Hc.
  unfold _convert_dds_assets, convert_files. repeat mrel_step. apply mrel_convert_file.
Qed.

Lemma mrel_package_audio_tracks project_id destination :
  mrel R (_package_audio_tracks project_id destination c1)
         (_package_audio_tracks project_id destination c2).
Proof using Hc.
  unfold _package_audio_tracks, package_files. repeat mrel_step. apply mrel_package_file.
Qed.

Lemma mrel_write_descriptor project_id destination :
  mrel R (_write_descriptor project_id destination c1)
         (_write_descriptor project_id destination c2).
Proof using Hc. unfold _write_descriptor. repeat mrel_step. Qed.

End StagesRelated.

(** ** Stages that treat their callback as a callback *)

Lemma steps_parametric subprocess_run self :
  Forall (fun s => parametric s.2) (steps subprocess_run self).
Proof.
  unfold steps.
  apply Forall_cons_2; [|apply Forall_cons_2; [|apply Forall_cons_2;
    [|apply Forall_cons_2; [|apply Forall_nil_2]]]];
    intros O1 O2 R c1 c2 project_id work_dir Hc; simpl.
  - by apply mrel_collect_project_files.
  - by apply mrel_convert_dds_assets.
  - by apply mrel_package_audio_tracks.
  - by apply mrel_write_descriptor.
Qed.

Lemma mrel_for_each_Forall {O1 O2 A} (R : O1 -> O2 -> Prop) (xs : list A)
    (b1 : A -> M O1 unit) (b2 : A -> M O2 unit) :
  Forall (fun x => mrel R (b1 x) (b2 x)) xs -> mrel R (for_each xs b1) (for_each xs b2).
Proof.
  induction 1 as [|x xs Hx _ IH]; simpl.
  - apply mrel_ret.
  - apply mrel_bind; [exact Hx|]. intros _. exact IH.
Qed.

Lemma Forall_enumerate {A} (P : Z * A -> Prop) (xs : list A) start :
  Forall (fun x => forall i, P (i, x)) xs -> Forall P (enumerate start xs).
Proof.
  intros H. revert start. induction H as [|x xs Hx _ IH]; intros start; simpl.
  - constructor.
  - constructor; [apply Hx|apply IH].
Qed.

Lemma cbrel_step_callback {O1 O2} (R : O1 -> O2 -> Prop) c1 c2 span index :
  cbrel R c1 c2 ->
  cbrel R (Some (step_callback c1 span index)) (Some (step_callback c2 span index)).
Proof.
  intros Hc step ratio message o1 o2 Ho. simpl. unfold step_callback.
  specialize (Hc step (inject_Z (index - 1) * span + ratio * span)%Q message o1 o2 Ho).
  destruct c1, c2; exact Hc.
Qed.

Lemma mrel_build_steps {O1 O2} (R : O1 -> O2 -> Prop) stages self tmp now project_id c1 c2 :
  Forall (fun s => parametric s.2) stages ->
  cbrel R c1 c2 ->
  mrel R (build_steps stages self tmp now project_id c1)
         (build_steps stages self tmp now project_id c2).
Proof.
  intros Hst Hc. unfold build_steps.
  apply mrel_with_cleanup. do 2 (apply mrel_bind; [apply mrel_act|intros _]).
  apply mrel_bind.
  - apply mrel_for_each_Forall, Forall_enumerate.
    eapply Forall_impl; [exact Hst|]. intros [nm step] Hp index. simpl in *.
    apply mrel_bind; [by apply mrel_notify|intros _].
    apply Hp. by apply cbrel_step_callback.
  - intros _. apply mrel_bind; [by apply mrel_notify|intros _].
    apply mrel_bind; [apply mrel_archive_build|intros archive_path].
    apply mrel_bind; [by apply mrel_notify|intros _]. apply mrel_ret.
Qed.

(** ** A build under any callback is the recorded build, replayed *)

Lemma replay_snoc {Obs} (cb : ProgressCallback Obs) trace step ratio message obs :
  replay cb (trace ++ [(step, ratio, message)]) obs
  = cb step ratio message (replay cb trace obs).
Proof. unfold replay. rewrite foldl_app. reflexivity. Qed.

Lemma cbrel_replay {Obs} (cb : ProgressCallback Obs) obs0 :
  cbrel (fun o trace => o = replay cb trace obs0) (Some cb) (Some recorder).
Proof.
  intros step ratio message o trace ->. simpl. unfold recorder.
  by rewrite replay_snoc.
Qed.

Theorem build_steps_replay {Obs} stages self tmp now project_id
    (cb : ProgressCallback Obs) fs obs0 :
  Forall (fun s => parametric s.2) stages ->
  build_steps stages self tmp now project_id (Some cb) (World fs obs0)
  = let '(r, w) := build_steps stages self tmp now project_id (Some recorder) (World fs []) in
    (r, World (w_fs w) (replay cb (w_obs w) obs0)).
Proof.
  intros Hst.
  pose proof (mrel_build_steps (fun o trace => o = replay cb trace obs0)
                stages self tmp now project_id (Some cb) (Some recorder) Hst
                (cbrel_replay cb obs0) (World fs obs0) (World fs [])) as H.
  destruct H as [Hr [Hfs Ho]]; [done|].
  destruct (build_steps _ _ _ _ _ (Some cb) _) as [r1 [fs1 o1]].
  destruct (build_steps _ _ _ _ _ (Some recorder) _) as [r2 [fs2 o2]].
  simpl in *. congruence.
Qed.

(** Without a callback the files and the outcome are the same. *)
Theorem build_steps_no_callback {Obs} stages self tmp now project_id fs (obs0 : Obs) :
  Forall (fun s => parametric s.2) stages ->
  build_steps stages self tmp now project_id None (World fs obs0)
  = let '(r, w) := build_steps stages self tmp now project_id (Some recorder) (World fs []) in
    (r, World (w_fs w) obs0).
Proof.
  intros Hst.
  pose proof (mrel_build_steps (fun (o : Obs) (_ : list event) => o = obs0)
                stages self tmp now project_id None (Some recorder) Hst) as H.
  destruct (H ltac:(by intros ? ? ? ? ? ->) (World fs obs0) (World fs [])) as [Hr [Hfs Ho]]; [done|].
  destruct (build_steps _ _ _ _ _ None _) as [r1 [fs1 o1]].
  destruct (build_steps _ _ _ _ _ (Some recorder) _) as [r2 [fs2 o2]].
  simpl in *. congruence.
Qed.

(** ** The trace of a build is the sliced trace *)

Lemma stage_in_slice step span index project_id work_dir fs trace0 :
  parametric step ->
  step (list event) project_id work_dir
       (Some (step_callback (Some recorder) span index)) (World fs trace0)
  = let '(r, w) := stage_alone step project_id work_dir fs in
    (r, World (w_fs w) (trace0 ++ List.map (rescale span index) (w_obs w))).
Proof.
  intros Hp. unfold stage_alone.
  pose proof (Hp (list event) (list event)
                (fun o1 o2 => o1 = trace0 ++ List.map (rescale span index) o2)
                (Some (step_callback (Some recorder) span index)) (Some recorder)
                project_id work_dir) as H.
  destruct (H ltac:(intros s r m o1 o2 ->; simpl; unfold recorder;
                    rewrite map_app, app_assoc; reflexivity)
              (World fs trace0) (World fs [])) as [Hr [Hfs Ho]].
  { split; simpl; [done|]. by rewrite app_nil_r. }
  destruct (step _ _ _ (Some (step_callback _ _ _)) _) as [r1 [fs1 o1]].
  destruct (step _ _ _ (Some recorder) _) as [r2 [fs2 o2]].
  simpl in *. congruence.
Qed.

Lemma stages_in_slices span project_id work_dir
    (stages : list (Z * (string * Stage))) fs trace0 :
  Forall (fun s => parametric s.2.2) stages ->
  for_each stages (fun '(index, (__name__, step)) =>
      let step_name := PyStr.removeprefix "_" __name__ in
      bind (notify (Some recorder) step_name (inject_Z (index - 1) * span)%Q
                   ("Running " +:+ PyStr.replace_char "_" " " step_name))
           (fun _ => step (list event) project_id work_dir
                       (Some (step_callback (Some recorder) span index))))
    (World fs trace0)
  = let '(r, fs', slices) := spec_stage_slices span project_id work_dir stages fs in
    (r, World fs' (trace0 ++ slices)).
Proof.
  intros Hst. revert fs trace0.
  induction Hst as [|[index [nm step]] stages Hp _ IH]; intros fs trace0; simpl.
  - by rewrite app_nil_r.
  - unfold bind at 1. unfold bind at 1. simpl.
    rewrite (stage_in_slice step span index project_id work_dir fs _ Hp).
    destruct (stage_alone step project_id work_dir fs) as [[[]|e] [fs1 o1]]; simpl.
    + rewrite IH.
      destruct (spec_stage_slices span project_id work_dir stages fs1) as [[r' fs'] later].
      unfold recorder. by rewrite <- !app_assoc.
    + unfold recorder. by rewrite <- !app_assoc.
Qed.

Lemma Forall_parametric_enumerate (stages : list (string * Stage)) start :
  Forall (fun s => parametric s.2) stages ->
  Forall (fun s : Z * (string * Stage) => parametric s.2.2) (enumerate start stages).
Proof. intros H. apply Forall_enumerate. eapply Forall_impl; [exact H|]. by intros [] ? ?. Qed.

Theorem build_steps_trace stages self tmp now project_id fs :
  Forall (fun s => parametric s.2) stages ->
  build_steps stages self tmp now project_id (Some recorder) (World fs [])
  = let '(r, fs', trace) := spec_build_trace stages self tmp now project_id fs in
    (r, World fs' trace).
Proof.
  intros Hst. unfold build_steps, spec_build_trace, with_cleanup.
  unfold bind at 1. unfold act at 1. unfold bind at 1. unfold act at 1.
  unfold bind at 1. cbn [w_fs w_obs].
  rewrite (stages_in_slices _ _ _ _ _ _ (Forall_parametric_enumerate _ 1 Hst)).
  destruct (spec_stage_slices _ _ _ _ _) as [[[[]|e] fs1] slices]; [|done].
  cbn [app]. unfold bind, notify, call, _archive_build, act, ret, recorder. cbn.
  by rewrite <- app_assoc.
Qed.

(** ** Ratios that never decrease *)

Lemma nondecreasing_nil : nondecreasing [].
Proof. intros i j a b _ H. by rewrite lookup_nil in H. Qed.

Lemma nondecreasing_app (l1 l2 : list Q) :
  nondecreasing l1 -> nondecreasing l2 ->
  (forall a b, a ∈ l1 -> b ∈ l2 -> (a <= b)%Q) ->
  nondecreasing (l1 ++ l2).
Proof.
  intros H1 H2 H12 i j a b Hij Hi Hj.
  apply lookup_app_Some in Hi as [Hi|[Hli Hi]];
    apply lookup_app_Some in Hj as [Hj|[Hlj Hj]].
  - by eapply H1.
  - eapply H12; by eapply list_elem_of_lookup_2.
  - apply lookup_lt_Some in Hj. lia.
  - eapply (H2 (i - length l1)%nat (j - length l1)%nat); [lia|done..].
Qed.

Lemma nondecreasing_cons (a : Q) (l : list Q) :
  (forall b, b ∈ l -> (a <= b)%Q) -> nondecreasing l -> nondecreasing (a :: l).
Proof.
  intros Ha Hl. apply (nondecreasing_app [a] l); [|done|].
  - intros [|i] [|j] x y Hij Hx Hy; simplify_eq/=; try done. apply Qle_refl.
  - intros x b Hx Hb. apply list_elem_of_singleton in Hx as ->. by apply Ha.
Qed.

Lemma nondecreasing_prefix (l1 l2 : list Q) :
  nondecreasing (l1 ++ l2) -> nondecreasing l1.
Proof.
  intros H i j a b Hij Hi Hj.
  eapply (H i j); [done|by apply lookup_app_l_Some..].
Qed.

Lemma within_app lo hi (l1 l2 : list Q) :
  within lo hi l1 -> within lo hi l2 -> within lo hi (l1 ++ l2).
Proof. apply Forall_app_2. Qed.

Lemma within_weaken lo hi lo' hi' (l : list Q) :
  (lo' <= lo)%Q -> (hi <= hi')%Q -> within lo hi l -> within lo' hi' l.
Proof.
  intros Hlo Hhi W. eapply Forall_impl; [exact W|]. intros q [H1 H2]. simpl. split.
  - by eapply Qle_trans.
  - by eapply Qle_trans.
Qed.

Lemma within_elem lo hi (l : list Q) q : within lo hi l -> q ∈ l -> (lo <= q <= hi)%Q.
Proof. intros H Hq. by eapply (proj1 (Forall_forall _ _) H). Qed.

(** Two stretches, the one below [mid] and the other above it. *)
Lemma stretch_app lo mid hi (l1 l2 : list Q) :
  within lo mid l1 -> nondecreasing l1 ->
  within mid hi l2 -> nondecreasing l2 ->
  (lo <= mid)%Q -> (mid <= hi)%Q ->
  within lo hi (l1 ++ l2) /\ nondecreasing (l1 ++ l2).
Proof.
  intros W1 N1 W2 N2 Hlo Hhi. split.
  - apply within_app.
    + eapply within_weaken; [apply Qle_refl|exact Hhi|exact W1].
    + eapply within_weaken; [exact Hlo|apply Qle_refl|exact W2].
  - apply nondecreasing_app; [done..|].
    intros a b Ha Hb. apply (within_elem _ _ _ _ W1) in Ha.
    apply (within_elem _ _ _ _ W2) in Hb. eapply Qle_trans; [apply Ha|apply Hb].
Qed.

(** A slice of [span] carries a stage's ratios from [c] to [c + span]. *)
Lemma slice_of_sub_progress (c span : Q) (l : list Q) :
  (0 <= span)%Q -> within 0 1 l -> nondecreasing l ->
  within c (c + span) (List.map (fun r => c + r * span)%Q l) /\
  nondecreasing (List.map (fun r => c + r * span)%Q l).
Proof.
  intros Hs W N. split.
  - unfold within in *. apply Forall_map. eapply Forall_impl; [exact W|].
    intros r [H0 H1]. simpl.
    assert (0 <= r * span)%Q by (by apply Qmult_le_0_compat).
    assert (r * span <= 1 * span)%Q by (by apply Qmult_le_compat_r).
    split; lra.
  - intros i j a b Hij Hi Hj.
    apply list_lookup_fmap_Some in Hi as (x & -> & Hx).
    apply list_lookup_fmap_Some in Hj as (y & -> & Hy).
    assert (x <= y)%Q as Hxy by (by eapply (N i j)).
    assert (x * span <= y * span)%Q by (by apply Qmult_le_compat_r).
    lra.
Qed.

(** ** Running a computation by hand *)

Section Run.
Context {Obs : Type}.
Implicit Types w : world Obs.

Lemma run_bind_ret {A B : Type} (a : A) (k : A -> M Obs B) w : bind (ret a) k w = k a w.
Proof. reflexivity. Qed.

Lemma run_bind_ask {A B : Type} (f : FS -> A) (k : A -> M Obs B) w :
  bind (ask f) k w = k (f (w_fs w)) w.
Proof. reflexivity. Qed.

Lemma run_bind_act {B : Type} (f : FS -> FS) (k : unit -> M Obs B) w :
  bind (act f) k w = k tt (World (f (w_fs w)) (w_obs w)).
Proof. reflexivity. Qed.

Lemma run_bind_fs_op {A B : Type} (f : FS -> A * FS) (k : A -> M Obs B) w :
  bind (fs_op f) k w = k (f (w_fs w)).1 (World (f (w_fs w)).2 (w_obs w)).
Proof. unfold bind, fs_op. by destruct (f (w_fs w)). Qed.

Lemma run_bind_fs_try {A B : Type} (f : FS -> result A) (k : A -> M Obs B) w :
  bind (fs_try f) k w =
    match f (w_fs w) with Ok a => k a w | Raise e => (Raise e, w) end.
Proof. reflexivity. Qed.

Lemma run_bind_of_result {A B : Type} (r : result A) (k : A -> M Obs B) w :
  bind (of_result r) k w = match r with Ok a => k a w | Raise e => (Raise e, w) end.
Proof. reflexivity. Qed.

Lemma run_bind_raise {A B : Type} e (k : A -> M Obs B) w : bind (raise e) k w = (Raise e, w).
Proof. reflexivity. Qed.

Lemma run_bind_notify {B : Type} cb step ratio message (k : unit -> M Obs B) w :
  bind (notify (Some cb) step ratio message) k w
  = k tt (World (w_fs w) (cb step ratio message (w_obs w))).
Proof. reflexivity. Qed.

Lemma run_bind_assoc {A B C : Type} (m : M Obs A) (k : A -> M Obs B) (h : B -> M Obs C) w :
  bind (bind m k) h w = bind m (fun a => bind (k a) h) w.
Proof. unfold bind. destruct (m w) as [[a|e] w']; reflexivity. Qed.

Lemma for_each_app {A} (xs ys : list A) (body : A -> M Obs unit) w :
  for_each (xs ++ ys) body w = bind (for_each xs body) (fun _ => for_each ys body) w.
Proof.
  revert w. induction xs as [|x xs IH]; intros w; simpl; [reflexivity|].
  rewrite run_bind_assoc. unfold bind at 1 2.
  destruct (body x w) as [[[]|e] w']; [apply IH|reflexivity].
Qed.

End Run.

(** A computation that is related to itself whatever the relation makes
    no report. *)
Lemma mrel_silent {Obs A} (m : M Obs A) (m' : M unit A) :
  (forall R : Obs -> unit -> Prop, mrel R m m') ->
  forall w, w_obs (m w).2 = w_obs w.
Proof.
  intros H w. destruct (H (fun o _ => o = w_obs w) w (World (w_fs w) tt)) as [_ [_ Ho]]; done.
Qed.

Lemma mrel_same_files {Obs A} (m : M Obs A) (m' : M unit A) :
  (forall R : Obs -> unit -> Prop, mrel R m m') ->
  forall w, (m w).1 = (m' (World (w_fs w) tt)).1 /\
            w_fs (m w).2 = w_fs (m' (World (w_fs w) tt)).2.
Proof.
  intros H w. destruct (H (fun _ _ => True) w (World (w_fs w) tt)) as [Hr [Hfs _]]; done.
Qed.

(** ** What a loop over files reports *)

Lemma enumerate_lookup {A} (xs : list A) start k i x :
  enumerate start xs !! k = Some (i, x) -> i = start + Z.of_nat k /\ xs !! k = Some x.
Proof.
  revert start k. induction xs as [|y xs IH]; intros start k H; simpl in H.
  - by rewrite lookup_nil in H.
  - destruct k as [|k]; simpl in H.
    + injection H as <- <-. split; [lia|done].
    + apply IH in H as [-> H]. split; [lia|done].
Qed.

Lemma enumerate_length {A} (xs : list A) start : length (enumerate start xs) = length xs.
Proof. revert start. induction xs; intros; simpl; [done|]. by rewrite IHxs. Qed.

Lemma report_loop {A} (body : A -> M (list event) unit) label (msg : A -> string) total xs :
  (forall x w, w_obs (body x w).2 = w_obs w) ->
  forall start fs trace0, exists n,
    w_obs (for_each (enumerate start xs) (fun '(index, x) =>
             bind (body x) (fun _ => notify (Some recorder) label (true_div index total) (msg x)))
           (World fs trace0)).2
    = trace0 ++ List.map (fun '(index, x) => (label, true_div index total, msg x))
                         (take n (enumerate start xs)).
Proof.
  intros Hbody. induction xs as [|x xs IH]; intros start fs trace0; simpl.
  - exists 0%nat. by rewrite app_nil_r.
  - unfold bind at 1. unfold bind at 1.
    pose proof (Hbody x (World fs trace0)) as Hx.
    destruct (body x (World fs trace0)) as [[[]|e] [fs1 o1]]; simpl in *; subst o1.
    + destruct (IH (start + 1) fs1 (recorder label (true_div start total) (msg x) trace0))
        as [n Hn].
      exists (S n). rewrite Hn. unfold recorder. by rewrite <- app_assoc.
    + exists 0%nat. by rewrite app_nil_r.
Qed.

Lemma true_div_le (i j total : Z) : 0 < total -> i <= j -> (true_div i total <= true_div j total)%Q.
Proof.
  intros Ht Hij. unfold true_div, Qdiv. apply Qmult_le_compat_r.
  - by rewrite <- Zle_Qle.
  - apply Qinv_le_0_compat. change 0%Q with (inject_Z 0). rewrite <- Zle_Qle. lia.
Qed.

Lemma true_div_bounds (i total : Z) : 0 <= i <= total -> 0 < total ->
  (0 <= true_div i total <= 1)%Q.
Proof.
  intros Hi Ht. unfold true_div.
  assert (0 < inject_Z total)%Q by (change 0%Q with (inject_Z 0); by rewrite <- Zlt_Qlt).
  split.
  - apply Qle_shift_div_l; [done|]. rewrite Qmult_0_l.
    change 0%Q with (inject_Z 0). rewrite <- Zle_Qle. lia.
  - apply Qle_shift_div_r; [done|]. rewrite Qmult_1_l. rewrite <- Zle_Qle. lia.
Qed.

(** The ratios [index / total] of the first [n] files, [total] being their
    number (or one). *)
Lemma report_loop_sub_progress {A} label (msg : A -> string) (xs : list A) n :
  sub_progress (List.map (fun '(index, x) => (label, true_div index (len_or_1 xs), msg x))
                         (take n (enumerate 1 xs))).
Proof.
  assert (forall k i x, take n (enumerate 1 xs) !! k = Some (i, x) ->
                        i = 1 + Z.of_nat k /\ (k < length xs)%nat) as Hk.
  { intros k i x H. apply lookup_take_Some in H as [H _].
    pose proof (lookup_lt_Some _ _ _ H) as Hlt. rewrite enumerate_length in Hlt.
    apply enumerate_lookup in H as [-> _]. done. }
  assert (forall k, (k < length xs)%nat ->
            0 < len_or_1 xs /\ 1 + Z.of_nat k <= len_or_1 xs) as Hlen.
  { intros k Hlt. unfold len_or_1. destruct (Z.eqb_spec (Z.of_nat (length xs)) 0); lia. }
  split.
  - unfold within. rewrite Forall_lookup. intros k q Hq.
    apply list_lookup_fmap_Some in Hq as (e & -> & He).
    apply list_lookup_fmap_Some in He as ([i x] & -> & Hix).
    apply Hk in Hix as [-> Hlt]. destruct (Hlen k Hlt).
    apply true_div_bounds; lia.
  - intros k1 k2 a b Hle Ha Hb.
    apply list_lookup_fmap_Some in Ha as (e1 & -> & He1).
    apply list_lookup_fmap_Some in He1 as ([i1 x1] & -> & H1).
    apply list_lookup_fmap_Some in Hb as (e2 & -> & He2).
    apply list_lookup_fmap_Some in He2 as ([i2 x2] & -> & H2).
    apply Hk in H1 as [-> Hlt1]. apply Hk in H2 as [-> Hlt2]. destruct (Hlen k1 Hlt1).
    apply true_div_le; lia.
Qed.

(** ** The four stages report as a stage should *)

Lemma sub_progress_nil : sub_progress [].
Proof. split; [constructor|apply nondecreasing_nil]. Qed.

Section WellReported.
Variable subprocess_run : list string -> FS -> CompletedProcess.

Lemma collect_file_silent {Obs} project_path destination file_path (w : world Obs) :
  w_obs (collect_file project_path destination file_path w).2 = w_obs w.
Proof.
  apply (mrel_silent _ (collect_file project_path destination file_path)).
  intros R. apply mrel_collect_file.
Qed.

Lemma convert_file_silent {Obs} self dds_root file_path (w : world Obs) :
  w_obs (convert_file subprocess_run self dds_root file_path w).2 = w_obs w.
Proof.
  apply (mrel_silent _ (convert_file subprocess_run self dds_root file_path)).
  intros R. apply mrel_convert_file.
Qed.

Lemma package_file_silent {Obs} audio_root file_path (w : world Obs) :
  w_obs (package_file audio_root file_path w).2 = w_obs w.
Proof.
  apply (mrel_silent _ (package_file audio_root file_path)).
  intros R. apply mrel_package_file.
Qed.

Lemma collect_well_reported : well_reported (fun Obs => @_collect_project_files Obs).
Proof.
  intros project_id work_dir fs. unfold stage_alone, _collect_project_files, collect_files.
  rewrite run_bind_fs_op, run_bind_ask. cbn [w_fs w_obs].
  set (project_path := (storage.project_dir fs project_id).1).
  set (fs1 := (storage.project_dir fs project_id).2).
  set (files := storage.iter_project_files fs1 project_path).
  destruct (report_loop (collect_file project_path work_dir) "collect"
              (fun f => "Copied " +:+ Fs.to_str (PurePath.relative_to f project_path))
              (len_or_1 files) files
              (fun x w => collect_file_silent project_path work_dir x w) 1 fs1 [])
    as [n Hn].
  rewrite Hn. apply report_loop_sub_progress.
Qed.

Lemma convert_well_reported self :
  well_reported (fun Obs => @_convert_dds_assets Obs subprocess_run self).
Proof.
  intros project_id work_dir fs. unfold stage_alone, _convert_dds_assets, convert_files.
  rewrite run_bind_ask. cbn [w_fs w_obs].
  destruct (negb _); [apply sub_progress_nil|].
  rewrite run_bind_act, run_bind_ask. cbn [w_fs w_obs].
  set (fs1 := Fs.mkdir_p fs _).
  set (files := List.filter _ _).
  destruct (report_loop (convert_file subprocess_run self (work_dir // ["gfx"])) "dds"
              (fun f => "Processed " +:+ PurePath.name f)
              (len_or_1 files) files
              (fun x w => convert_file_silent self _ x w) 1 fs1 [])
    as [n Hn].
  rewrite Hn. apply report_loop_sub_progress.
Qed.

Lemma package_well_reported : well_reported (fun Obs => @_package_audio_tracks Obs).
Proof.
  intros project_id work_dir fs. unfold stage_alone, _package_audio_tracks, package_files.
  rewrite run_bind_ask. cbn [w_fs w_obs].
  destruct (negb _); [apply sub_progress_nil|].
  rewrite run_bind_act, run_bind_ask. cbn [w_fs w_obs].
  set (fs1 := Fs.mkdir_p fs _).
  set (files := List.filter _ _).
  destruct (report_loop (package_file (work_dir // ["sound"])) "audio"
              (fun f => "Packaged " +:+ PurePath.name f)
              (len_or_1 files) files
              (fun x w => package_file_silent _ x w) 1 fs1 [])
    as [n Hn].
  rewrite Hn. apply report_loop_sub_progress.
Qed.

Lemma sub_progress_one label message : sub_progress [(label, 1%Q, message)].
Proof.
  split.
  - apply Forall_cons_2; [unfold ratio_of; simpl; lra|apply Forall_nil_2].
  - intros [|i] [|j] a b Hij Ha Hb; simplify_eq/=; try lia. unfold ratio_of; simpl; lra.
Qed.

Lemma descriptor_well_reported : well_reported (fun Obs => @_write_descriptor Obs).
Proof.
  intros project_id work_dir fs. unfold stage_alone, _write_descriptor.
  rewrite run_bind_fs_op, run_bind_fs_try. cbn [w_fs w_obs].
  destruct (if Fs.exists_ _ _ then _ else _) as [metadata|e]; [|apply sub_progress_nil].
  rewrite run_bind_of_result.
  destruct (_render_descriptor project_id metadata) as [descriptor|e];
    [|apply sub_progress_nil].
  rewrite run_bind_fs_try. cbn [w_fs w_obs].
  destruct (Fs.open_w _ _) as [[]|e]; [|apply sub_progress_nil].
  rewrite run_bind_act. apply sub_progress_one.
Qed.

Lemma steps_well_reported self :
  Forall (fun s => well_reported s.2) (steps subprocess_run self).
Proof.
  unfold steps.
  apply Forall_cons_2; [|apply Forall_cons_2; [|apply Forall_cons_2;
    [|apply Forall_cons_2; [|apply Forall_nil_2]]]]; simpl.
  - apply collect_well_reported.
  - apply convert_well_reported.
  - apply package_well_reported.
  - apply descriptor_well_reported.
Qed.

End WellReported.

(** ** Progress over the whole build *)

Lemma inject_Z_nonneg (a : Z) : 0 <= a -> (0 <= inject_Z a)%Q.
Proof. intros H. change 0%Q with (inject_Z 0). by rewrite <- Zle_Qle. Qed.

Lemma slice_start_le (a b : Z) (span : Q) :
  (0 <= span)%Q -> a <= b -> (inject_Z a * span <= inject_Z b * span)%Q.
Proof. intros Hs Hab. apply Qmult_le_compat_r; [by rewrite <- Zle_Qle|done]. Qed.

Lemma slice_next (a : Z) (span : Q) :
  (inject_Z (a + 1) * span == inject_Z a * span + span)%Q.
Proof. rewrite inject_Z_plus. change (inject_Z 1) with 1%Q. ring. Qed.

Lemma span_of_pos n : (0 < span_of n)%Q.
Proof.
  unfold span_of. apply Qlt_shift_div_l.
  - change 0%Q with (inject_Z 0). rewrite <- Zlt_Qlt. lia.
  - rewrite Qmult_0_l. reflexivity.
Qed.

Lemma span_of_total n : (inject_Z (Z.of_nat n) * span_of n + span_of n == 1)%Q.
Proof.
  unfold span_of. rewrite inject_Z_plus. change (inject_Z 1) with 1%Q.
  assert (0 <= inject_Z (Z.of_nat n))%Q by (apply inject_Z_nonneg; lia).
  field. lra.
Qed.

Lemma stages_span_below_1 n : (inject_Z (Z.of_nat n) * span_of n < 1)%Q.
Proof. pose proof (span_of_pos n). pose proof (span_of_total n). lra. Qed.

Lemma ratio_of_rescale span index e :
  ratio_of (rescale span index e) = (inject_Z (index - 1) * span + ratio_of e * span)%Q.
Proof. by destruct e as [[label r] message]. Qed.

Lemma ratios_of_slice span index (trace : list event) :
  List.map ratio_of (List.map (rescale span index) trace)
  = List.map (fun r => inject_Z (index - 1) * span + r * span)%Q (List.map ratio_of trace).
Proof.
  rewrite !List.map_map. apply List.map_ext. intros e. apply ratio_of_rescale.
Qed.

Lemma stage_slices_progress span project_id work_dir (stages : list (string * Stage)) :
  (0 <= span)%Q ->
  Forall (fun s => well_reported s.2) stages ->
  forall start fs,
    let trace := (spec_stage_slices span project_id work_dir (enumerate start stages) fs).2 in
    within (inject_Z (start - 1) * span)
           (inject_Z (start - 1 + Z.of_nat (length stages)) * span)
           (List.map ratio_of trace) /\
    nondecreasing (List.map ratio_of trace).
Proof.
  intros Hs Hst. induction Hst as [|[nm step] stages Hw _ IH]; intros start fs; simpl.
  - split; [constructor|apply nondecreasing_nil].
  - specialize (Hw project_id work_dir fs). simpl in Hw.
    destruct (stage_alone step project_id work_dir fs) as [r [fs1 obs]]. simpl in Hw.
    destruct Hw as [Hwithin Hmono].
    set (c := (inject_Z (start - 1) * span)%Q).
    destruct (slice_of_sub_progress c span _ Hs Hwithin Hmono) as [Sw Sn].
    assert (within c (c + span)
              (List.map ratio_of
                 ((PyStr.removeprefix "_" nm, c,
                   "Running " +:+ PyStr.replace_char "_" " " (PyStr.removeprefix "_" nm))
                  :: List.map (rescale span start) obs)) /\
            nondecreasing
              (List.map ratio_of
                 ((PyStr.removeprefix "_" nm, c,
                   "Running " +:+ PyStr.replace_char "_" " " (PyStr.removeprefix "_" nm))
                  :: List.map (rescale span start) obs))) as [Hw1 Hn1].
    { cbn [List.map]. rewrite ratios_of_slice. fold c. split.
      - apply Forall_cons_2; [unfold ratio_of; simpl; lra|exact Sw].
      - apply nondecreasing_cons; [|exact Sn].
        intros b Hb. apply (within_elem _ _ _ _ Sw) in Hb. unfold ratio_of; simpl. lra. }
    pose proof (slice_next (start - 1) span) as Hnext. fold c in Hnext.
    replace (start - 1 + 1) with (start + 1 - 1) in Hnext by lia.
    assert (inject_Z (start + 1 - 1) * span
            <= inject_Z (start - 1 + Z.of_nat (S (length stages))) * span)%Q as Hhi
      by (apply slice_start_le; [done|lia]).
    destruct r as [[]|e].
    + cbn [w_fs w_obs]. specialize (IH (start + 1) fs1). simpl in IH.
      destruct (spec_stage_slices span project_id work_dir (enumerate (start + 1) stages) fs1)
        as [[r' fs'] later]. simpl in *. destruct IH as [Lw Ln].
      rewrite List.map_app.
      eapply (stretch_app c (inject_Z (start + 1 - 1) * span)%Q _ (_ :: _) _).
      * eapply within_weaken; [apply Qle_refl| |exact Hw1]. lra.
      * exact Hn1.
      * replace (start - 1 + Z.of_nat (S (length stages)))
          with (start + 1 - 1 + Z.of_nat (length stages)) by lia. exact Lw.
      * exact Ln.
      * lra.
      * exact Hhi.
    + simpl. split; [|exact Hn1].
      eapply within_weaken; [apply Qle_refl| |exact Hw1]. lra.
Qed.

(** The trace of a build: ratios that never decrease, all below one
    except the last report of a build that succeeded. *)
Lemma build_trace_progress stages self tmp now project_id fs :
  Forall (fun s => well_reported s.2) stages ->
  let '(r, _, trace) := spec_build_trace stages self tmp now project_id fs in
  exists body,
    trace = body ++ match r with
                    | Ok _ => [("archive", 1%Q, "Build complete")]
                    | Raise _ => []
                    end /\
    within 0 (inject_Z (Z.of_nat (length stages)) * span_of (length stages))
           (List.map ratio_of body) /\
    nondecreasing (List.map ratio_of body).
Proof.
  intros Hst. unfold spec_build_trace.
  set (n := length stages). set (span := span_of n).
  assert (0 <= span)%Q as Hs by (apply Qlt_le_weak, span_of_pos).
  pose proof (stage_slices_progress span project_id (tmp // ["mod"]) stages Hs Hst 1
                (Fs.mkdir_p (Fs.mkdir_p fs tmp) (tmp // ["mod"]))) as Hsl.
  simpl in Hsl.
  destruct (spec_stage_slices span project_id (tmp // ["mod"]) (enumerate 1 stages) _)
    as [[r fs1] slices]. simpl in Hsl. destruct Hsl as [Hw Hn].
  replace (1 - 1 + Z.of_nat (length stages)) with (Z.of_nat n) in Hw by (unfold n; lia).
  assert (within 0 (inject_Z (Z.of_nat n) * span) (List.map ratio_of slices)) as Hw'.
  { eapply within_weaken; [|apply Qle_refl|exact Hw].
    change (inject_Z (1 - 1)) with 0%Q. lra. }
  destruct r as [[]|e].
  - unfold _archive_build, bind, act, ret. cbn.
    exists (slices ++ [("archive", (inject_Z (Z.of_nat n) * span)%Q, "Creating archive")]).
    split; [by rewrite <- app_assoc|].
    rewrite List.map_app. cbn [List.map].
    assert (0 <= inject_Z (Z.of_nat n) * span)%Q
      by (apply Qmult_le_0_compat; [apply inject_Z_nonneg; lia|done]).
    apply (stretch_app 0 (inject_Z (Z.of_nat n) * span)); try done.
    + apply Forall_cons_2; [unfold ratio_of; simpl; lra|apply Forall_nil_2].
    + intros [|i] [|j] a b Hij Ha Hb; simplify_eq/=; try lia. apply Qle_refl.
    + apply Qle_refl.
  - exists slices. split; [by rewrite app_nil_r|]. done.
Qed.

(** ** One job, write by write *)

Section JobWrites.
Variable subprocess_run : list string -> FS -> CompletedProcess.
Variable self : BuildService.

Lemma build_mod_replay {Obs} tmp now project_id (cb : ProgressCallback Obs) fs obs0 :
  build_mod subprocess_run self tmp now project_id (Some cb) (World fs obs0)
  = let '(r, w) := recorded_build subprocess_run self tmp now project_id fs in
    (r, World (w_fs w) (replay cb (w_obs w) obs0)).
Proof. apply build_steps_replay, steps_parametric. Qed.

Lemma replay_update job (trace : list event) rt :
  replay (update job) trace rt
  = foldl (apply_write job) rt
      (List.map (fun '(step, ratio, message) => Update step ratio message) trace).
Proof.
  unfold replay. revert rt. induction trace as [|[[step ratio] message] trace IH];
    intros rt; simpl; [reflexivity|]. apply IH.
Qed.

Lemma deref_modify_job job f rt :
  deref (modify_job job f rt) job = f <$> deref rt job.
Proof. unfold deref, modify_job. simpl. by rewrite lookup_alter_eq. Qed.

(** [_run_job] does to the registry what its writes do, one after the
    other. *)
Theorem run_job_writes tmp now job_id fs rt job j :
  get_job rt job_id = Some job ->
  deref rt job = Some j ->
  _run_job subprocess_run self tmp now job_id fs rt
  = (w_fs (recorded_build subprocess_run self tmp now (BuildJob.project_id j) fs).2,
     foldl (apply_write job) rt
           (job_writes subprocess_run self tmp now (BuildJob.project_id j) fs)).
Proof.
  intros Hget Hj. unfold _run_job, job_writes. rewrite Hget.
  rewrite !deref_modify_job, Hj. simpl option_fmap.
  cbn [fmap option_fmap option_map BuildJob.project_id BuildJob.set_message
       BuildJob.set_status].
  rewrite build_mod_replay.
  destruct (recorded_build subprocess_run self tmp now (BuildJob.project_id j) fs)
    as [r [fs1 trace]].
  unfold writes_of. cbn [foldl apply_write w_fs w_obs].
  rewrite foldl_app, <- replay_update. cbn [foldl].
  by destruct r.
Qed.

Lemma last_states_from job rt writes :
  last (states_from job rt writes) = Some (foldl (apply_write job) rt writes).
Proof.
  revert rt. induction writes as [|wr writes IH]; intros rt; [reflexivity|].
  cbn [states_from foldl]. rewrite <- IH.
  by destruct (states_from job (apply_write job rt wr) writes) eqn:E;
    [destruct writes; discriminate E|].
Qed.

(** A write changes the record of its job and leaves the registry's
    mapping alone. *)
Lemma apply_write_jobs job rt wr : jobs (apply_write job rt wr) = jobs rt.
Proof.
  destruct wr; simpl; try reflexivity; unfold update, complete, fail;
    by destruct (time_time (clock rt)).
Qed.

Lemma apply_write_deref job rt wr j :
  deref rt job = Some j ->
  exists j', deref (apply_write job rt wr) job = Some j' /\
             BuildJob.progress j' = progress_after (BuildJob.progress j) wr /\
             BuildJob.project_id j' = BuildJob.project_id j.
Proof.
  intros Hj. unfold deref in *.
  destruct wr; simpl; unfold modify_job, update, complete, fail;
    try destruct (time_time (clock rt)); simpl;
    rewrite lookup_alter_eq, Hj; simpl; eexists; (split; [reflexivity|done]).
Qed.

Lemma poll_states job_id job writes :
  forall rt j,
    get_job rt job_id = Some job -> deref rt job = Some j ->
    exists seen,
      Forall2 (fun rt' j' => poll rt' job_id = Some j') (states_from job rt writes) seen /\
      List.map BuildJob.progress seen
      = BuildJob.progress j :: progress_trail (BuildJob.progress j) writes.
Proof.
  induction writes as [|wr writes IH]; intros rt j Hget Hj.
  - exists [j]. split; [|reflexivity].
    repeat constructor. unfold poll. by rewrite Hget.
  - destruct (apply_write_deref job rt wr j Hj) as (j' & Hj' & Hp & _).
    destruct (IH (apply_write job rt wr) j') as (seen & HF & Hseen).
    { unfold get_job in *. by rewrite apply_write_jobs. }
    { exact Hj'. }
    exists (j :: seen). split.
    + constructor; [|exact HF]. unfold poll. by rewrite Hget.
    + cbn [List.map progress_trail]. rewrite Hseen, Hp. reflexivity.
Qed.

Lemma last_cons_default {A} (x d : A) (l : list A) :
  List.last (x :: l) d = List.last l x.
Proof.
  revert x. induction l as [|y l IH]; intros x; [reflexivity|].
  change (List.last (x :: y :: l) d) with (List.last (y :: l) d).
  rewrite IH. change (List.last (y :: l) x) with
    (match l with [] => y | _ :: _ => List.last l x end).
  destruct l as [|z l]; [reflexivity|]. rewrite <- !IH. reflexivity.
Qed.

Lemma progress_trail_updates p (trace : list event) rest :
  progress_trail p
    (List.map (fun '(step, ratio, message) => Update step ratio message) trace ++ rest)
  = List.map ratio_of trace ++ progress_trail (List.last (List.map ratio_of trace) p) rest.
Proof.
  revert p. induction trace as [|[[step ratio] message] trace IH]; intros p; [reflexivity|].
  cbn [List.map app progress_trail progress_after]. rewrite IH.
  change (ratio_of (step, ratio, message)) with ratio.
  by rewrite last_cons_default.
Qed.

End JobWrites.

(** ** The progress a job shows *)

Lemma nondecreasing_constant (p : Q) n : nondecreasing (replicate n p).
Proof.
  intros i j a b _ Ha Hb.
  apply lookup_replicate in Ha as [-> _]. apply lookup_replicate in Hb as [-> _].
  apply Qle_refl.
Qed.

Lemma within_last lo hi (l : list Q) d :
  within lo hi l -> (lo <= d <= hi)%Q -> (lo <= List.last l d <= hi)%Q.
Proof.
  intros Hl Hd. destruct l as [|x l _] using rev_ind; [exact Hd|].
  rewrite last_last. apply Forall_app in Hl as [_ Hx]. by inversion Hx.
Qed.

Lemma nondecreasing_snoc_last (l : list Q) d :
  nondecreasing l -> nondecreasing (l ++ [List.last l d]).
Proof.
  intros Hl. destruct l as [|x l _] using rev_ind.
  - simpl. apply (nondecreasing_constant d 1).
  - rewrite last_last. apply nondecreasing_app; [exact Hl| |].
    + apply (nondecreasing_constant x 1).
    + intros a b Ha Hb. apply list_elem_of_singleton in Hb as ->.
      apply list_elem_of_lookup in Ha as [i Hi].
      eapply (Hl i (length l)); [|exact Hi|].
      * apply lookup_lt_Some in Hi. rewrite length_app in Hi. simpl in Hi. lia.
      * by rewrite lookup_app_r, Nat.sub_diag.
Qed.

Section JobProgress.
Variable subprocess_run : list string -> FS -> CompletedProcess.
Variable self : BuildService.

(** The progress values of a job's writes, from a record that starts at
    zero: they never decrease, and none is one unless the build came
    back with its archive. *)
Lemma job_trail_progress tmp now project_id fs (p0 : Q) :
  (p0 == 0)%Q ->
  let trail :=
    p0 :: progress_trail p0 (job_writes subprocess_run self tmp now project_id fs) in
  nondecreasing trail /\
  (forall q, q ∈ trail -> (q == 1)%Q ->
     exists archive_path,
       (recorded_build subprocess_run self tmp now project_id fs).1 = Ok archive_path).
Proof.
  intros Hp0. unfold job_writes, recorded_build, build_mod.
  rewrite (build_steps_trace _ _ _ _ _ _ (steps_parametric subprocess_run self)).
  pose proof (build_trace_progress (steps subprocess_run self) self tmp now project_id fs
                (steps_well_reported subprocess_run self)) as Hb.
  destruct (spec_build_trace (steps subprocess_run self) self tmp now project_id fs)
    as [[r fs1] trace].
  destruct Hb as (body & -> & Hw & Hn).
  set (n := length (steps subprocess_run self)) in *.
  pose proof (stages_span_below_1 n) as Hlt.
  assert (0 <= inject_Z (Z.of_nat n) * span_of n)%Q as Hge.
  { apply Qmult_le_0_compat; [apply inject_Z_nonneg; lia|apply Qlt_le_weak, span_of_pos]. }
  cbn [w_obs fst]. unfold writes_of.
  cbn [progress_trail progress_after]. rewrite progress_trail_updates.
  assert (within 0 0 [p0; p0; p0] /\ nondecreasing [p0; p0; p0]) as [Hw0 Hn0].
  { split; [|apply (nondecreasing_constant p0 3)].
    repeat (apply Forall_cons_2; [lra|]). apply Forall_nil_2. }
  destruct r as [archive_path|e]; cbn [progress_trail progress_after].
  - split; [|intros _ _ _; by eexists].
    rewrite List.map_app. cbn [List.map]. rewrite <- app_assoc.
    change (ratio_of ("archive", 1%Q, "Build complete")) with 1%Q. cbn [app].
    assert (within (inject_Z (Z.of_nat n) * span_of n) 1 [1%Q; 1%Q] /\
            nondecreasing [1%Q; 1%Q]) as [Hw1 Hn1].
    { split; [|apply (nondecreasing_constant 1 2)].
      repeat (apply Forall_cons_2; [lra|]). apply Forall_nil_2. }
    destruct (stretch_app 0 (inject_Z (Z.of_nat n) * span_of n) 1
                (List.map ratio_of body) [1%Q; 1%Q] Hw Hn Hw1 Hn1 Hge) as [Hw2 Hn2];
      [lra|].
    apply (stretch_app 0 0 1 [p0; p0; p0] _ Hw0 Hn0 Hw2 Hn2); lra.
  - rewrite app_nil_r.
    assert (within 0 (inject_Z (Z.of_nat n) * span_of n)
              ([p0; p0; p0] ++ List.map ratio_of body
                 ++ [List.last (List.map ratio_of body) p0]) /\
            nondecreasing
              ([p0; p0; p0] ++ List.map ratio_of body
                 ++ [List.last (List.map ratio_of body) p0])) as [Hwt Hnt].
    { apply (stretch_app 0 0 _ [p0; p0; p0] _ Hw0 Hn0); [| |lra|lra].
      - apply within_app; [exact Hw|].
        apply Forall_cons_2; [|apply Forall_nil_2]. apply within_last; [exact Hw|lra].
      - by apply nondecreasing_snoc_last. }
    split; [exact Hnt|].
    intros q Hq Hq1. apply (within_elem _ _ _ _ Hwt) in Hq. lra.
Qed.

(** C1: the progress values written to the record of a job, which are the
    ones a poll after each write reads, never decrease from the start of
    [_run_job] to its last write, and a record with progress [1] is only
    seen when the build returned an archive. *)
Theorem job_progress_monotone tmp now job_id fs rt job j :
  get_job rt job_id = Some job ->
  deref rt job = Some j ->
  (BuildJob.progress j == 0)%Q ->
  let build := recorded_build subprocess_run self tmp now (BuildJob.project_id j) fs in
  let history :=
    states_from job rt
      (job_writes subprocess_run self tmp now (BuildJob.project_id j) fs) in
  last history = Some (_run_job subprocess_run self tmp now job_id fs rt).2 /\
  exists seen,
    Forall2 (fun rt' j' => poll rt' job_id = Some j') history seen /\
    nondecreasing (List.map BuildJob.progress seen) /\
    (forall j', j' ∈ seen -> (BuildJob.progress j' == 1)%Q ->
       exists archive_path, build.1 = Ok archive_path).
Proof.
  intros Hget Hj Hp0. cbn zeta. split.
  - rewrite last_states_from. by erewrite run_job_writes.
  - destruct (poll_states job_id job
                (job_writes subprocess_run self tmp now (BuildJob.project_id j) fs)
                rt j Hget Hj) as (seen & HF & Hseen).
    destruct (job_trail_progress tmp now (BuildJob.project_id j) fs _ Hp0) as [Hn H1].
    exists seen. split; [exact HF|]. rewrite Hseen. split; [exact Hn|].
    intros j' Hj' Hq. apply (H1 (BuildJob.progress j')); [|exact Hq].
    rewrite <- Hseen. apply list_elem_of_fmap. by exists j'.
Qed.

End JobProgress.

(** ** The slices of [build_mod] *)

(** C3: with [n] stages every slice is [s = 1 / (n + 1)] wide, the [n]
    slices of the stages and the one of the archive add up to one, and for
    the four stages of [build_mod] a slice is [0.2]; the reports of a build
    are the sliced ones: [(i - 1) * s] before stage [i], [(i - 1) * s + r * s]
    for a report [r] of stage [i], then [n * s], the archive, and [1]. *)
Theorem progress_slicing :
  (forall n, (span_of n == 1 / (inject_Z (Z.of_nat n) + 1))%Q /\
             (inject_Z (Z.of_nat n) * span_of n + span_of n == 1)%Q) /\
  (forall subprocess_run self,
     (span_of (length (steps subprocess_run self)) == 0.2)%Q) /\
  (0.2 + 0.2 + 0.2 + 0.2 + 0.2 == 1)%Q /\
  (forall span index label r message,
     rescale span index (label, r, message)
     = (label, (inject_Z (index - 1) * span + r * span)%Q, message)) /\
  (forall stages self tmp now project_id fs,
     Forall (fun s => parametric s.2) stages ->
     build_steps stages self tmp now project_id (Some recorder) (World fs [])
     = let '(r, fs', trace) := spec_build_trace stages self tmp now project_id fs in
       (r, World fs' trace)) /\
  (forall subprocess_run self tmp now project_id fs,
     build_mod subprocess_run self tmp now project_id (Some recorder) (World fs [])
     = let '(r, fs', trace) :=
         spec_build_trace (steps subprocess_run self) self tmp now project_id fs in
       (r, World fs' trace)).
Proof.
  split; [|split; [|split; [|split; [|split]]]].
  - intros n. split; [|apply span_of_total].
    unfold span_of. rewrite inject_Z_plus. reflexivity.
  - intros subprocess_run self. reflexivity.
  - reflexivity.
  - reflexivity.
  - intros stages self tmp now project_id fs Hst. by apply build_steps_trace.
  - intros subprocess_run self tmp now project_id fs.
    apply build_steps_trace, steps_parametric.
Qed.

(** ** The descriptor *)

Lemma lookup_ensure_storage_layout (fs : FS) (p : Path) :
  ~ p `prefix_of` storage.DDS_ROOT -> ~ p `prefix_of` storage.AUDIO_ROOT ->
  ~ p `prefix_of` storage.PROJECT_ROOT -> ~ p `prefix_of` storage.WORKSHOP_ROOT ->
  storage.ensure_storage_layout fs !! p = fs !! p.
Proof.
  intros H1 H2 H3 H4. unfold storage.ensure_storage_layout. cbn [foldl].
  assert (forall q r : Path, q `prefix_of` r -> ~ p `prefix_of` r -> ~ p `prefix_of` q) as Hpre.
  { intros q r [k2 ->] Hr [k1 ->]. apply Hr. exists (k1 ++ k2). by rewrite app_assoc. }
  rewrite !FsFacts.lookup_mkdir_p_other; try done;
    (eapply Hpre; [|exact H1]); first [by exists ["dds"]|by exists ["assets"; "dds"]].
Qed.

Lemma lookup_project_dir_below (fs : FS) project_id (rest : Path) :
  rest <> [] ->
  (storage.project_dir fs project_id).2 !! ((storage.project_dir fs project_id).1 // rest)
  = fs !! (storage.PROJECT_ROOT // [project_id] // rest).
Proof.
  intros Hrest. unfold storage.project_dir. cbn [fst snd].
  assert (forall q : Path, length q <= 3 ->
            ~ (storage.PROJECT_ROOT // [project_id] // rest) `prefix_of` q)%nat as Hlen.
  { intros q Hq [k Hk]. apply (f_equal length) in Hk.
    unfold PurePath.joinpath in Hk. rewrite !length_app in Hk.
    destruct rest; [done|]. simpl in Hk. lia. }
  rewrite FsFacts.lookup_mkdir_p_other by (apply Hlen; simpl; lia).
  apply lookup_ensure_storage_layout; apply Hlen; simpl; lia.
Qed.




(** ** Loops over files, seen from the file system *)

Lemma enumerate_app {A} (xs ys : list A) start :
  enumerate start (xs ++ ys)
  = enumerate start xs ++ enumerate (start + Z.of_nat (length xs)) ys.
Proof.
  revert start. induction xs as [|x xs IH]; intros start; simpl.
  - by rewrite Z.add_0_r.
  - rewrite IH. do 3 f_equal. lia.
Qed.

(** What a loop does to the files does not depend on its reports. *)
Lemma mrel_then_notify {Obs A} (m : M Obs A) (m' : M unit A) callback label ratio message :
  mrel (fun _ _ => True) m m' ->
  mrel (fun _ _ => True)
       (bind m (fun _ => notify callback label ratio message))
       (bind m' (fun _ => ret tt)).
Proof.
  intros Hm. apply mrel_bind; [exact Hm|]. intros _ w1 w2 [Hfs _].
  destruct callback; done.
Qed.

Lemma report_loop_files {Obs A} (body : A -> M Obs unit) (body' : A -> M unit unit)
    callback label (ratio : Z -> Q) (msg : A -> string) (xs : list A) start :
  (forall x, mrel (fun _ _ => True) (body x) (body' x)) ->
  mrel (fun _ _ => True)
       (for_each (enumerate start xs) (fun '(index, x) =>
          bind (body x) (fun _ => notify callback label (ratio index) (msg x))))
       (for_each xs (fun x => bind (body' x) (fun _ => ret tt))).
Proof.
  intros Hbody. revert start. induction xs as [|x xs IH]; intros start; simpl.
  - apply mrel_ret.
  - apply mrel_bind; [by apply mrel_then_notify|]. intros _. apply IH.
Qed.

(** ** The texture stage without a converter *)

Section Textures.
Context {Obs : Type}.
Variable subprocess_run : list string -> FS -> CompletedProcess.

Lemma convert_to_dds_no_converter self source destination (w : world Obs) :
  _converter self = None ->
  PyStr.lower (PurePath.suffix source) <> ".dds" ->
  _convert_to_dds subprocess_run self source destination w
  = (Raise (BuildError "No DDS converter (ImageMagick or texconv) available"),
     World (Fs.mkdir_p (w_fs w) (PurePath.parent destination)) (w_obs w)).
Proof.
  intros Hc Hs. unfold _convert_to_dds. rewrite run_bind_act.
  apply String.eqb_neq in Hs. rewrite Hs, Hc. reflexivity.
Qed.


Lemma convert_files_no_converter self dds_root files callback (w : world Obs) :
  _converter self = None ->
  (convert_files subprocess_run self dds_root files callback w).1
  = if forallb is_dds files then Ok tt
    else Raise (BuildError "No DDS converter (ImageMagick or texconv) available").
Proof.
  intros Hc. unfold convert_files. cbv zeta. generalize (len_or_1 files) as total.
  generalize 1 as start. revert w.
  induction files as [|f files IH]; intros w start total; [reflexivity|].
  cbn [enumerate for_each forallb]. unfold bind at 1. unfold bind at 1.
  unfold convert_file at 1. unfold is_dds at 1.
  destruct (String.eqb_spec (PyStr.lower (PurePath.suffix f)) ".dds") as [Hs|Hs].
  - unfold _convert_to_dds. rewrite run_bind_act.
    apply String.eqb_eq in Hs. rewrite Hs. cbn [andb].
    unfold act at 1. cbn [w_fs w_obs].
    destruct callback as [cb|]; cbn [notify call ret]; apply (IH _ _ total).
  - by rewrite convert_to_dds_no_converter.
Qed.

End Textures.


(** ** The audio stage *)

Lemma append_assoc (a b c : string) : (a +:+ b) +:+ c = a +:+ (b +:+ c).
Proof.
  induction a as [|x a IH]; [reflexivity|].
  rewrite !PyStrFacts.app_cons. by rewrite IH.
Qed.

Lemma substring_split (s : string) (i : nat) :
  (i <= String.length s)%nat ->
  substring 0 i s +:+ substring i (String.length s - i) s = s.
Proof.
  revert i. induction s as [|a s IH]; intros i Hi.
  - destruct i; [reflexivity|simpl in Hi; lia].
  - destruct i as [|i].
    + cbn [substring]. rewrite PyStrFacts.app_nil.
      change (String.length (String a s) - 0)%nat with (S (String.length s)).
      cbn [substring]. f_equal. apply PyStrFacts.substring_all.
    + cbn [substring String.length Nat.sub]. rewrite PyStrFacts.app_cons. f_equal.
      apply IH. simpl in Hi. lia.
Qed.

Lemma stem_suffix (p : Path) : PurePath.stem p +:+ PurePath.suffix p = PurePath.name p.
Proof.
  unfold PurePath.stem, PurePath.suffix.
  destruct (PurePath.has_suffix_at _ _) eqn:E.
  - unfold PurePath.has_suffix_at, PyStr.len in E.
    apply andb_true_iff in E as [E1 E2]. apply Z.ltb_lt in E1, E2.
    unfold PyStr.slice_to, PyStr.slice_from. apply substring_split. lia.
  - generalize (PurePath.name p). intros s. induction s; [reflexivity|].
    rewrite PyStrFacts.app_cons. by f_equal.
Qed.

(** The sidecar of an asset stands beside it under the asset's full name
    followed by [.json]. *)
Lemma sidecar_path (asset_path : Path) :
  PurePath.with_suffix asset_path
    (PurePath.suffix asset_path +:+ storage.METADATA_EXTENSION)
  = PurePath.parent asset_path // [PurePath.name asset_path +:+ ".json"].
Proof.
  unfold PurePath.with_suffix, PurePath.joinpath. f_equal. f_equal.
  rewrite <- append_assoc. by rewrite stem_suffix.
Qed.

Lemma append_json_ne (s : string) : s <> s +:+ ".json".
Proof.
  intros H. apply (f_equal String.length) in H.
  rewrite PyStrFacts.length_app in H. simpl in H. lia.
Qed.

Section Audio.
Context {Obs : Type}.

Lemma validate_audio_rejects file_path :
  PyStr.lower (PurePath.suffix file_path) ∉ allowed_extensions ->
  _validate_audio file_path
  = Raise (BuildError ("Unsupported audio format: " +:+ PurePath.suffix file_path)).
Proof. intros H. unfold _validate_audio. by rewrite bool_decide_eq_true_2. Qed.

Lemma validate_audio_passes file_path :
  PyStr.lower (PurePath.suffix file_path) ∈ allowed_extensions ->
  _validate_audio file_path = Ok tt.
Proof.
  intros H. unfold _validate_audio. rewrite bool_decide_eq_false_2; [done|]. by intros ?.
Qed.

Lemma package_file_rejects audio_root file_path (w : world Obs) :
  PyStr.lower (PurePath.suffix file_path) ∉ allowed_extensions ->
  package_file audio_root file_path w
  = (Raise (BuildError ("Unsupported audio format: " +:+ PurePath.suffix file_path)), w).
Proof.
  intros H. unfold package_file. rewrite run_bind_of_result.
  by rewrite validate_audio_rejects.
Qed.

(** Packaging one accepted file whose sidecar, if there is one, holds JSON. *)
Lemma package_file_accepts audio_root file_path (w : world Obs) d :
  PyStr.lower (PurePath.suffix file_path) ∈ allowed_extensions ->
  w_fs w !! file_path = Some (File d) ->
  let target := audio_root // [PurePath.name file_path] in
  let sidecar := PurePath.parent file_path // [PurePath.name file_path +:+ ".json"] in
  let meta_target := audio_root // [PurePath.name file_path +:+ ".json"] in
  let fs1 := <[target := File d]> (w_fs w) in
  package_file audio_root file_path w
  = match w_fs w !! sidecar with
    | None => (Ok tt, World fs1 (w_obs w))
    | Some (File (JsonDoc v)) =>
        if Py.truthy v
        then (Ok tt, World (storage.save_metadata fs1 meta_target v) (w_obs w))
        else (Ok tt, World fs1 (w_obs w))
    | Some _ =>
        (match Fs.load_json (w_fs w) sidecar with Ok _ => Ok tt | Raise e => Raise e end,
         World fs1 (w_obs w))
    end.
Proof.
  intros Hext Hd. cbn zeta. unfold package_file.
  rewrite run_bind_of_result, validate_audio_passes by done.
  rewrite run_bind_act, run_bind_fs_try. cbn [w_fs w_obs].
  unfold Fs.copy2. rewrite Hd.
  unfold storage.load_asset_metadata. rewrite sidecar_path. unfold Fs.exists_.
  assert (PurePath.parent file_path // [PurePath.name file_path +:+ ".json"]
          <> audio_root // [PurePath.name file_path]) as Hne.
  { unfold PurePath.joinpath. intros H. apply app_inj_tail in H as [_ H].
    symmetry in H. by apply append_json_ne in H. }
  unfold Fs.load_json at 1.
  rewrite !lookup_insert_ne by done.
  unfold Fs.load_json.
  destruct (w_fs w !! (PurePath.parent file_path // [PurePath.name file_path +:+ ".json"]))
    as [[|[s|v|ms]]|] eqn:E; try reflexivity.
  destruct (Py.truthy v); reflexivity.
Qed.

Lemma lookup_save_metadata_other (fs : FS) (meta_target p : Path) v n :
  p <> meta_target -> fs !! p = Some n ->
  storage.save_metadata fs meta_target v !! p = Some n.
Proof.
  intros Hne Hp. unfold storage.save_metadata, Fs.write.
  rewrite lookup_insert_ne by done.
  rewrite FsFacts.lookup_mkdir_p_is_Some; by rewrite Hp.
Qed.

(** The loop stops at the first file it rejects, with the files as the
    ones before it left them. *)
Lemma package_files_abort audio_root (pre post : list Path) file_path callback
    (w : world Obs) :
  PyStr.lower (PurePath.suffix file_path) ∉ allowed_extensions ->
  let before :=
    for_each pre (fun f => bind (package_file (Obs:=unit) audio_root f) (fun _ => ret tt))
             (World (w_fs w) tt) in
  before.1 = Ok tt ->
  let out := package_files audio_root (pre ++ file_path :: post) callback w in
  out.1 = Raise (BuildError ("Unsupported audio format: " +:+ PurePath.suffix file_path)) /\
  w_fs out.2 = w_fs before.2.
Proof.
  intros Hext before Hbefore out. subst out. unfold package_files. cbv zeta.
  match goal with
  | |- (?t).1 = ?r /\ _ =>
      assert (exists w1, t = (r, w1) /\ w_fs w1 = w_fs before.2) as (w1 & -> & Hw1);
        [|done]
  end.
  rewrite enumerate_app, for_each_app.
  pose proof (report_loop_files (package_file audio_root) (package_file audio_root)
                callback "audio"
                (fun index => true_div index (len_or_1 (pre ++ file_path :: post)))
                (fun f => "Packaged " +:+ PurePath.name f)
                pre 1 (fun x => mrel_package_file _ audio_root x)
                w (World (w_fs w) tt)) as H.
  destruct H as [Hr [Hfs _]]; [done|]. fold before in Hr, Hfs.
  unfold bind at 1.
  destruct (for_each (enumerate 1 pre) _ w) as [r1 w1]. cbn [fst snd] in Hr, Hfs.
  rewrite Hbefore in Hr. subst r1.
  cbn [enumerate for_each]. unfold bind at 1. unfold bind at 1.
  rewrite package_file_rejects by done. by exists w1.
Qed.

End Audio.

(** C4, as the code has it: on empty input a stage ends without error and
    without a call of the callback.  Collect on a project without files
    leaves the observer as it was; ConvertTextures and PackageAudio on a
    project without the asset location change nothing at all. *)
Theorem empty_input_stages :
  forall (Obs : Type) subprocess_run self project_id destination callback (w : world Obs),
  (storage.iter_project_files (storage.project_dir (w_fs w) project_id).2
                              (storage.project_dir (w_fs w) project_id).1 = [] ->
   _collect_project_files project_id destination callback w
   = (Ok tt, World (storage.project_dir (w_fs w) project_id).2 (w_obs w))) /\
  (w_fs w !! (storage.DDS_ROOT // [project_id]) = None ->
   _convert_dds_assets subprocess_run self project_id destination callback w = (Ok tt, w)) /\
  (w_fs w !! (storage.AUDIO_ROOT // [project_id]) = None ->
   _package_audio_tracks project_id destination callback w = (Ok tt, w)).
Proof.
  intros Obs subprocess_run self project_id destination callback w. split; [|split].
  - intros Hfiles. unfold _collect_project_files.
    rewrite run_bind_fs_op, run_bind_ask. cbn [w_fs w_obs]. by rewrite Hfiles.
  - intros Hnone. unfold _convert_dds_assets. rewrite run_bind_ask.
    unfold Fs.exists_. by rewrite Hnone.
  - intros Hnone. unfold _package_audio_tracks. rewrite run_bind_ask.
    unfold Fs.exists_. by rewrite Hnone.
Qed.

(** ** What a build leaves of the files, and how it fails *)

Section Sound.
Context {Obs : Type} (I : FS -> Prop).

Lemma sound_ret {A : Type} (a : A) : sound (Obs:=Obs) I (ret a).
Proof. intros w H. split; [done|]. intros e [=]. Qed.

Lemma sound_raise {A : Type} e : exn_str e <> EmptyString -> sound (Obs:=Obs) I (raise (A:=A) e).
Proof. intros He w H. split; [done|]. by intros e' [= <-]. Qed.

Lemma sound_of_result {A : Type} (r : result A) :
  (forall e, r = Raise e -> exn_str e <> EmptyString) -> sound (Obs:=Obs) I (of_result r).
Proof. intros Hr w H. split; [done|]. exact Hr. Qed.

Lemma sound_ask {A : Type} (f : FS -> A) : sound (Obs:=Obs) I (ask f).
Proof. intros w H. split; [done|]. intros e [=]. Qed.

Lemma sound_act (f : FS -> FS) : (forall fs, I fs -> I (f fs)) -> sound (Obs:=Obs) I (act f).
Proof. intros Hf w H. split; [by apply Hf|]. intros e [=]. Qed.

Lemma sound_fs_op {A : Type} (f : FS -> A * FS) :
  (forall fs, I fs -> I (f fs).2) -> sound (Obs:=Obs) I (fs_op f).
Proof.
  intros Hf w H. unfold fs_op. specialize (Hf _ H).
  destruct (f (w_fs w)). split; [done|]. intros e [=].
Qed.

Lemma sound_fs_try {A : Type} (f : FS -> result A) :
  (forall fs e, f fs = Raise e -> exn_str e <> EmptyString) -> sound (Obs:=Obs) I (fs_try f).
Proof. intros Hf w H. split; [done|]. apply Hf. Qed.

Lemma sound_notify (callback : option (ProgressCallback Obs)) step ratio message :
  sound I (notify callback step ratio message).
Proof. intros w H. destruct callback; (split; [done|]); intros e [=]. Qed.

Lemma sound_bind {A B : Type} (m : M Obs A) (k : A -> M Obs B) :
  sound I m -> (forall a, sound I (k a)) -> sound I (bind m k).
Proof.
  intros Hm Hk w H. unfold bind. destruct (Hm w H) as [HI He].
  destruct (m w) as [[a|e] w']; simpl in *.
  - by apply Hk.
  - split; [done|]. intros e' [= <-]. by apply He.
Qed.

Lemma sound_for_each {A : Type} (xs : list A) (body : A -> M Obs unit) :
  Forall (fun x => sound I (body x)) xs -> sound I (for_each xs body).
Proof.
  induction 1 as [|x xs Hx _ IH]; simpl; [apply sound_ret|].
  apply sound_bind; [exact Hx|]. intros _. exact IH.
Qed.

Lemma sound_with_cleanup {A : Type} (m : M Obs A) release :
  sound I m -> (forall fs, I fs -> I (release fs)) -> sound I (with_cleanup m release).
Proof.
  intros Hm Hr w H. unfold with_cleanup. destruct (Hm w H) as [HI He].
  destruct (m w) as [r w']. simpl in *. split; [by apply Hr|exact He].
Qed.

End Sound.

Lemma nonempty_literal (a : ascii) (s t : string) : String a s +:+ t <> EmptyString.
Proof. rewrite PyStrFacts.app_cons. discriminate. Qed.

Lemma validate_audio_message file_path e :
  _validate_audio file_path = Raise e -> exn_str e <> EmptyString.
Proof.
  unfold _validate_audio. case_bool_decide; intros [= <-]. apply nonempty_literal.
Qed.

Lemma build_converter_command_message self source destination e :
  _build_converter_command self source destination = Raise e -> exn_str e <> EmptyString.
Proof.
  unfold _build_converter_command. case_bool_decide; [intros [=]|].
  destruct (_converter self) as [c|]; [case_bool_decide|]; intros [= <-]; discriminate.
Qed.

Lemma load_json_message (fs : FS) (p : Path) e :
  Fs.load_json fs p = Raise e -> exn_str e <> EmptyString.
Proof.
  unfold Fs.load_json. destruct (fs !! p) as [[|[?|?|?]]|]; intros [= <-];
    first [discriminate|apply nonempty_literal].
Qed.

Lemma open_w_message (fs : FS) (p : Path) e :
  Fs.open_w fs p = Raise e -> exn_str e <> EmptyString.
Proof.
  unfold Fs.open_w.
  destruct (PurePath.parent p); [|destruct (fs !! _) as [[|?]|]];
    try destruct (Fs.is_dir fs p); intros [= <-]; apply nonempty_literal.
Qed.

Lemma load_asset_metadata_message (fs : FS) (p : Path) e :
  storage.load_asset_metadata fs p = Raise e -> exn_str e <> EmptyString.
Proof.
  unfold storage.load_asset_metadata. destruct (Fs.exists_ _ _); [|intros [=]].
  apply load_json_message.
Qed.

Lemma get_message d k dflt e : Py.get d k dflt = Raise e -> exn_str e <> EmptyString.
Proof. destruct d; intros [= <-]; apply nonempty_literal. Qed.

Lemma iter_message v e : Py.iter v = Raise e -> exn_str e <> EmptyString.
Proof. destruct v; intros [= <-]; apply nonempty_literal. Qed.

Lemma render_descriptor_message project_id metadata e :
  _render_descriptor project_id metadata = Raise e -> exn_str e <> EmptyString.
Proof.
  unfold _render_descriptor, descriptor_lines.
  destruct (Py.get metadata "name" _) eqn:E1; [|intros [= <-]; by eapply get_message].
  destruct (Py.get metadata "version" _) eqn:E2; [|intros [= <-]; by eapply get_message].
  destruct (Py.get metadata "tags" _) as [tags|] eqn:E3;
    [|intros [= <-]; by eapply get_message].
  destruct (Py.get metadata "supported_version" _) eqn:E4;
    [|intros [= <-]; by eapply get_message].
  destruct (Py.truthy tags); [|intros [=]].
  destruct (Py.iter tags) eqn:E5; intros [= <-]. by eapply iter_message.
Qed.

Ltac sound_step :=
  lazymatch goal with
  | |- sound _ (bind _ _) => apply sound_bind; [|intros ?]
  | |- sound _ (ret _) => apply sound_ret
  | |- sound _ (raise _) => apply sound_raise; first [discriminate|apply nonempty_literal]
  | |- sound _ (of_result _) => apply sound_of_result
  | |- sound _ (ask _) => apply sound_ask
  | |- sound _ (act _) => apply sound_act; intros ? ?
  | |- sound _ (fs_op _) => apply sound_fs_op; intros ? ?
  | |- sound _ (fs_try _) => apply sound_fs_try
  | |- sound _ (notify _ _ _ _) => apply sound_notify
  | |- sound _ (for_each _ _) => apply sound_for_each, Forall_forall; intros [? ?] _
  | |- sound _ (if ?b then _ else _) => destruct b
  | |- sound _ (match ?x with _ => _ end) => destruct x eqn:?
  end.

Module FsKeeps.
Import Fs.

Lemma is_file_insert_file (fs : FS) (q p : Path) d :
  is_file fs p = true -> is_file (<[q := File d]> fs) p = true.
Proof.
  unfold is_file. intros H. destruct (decide (q = p)) as [->|Hne].
  - by rewrite lookup_insert_eq.
  - by rewrite lookup_insert_ne.
Qed.

Lemma is_file_copy2 (fs : FS) (src dst p : Path) :
  is_file fs p = true -> is_file (copy2 fs src dst) p = true.
Proof.
  intros H. unfold copy2. destruct (fs !! src) as [[|d]|]; try done.
  by apply is_file_insert_file.
Qed.

Lemma is_file_write (fs : FS) (q p : Path) d :
  is_file fs p = true -> is_file (write fs q d) p = true.
Proof. apply is_file_insert_file. Qed.

Lemma is_file_mkdir_p_keeps (fs : FS) (q p : Path) :
  is_file fs p = true -> is_file (mkdir_p fs q) p = true.
Proof. by rewrite FsFacts.is_file_mkdir_p. Qed.

Lemma is_file_save_metadata (fs : FS) (q p : Path) v :
  is_file fs p = true -> is_file (storage.save_metadata fs q v) p = true.
Proof. intros H. unfold storage.save_metadata. by apply is_file_write, is_file_mkdir_p_keeps. Qed.

Lemma is_file_project_dir (fs : FS) project_id (p : Path) :
  is_file fs p = true -> is_file (storage.project_dir fs project_id).2 p = true.
Proof.
  intros H. unfold storage.project_dir, storage.ensure_storage_layout. cbn [snd foldl].
  by rewrite !FsFacts.is_file_mkdir_p.
Qed.

Lemma lookup_rmtree (fs : FS) (tmp p : Path) :
  ~ tmp `prefix_of` p -> rmtree fs tmp !! p = fs !! p.
Proof.
  intros H. unfold rmtree. destruct (fs !! p) as [n|] eqn:E.
  - apply map_lookup_filter_Some. done.
  - apply map_lookup_filter_None. left. done.
Qed.

Lemma is_file_rmtree (fs : FS) (tmp p : Path) :
  ~ tmp `prefix_of` p -> is_file fs p = true -> is_file (rmtree fs tmp) p = true.
Proof. intros H. unfold is_file. by rewrite lookup_rmtree. Qed.

End FsKeeps.

(** The build keeps an invariant of the file system that writing a file,
    making a directory and the converter keep, and fails with a message. *)
Section BuildKeeps.
Variable subprocess_run : list string -> FS -> CompletedProcess.
Variable I : FS -> Prop.
Hypothesis keeps_file : forall (fs : FS) (q : Path) d, I fs -> I (<[q := File d]> fs).
Hypothesis keeps_mkdir : forall (fs : FS) (q : Path), I fs -> I (Fs.mkdir_p fs q).
Hypothesis keeps_subprocess : forall command fs,
  I fs -> I (fs_after (subprocess_run command fs)).

Context {Obs : Type}.

Lemma keeps_copy2 (fs : FS) (src dst : Path) : I fs -> I (Fs.copy2 fs src dst).
Proof using keeps_file.
  intros H. unfold Fs.copy2. destruct (fs !! src) as [[|d]|]; try done. by apply keeps_file.
Qed.

Lemma keeps_project_dir (fs : FS) project_id :
  I fs -> I (storage.project_dir fs project_id).2.
Proof using keeps_mkdir.
  intros H. unfold storage.project_dir, storage.ensure_storage_layout. cbn [snd foldl].
  by repeat apply keeps_mkdir.
Qed.

Lemma keeps_save_metadata (fs : FS) (q : Path) v :
  I fs -> I (storage.save_metadata fs q v).
Proof using keeps_file keeps_mkdir.
  intros H. unfold storage.save_metadata, Fs.write. by apply keeps_file, keeps_mkdir.
Qed.

Lemma sound_convert_to_dds self source destination :
  sound (Obs:=Obs) I (_convert_to_dds subprocess_run self source destination).
Proof using keeps_file keeps_mkdir keeps_subprocess.
  unfold _convert_to_dds. repeat sound_step;
    eauto using keeps_copy2, build_converter_command_message.
Qed.

Lemma sound_collect_project_files project_id destination callback :
  sound (Obs:=Obs) I (_collect_project_files project_id destination callback).
Proof using keeps_file keeps_mkdir.
  unfold _collect_project_files, collect_files, collect_file. repeat sound_step;
    eauto using keeps_copy2, keeps_project_dir.
Qed.

Lemma sound_convert_dds_assets self project_id destination callback :
  sound (Obs:=Obs) I
        (_convert_dds_assets subprocess_run self project_id destination callback).
Proof using keeps_file keeps_mkdir keeps_subprocess.
  unfold _convert_dds_assets, convert_files, convert_file. repeat sound_step;
    try apply sound_convert_to_dds; eauto.
Qed.

Lemma sound_package_audio_tracks project_id destination callback :
  sound (Obs:=Obs) I (_package_audio_tracks project_id destination callback).
Proof using keeps_file keeps_mkdir.
  unfold _package_audio_tracks, package_files, package_file. repeat sound_step;
    eauto using keeps_copy2, keeps_save_metadata, validate_audio_message,
                load_asset_metadata_message.
Qed.

Lemma sound_write_descriptor project_id destination callback :
  sound (Obs:=Obs) I (_write_descriptor project_id destination callback).
Proof using keeps_file keeps_mkdir.
  unfold _write_descriptor. repeat sound_step;
    eauto using keeps_project_dir, render_descriptor_message, open_w_message.
  intros fs e. destruct (Fs.exists_ _ _); [apply load_json_message|intros [=]].
Qed.

Lemma sound_build_mod self tmp now project_id callback :
  (forall fs, I fs -> I (Fs.rmtree fs tmp)) ->
  sound (Obs:=Obs) I (build_mod subprocess_run self tmp now project_id callback).
Proof using keeps_file keeps_mkdir keeps_subprocess.
  intros Htmp. unfold build_mod, build_steps, steps, _archive_build.
  apply sound_with_cleanup; [|exact Htmp].
  do 2 (apply sound_bind; [apply sound_act; intros fs; apply keeps_mkdir|intros _]).
  apply sound_bind.
  - apply sound_for_each. cbn [enumerate].
    repeat apply Forall_cons_2; try apply Forall_nil_2;
      (apply sound_bind; [apply sound_notify|intros _]).
    + apply sound_collect_project_files.
    + apply sound_convert_dds_assets.
    + apply sound_package_audio_tracks.
    + apply sound_write_descriptor.
  - intros _. repeat sound_step; unfold make_archive, Fs.write; cbn [snd]; eauto.
Qed.

End BuildKeeps.

(** ** The archive and its path *)

Lemma parent_snoc (p : Path) x : PurePath.parent (p // [x]) = p.
Proof. unfold PurePath.parent, PurePath.joinpath. apply removelast_last. Qed.

Lemma zip_name_not_root (s : string) : s +:+ ".zip" <> "/".
Proof.
  intros H. apply (f_equal String.length) in H.
  rewrite PyStrFacts.length_app in H. simpl in H. lia.
Qed.

Lemma abspath_snoc (cwd root : Path) x :
  x <> "/" -> Fs.abspath cwd (root // [x]) = Fs.abspath cwd root // [x].
Proof.
  intros Hx. unfold Fs.abspath, PurePath.is_absolute, PurePath.joinpath.
  destruct root as [|r root]; simpl.
  - apply String.eqb_neq in Hx. rewrite Hx. by rewrite app_nil_r.
  - destruct (String.eqb r "/"); [done|]. by rewrite <- app_assoc.
Qed.

Lemma archive_path_of_root self now project_id :
  archive_path_of self now project_id
  = Fs.abspath (cwd self) (build_root self)
    // [project_id +:+ "-" +:+ pretty now +:+ ".zip"].
Proof.
  unfold archive_path_of. apply abspath_snoc.
  rewrite <- !append_assoc. apply zip_name_not_root.
Qed.

(** [_archive_build] makes the build root, writes there the archive of
    the working directory and returns its absolute path. *)
Lemma run_archive_build {Obs : Type} self now project_id work_dir (w : world Obs) :
  _archive_build self now project_id work_dir w
  = let fs1 := Fs.mkdir_p (w_fs w) (build_root self) in
    (Ok (archive_path_of self now project_id),
     World (Fs.write fs1 (archive_path_of self now project_id)
                     (ZipArchive (Fs.members fs1 work_dir)))
           (w_obs w)).
Proof.
  unfold _archive_build. rewrite run_bind_act, run_bind_fs_op. cbn [w_fs w_obs].
  unfold make_archive, archive_path_of. cbn [fst snd].
  rewrite parent_snoc.
  replace (PurePath.name (build_root self // [project_id +:+ "-" +:+ pretty now]))
    with (project_id +:+ "-" +:+ pretty now) by (symmetry; apply name_snoc).
  by rewrite !append_assoc.
Qed.

Lemma build_mod_archive_path {Obs : Type} subprocess_run self tmp now project_id callback
    (w : world Obs) archive_path :
  (build_mod subprocess_run self tmp now project_id callback w).1 = Ok archive_path ->
  archive_path = archive_path_of self now project_id.
Proof.
  unfold build_mod, build_steps, with_cleanup.
  rewrite !run_bind_act.
  unfold bind at 1. destruct (for_each _ _ _) as [[[]|e] w1]; [|discriminate].
  unfold bind at 1. destruct (notify _ _ _ _ _) as [[[]|e] w2] eqn:E;
    [|destruct callback; discriminate E].
  unfold bind at 1. rewrite run_archive_build. cbv zeta.
  by destruct callback as [cb|]; cbn; intros [= <-].
Qed.

(** ** What a build tells its callback *)

Section Speaks.

Lemma speaks_ret {A : Type} (a : A) : speaks (ret a).
Proof. by intros w H. Qed.

Lemma speaks_raise {A : Type} e : speaks (raise (A:=A) e).
Proof. by intros w H. Qed.

Lemma speaks_of_result {A : Type} (r : result A) : speaks (of_result r).
Proof. by intros w H. Qed.

Lemma speaks_ask {A : Type} (f : FS -> A) : speaks (ask f).
Proof. by intros w H. Qed.

Lemma speaks_act (f : FS -> FS) : speaks (act f).
Proof. by intros w H. Qed.

Lemma speaks_fs_op {A : Type} (f : FS -> A * FS) : speaks (fs_op f).
Proof. intros w H. unfold fs_op. by destruct (f (w_fs w)). Qed.

Lemma speaks_fs_try {A : Type} (f : FS -> result A) : speaks (fs_try f).
Proof. by intros w H. Qed.

Lemma speaks_notify cb step ratio message :
  polite cb -> message <> EmptyString -> speaks (notify (Some cb) step ratio message).
Proof. intros Hcb Hm w H. by apply Hcb. Qed.

Lemma speaks_bind {A B : Type} (m : M (list event) A) (k : A -> M (list event) B) :
  speaks m -> (forall a, speaks (k a)) -> speaks (bind m k).
Proof.
  intros Hm Hk w H. unfold bind. specialize (Hm w H).
  destruct (m w) as [[a|e] w']; [by apply Hk|done].
Qed.

Lemma speaks_for_each {A : Type} (xs : list A) (body : A -> M (list event) unit) :
  Forall (fun x => speaks (body x)) xs -> speaks (for_each xs body).
Proof.
  induction 1 as [|x xs Hx _ IH]; simpl; [apply speaks_ret|].
  apply speaks_bind; [exact Hx|]. intros _. exact IH.
Qed.

Lemma speaks_with_cleanup {A : Type} (m : M (list event) A) release :
  speaks m -> speaks (with_cleanup m release).
Proof.
  intros Hm w H. unfold with_cleanup. specialize (Hm w H). by destruct (m w).
Qed.

Lemma polite_recorder : polite recorder.
Proof.
  intros step ratio message trace Hm H. unfold recorder, spoken.
  apply Forall_app. split; [exact H|]. by apply Forall_cons_2; [|apply Forall_nil_2].
Qed.

Lemma polite_step_callback cb span index :
  polite cb -> polite (step_callback (Some cb) span index).
Proof. intros Hcb step ratio message trace Hm H. by apply Hcb. Qed.

End Speaks.

Ltac speaks_step :=
  lazymatch goal with
  | |- speaks (bind _ _) => apply speaks_bind; [|intros ?]
  | |- speaks (ret _) => apply speaks_ret
  | |- speaks (raise _) => apply speaks_raise
  | |- speaks (of_result _) => apply speaks_of_result
  | |- speaks (ask _) => apply speaks_ask
  | |- speaks (act _) => apply speaks_act
  | |- speaks (fs_op _) => apply speaks_fs_op
  | |- speaks (fs_try _) => apply speaks_fs_try
  | |- speaks (notify _ _ _ _) =>
      apply speaks_notify; [assumption|first [discriminate|apply nonempty_literal]]
  | |- speaks (for_each _ _) => apply speaks_for_each, Forall_forall; intros [? ?] _
  | |- speaks (if ?b then _ else _) => destruct b
  | |- speaks (match ?x with _ => _ end) => destruct x
  end.

Section BuildSpeaks.
Variable subprocess_run : list string -> FS -> CompletedProcess.
Variable cb : ProgressCallback (list event).
Hypothesis cb_polite : polite cb.

Lemma speaks_collect_project_files project_id destination :
  speaks (_collect_project_files project_id destination (Some cb)).
Proof using cb_polite.
  unfold _collect_project_files, collect_files, collect_file. repeat speaks_step.
Qed.

Lemma speaks_convert_dds_assets self project_id destination :
  speaks (_convert_dds_assets subprocess_run self project_id destination (Some cb)).
Proof using cb_polite.
  unfold _convert_dds_assets, convert_files, convert_file, _convert_to_dds.
  repeat speaks_step.
Qed.

Lemma speaks_package_audio_tracks project_id destination :
  speaks (_package_audio_tracks project_id destination (Some cb)).
Proof using cb_polite.
  unfold _package_audio_tracks, package_files, package_file. repeat speaks_step.
Qed.

Lemma speaks_write_descriptor project_id destination :
  speaks (_write_descriptor project_id destination (Some cb)).
Proof using cb_polite. unfold _write_descriptor. repeat speaks_step. Qed.

End BuildSpeaks.

Lemma speaks_build_mod subprocess_run self tmp now project_id :
  speaks (build_mod subprocess_run self tmp now project_id (Some recorder)).
Proof.
  pose proof polite_recorder as Hrec.
  unfold build_mod, build_steps, steps, _archive_build.
  apply speaks_with_cleanup. do 2 (apply speaks_bind; [apply speaks_act|intros _]).
  apply speaks_bind.
  - apply speaks_for_each. cbn [enumerate].
    repeat apply Forall_cons_2; try apply Forall_nil_2;
      (apply speaks_bind;
       [apply speaks_notify; [exact Hrec|apply nonempty_literal]|intros _]).
    + apply speaks_collect_project_files. by apply polite_step_callback.
    + apply speaks_convert_dds_assets. by apply polite_step_callback.
    + apply speaks_package_audio_tracks. by apply polite_step_callback.
    + apply speaks_write_descriptor. by apply polite_step_callback.
  - intros _. repeat speaks_step.
Qed.

(** Every message of a build says something. *)
Lemma recorded_build_spoken subprocess_run self tmp now project_id fs :
  spoken (w_obs (recorded_build subprocess_run self tmp now project_id fs).2).
Proof. apply (speaks_build_mod _ _ _ _ _ (World fs [])). constructor. Qed.

(** ** The registry over time *)

Lemma apply_assign_heap job rt a :
  heap (apply_assign job rt a)
  = alter (assign_record (time_time (clock rt)).1 a) job (heap rt).
Proof. by destruct a. Qed.

Lemma apply_assign_jobs job rt a : jobs (apply_assign job rt a) = jobs rt.
Proof. by destruct a. Qed.

Lemma apply_assign_other job rt a l :
  l <> job -> heap (apply_assign job rt a) !! l = heap rt !! l.
Proof. intros H. rewrite apply_assign_heap. by apply lookup_alter_ne. Qed.

(** A write is its assignments, made one after the other. *)
Lemma apply_write_assignments job rt wr :
  foldl (apply_assign job) rt (assignments wr) = apply_write job rt wr.
Proof.
  destruct wr; cbn [assignments foldl apply_assign apply_write]; try reflexivity;
    unfold update, complete, fail, modify_job; cbn [clock jobs heap];
    destruct (time_time (clock rt)) as [now c]; f_equal;
    by rewrite !alter_alter_eq.
Qed.

Lemma foldl_assignments job rt (writes : list write) :
  foldl (apply_assign job) rt (List.flat_map assignments writes)
  = foldl (apply_write job) rt writes.
Proof.
  revert rt. induction writes as [|wr writes IH]; intros rt; [reflexivity|].
  cbn [List.flat_map foldl]. by rewrite foldl_app, apply_write_assignments, IH.
Qed.

Lemma assign_record_same now a j :
  BuildJob.id (assign_record now a j) = BuildJob.id j /\
  BuildJob.project_id (assign_record now a j) = BuildJob.project_id j /\
  BuildJob.created_at (assign_record now a j) = BuildJob.created_at j.
Proof. by destruct a. Qed.

Lemma start_build_fresh job_id project_id rt :
  let '(l, rt') := start_build job_id project_id rt in
  heap rt !! l = None /\
  jobs rt' = <[job_id := l]> (jobs rt) /\
  exists j, heap rt' = <[l := j]> (heap rt) /\
            BuildJob.status j = "queued" /\ BuildJob.artifact_path j = None /\
            BuildJob.progress j = 0%Q /\ BuildJob.project_id j = project_id /\
            BuildJob.id j = job_id /\ BuildJob.message j = "Queued".
Proof.
  unfold start_build. destruct (time_time (clock rt)) as [t1 c1].
  destruct (time_time c1) as [t2 c2]. split.
  - apply (not_elem_of_dom (D:=gset loc)). apply is_fresh.
  - split; [reflexivity|]. eexists. split; [reflexivity|]. done.
Qed.

Lemma terminal_status j :
  BuildJob.terminal j = false ->
  BuildJob.status j <> "completed" /\ BuildJob.status j <> "failed".
Proof.
  unfold BuildJob.terminal. intros H. apply orb_false_iff in H as [H1 H2].
  by apply String.eqb_neq in H1, H2.
Qed.


(** Files once there stay for the predicates. *)
Lemma last_write_ok_fs (self : BuildService) (fs fs' : FS) project_id fin :
  (forall p, Fs.is_file fs p = true -> Fs.is_file fs' p = true) ->
  last_write_ok self fs project_id fin -> last_write_ok self fs' project_id fin.
Proof. intros Hfs. destruct fin; simpl; try done. intros [? ?]. auto. Qed.

Lemma pending_ok_fs (self : BuildService) (fs fs' : FS) j pending :
  (forall p, Fs.is_file fs p = true -> Fs.is_file fs' p = true) ->
  pending_ok self fs j pending -> pending_ok self fs' j pending.
Proof.
  intros Hfs (fin & Hfin & H). exists fin. split; [|exact H].
  by eapply last_write_ok_fs.
Qed.

Lemma record_ok_fs (self : BuildService) (fs fs' : FS) j :
  (forall p, Fs.is_file fs p = true -> Fs.is_file fs' p = true) ->
  record_ok self fs j -> record_ok self fs' j.
Proof.
  intros Hfs (Hp & Hm & Hs & Ha). split; [done|]. split; [done|]. split; [done|].
  destruct (BuildJob.artifact_path j); [|done]. destruct Ha as (? & ? & ?). auto.
Qed.

Lemma progress_through_cons p a pre :
  progress_through p (a :: pre)
  = progress_through (BuildJob.progress
                        (assign_record 0 a (BuildJob.mk "" "" "" p "" None 0 0))) pre.
Proof. by destruct a. Qed.

Lemma progress_assign now a j :
  BuildJob.progress (assign_record now a j)
  = match a with SetProgress r => r | _ => BuildJob.progress j end.
Proof. by destruct a. Qed.

Ltac record_fields :=
  cbn [assign_record assignments drop Nat.leb
       BuildJob.set_status BuildJob.set_progress BuildJob.set_message
       BuildJob.set_artifact_path BuildJob.set_updated_at
       BuildJob.status BuildJob.progress BuildJob.message BuildJob.artifact_path
       BuildJob.project_id] in *.

Ltac record_done :=
  repeat split;
  first [ done | lia | lra
        | by (right; right; left; split; first [done|lra])
        | by (right; right; right; split; first [done|lra])
        | by (right; left)
        | idtac ].

(** The first assignment of the last write of a thread. *)
Lemma first_of_last (self : BuildService) (fs : FS) now fin a pending j :
  record_ok self fs j -> before_last fin j [] ->
  a :: pending = assignments fin ->
  record_ok self fs (assign_record now a j) /\ in_last fin 1 (assign_record now a j) /\
  pending = drop 1 (assignments fin).
Proof.
  intros (Hp & Hm & Hs & Ha) (Hst & Hart & Hpre) Heq. rewrite Hart in Ha.
  destruct fin as [| |step ratio message|archive_path|msg]; try done;
    injection Heq as -> ->; unfold record_ok, in_last; record_fields;
    rewrite Hart; destruct Hpre as [_ Hpre]; cbn [progress_through foldl] in Hpre.
  - record_done.
  - record_done.
Qed.

(** An assignment before the last write. *)
Lemma before_last_step (self : BuildService) (fs : FS) now fin a pre j :
  record_ok self fs j -> before_last fin j (a :: pre) ->
  record_ok self fs (assign_record now a j) /\ before_last fin (assign_record now a j) pre.
Proof.
  intros (Hp & Hm & Hs & Ha) (Hst & Hart & Hpre). rewrite Hart in Ha.
  assert (exists hi, (hi <= 1)%Q /\ plain hi a /\
            match fin with
            | Complete _ =>
                Forall (plain 1) pre /\
                (progress_through (BuildJob.progress (assign_record now a j)) pre == 1)%Q
            | Fail _ =>
                Forall (plain (4 # 5)) pre /\
                (BuildJob.progress (assign_record now a j) <= 4 # 5)%Q
            | _ => False
            end) as (hi & Hhi & Ha' & Hpre').
  { destruct fin; try done.
    - destruct Hpre as [Hall Hone]. apply Forall_cons in Hall as [Ha' Hall].
      exists 1%Q. split; [lra|]. split; [done|]. split; [done|].
      rewrite progress_assign. by destruct a.
    - destruct Hpre as [Hall Hle]. apply Forall_cons in Hall as [Ha' Hall].
      exists (4 # 5)%Q. split; [lra|]. split; [done|]. split; [done|].
      rewrite progress_assign. destruct a; simpl in *; try done. lra. }
  assert (BuildJob.artifact_path (assign_record now a j) = None) as Hart'
    by (by destruct a).
  assert (BuildJob.status (assign_record now a j) = "running") as Hst'.
  { destruct Hst as [[Hq [pre' [= -> ->]]]|Hr]; [done|].
    destruct a; record_fields; cbn [plain] in *; by subst. }
  split.
  - unfold record_ok. rewrite Hart'. split; [|split; [|split; [|done]]].
    + rewrite progress_assign. destruct a; cbn [plain] in *; try done. lra.
    + destruct a; cbn [plain] in *; done.
    + by right; left.
  - split; [by right|by split].
Qed.

(** An assignment inside the last write. *)
Lemma in_last_step (self : BuildService) (fs : FS) now fin k a pending j :
  record_ok self fs j -> last_write_ok self fs (BuildJob.project_id j) fin ->
  in_last fin k j -> (0 < k)%nat -> a :: pending = drop k (assignments fin) ->
  record_ok self fs (assign_record now a j) /\
  in_last fin (S k) (assign_record now a j) /\
  pending = drop (S k) (assignments fin).
Proof.
  intros (Hp & Hm & Hs & Ha) Hfin Hin Hk Heq.
  destruct fin as [| |step ratio message|archive_path|msg]; try done.
  - destruct Hfin as [Hfile Hnow]. destruct Hin as (Hst & Hmsg & Hart).
    assert ((BuildJob.progress j == 1)%Q) as Hone.
    { destruct Hs as [[H _]|[H|[[_ H]|[H _]]]]; [congruence..|done|congruence]. }
    destruct k as [|[|[|[|[|k]]]]]; [lia| | | | |by destruct k];
      injection Heq as -> ->; unfold record_ok, in_last; record_fields;
      rewrite ?Hart; (split; [|split; [|reflexivity]]).
    + record_done.
    + record_done.
    + record_done.
    + record_done.
    + record_done.
    + record_done. intros _. apply Hmsg. lia.
    + record_done.
    + record_done. intros _. apply Hmsg. lia.
  - simpl in Hfin. destruct Hin as (Hst & Hmsg & Hart).
    assert ((BuildJob.progress j <= 4 # 5)%Q) as Hle.
    { destruct Hs as [[H _]|[H|[[H _]|[_ H]]]]; [congruence..|done]. }
    destruct k as [|[|[|k]]]; [lia| | |by destruct k];
      injection Heq as -> ->; unfold record_ok, in_last; record_fields;
      rewrite ?Hart; (split; [|split; [|reflexivity]]).
    + record_done.
    + record_done.
    + record_done.
    + record_done. intros _. apply Hmsg. lia.
Qed.

(** One assignment of a thread: the record stays a record, and the
    thread is where the rest of its assignments say. *)
Lemma assign_ok (self : BuildService) (fs : FS) now a pending j :
  record_ok self fs j -> pending_ok self fs j (a :: pending) ->
  record_ok self fs (assign_record now a j) /\
  pending_ok self fs (assign_record now a j) pending.
Proof.
  intros Hrec (fin & Hfin & [(pre & Heq & Hbefore)|(k & Hk & Heq & Hin)]).
  - destruct pre as [|a' pre].
    + destruct (first_of_last self fs now fin a pending j Hrec Hbefore Heq)
        as (Hrec' & Hin' & Hrest).
      split; [exact Hrec'|]. exists fin.
      rewrite (proj1 (proj2 (assign_record_same now a j))). split; [exact Hfin|].
      right. exists 1%nat. split; [lia|]. by split.
    + simpl in Heq. injection Heq as <- ->.
      destruct (before_last_step self fs now fin a pre j Hrec Hbefore) as [Hrec' Hb'].
      split; [exact Hrec'|]. exists fin.
      rewrite (proj1 (proj2 (assign_record_same now a j))). split; [exact Hfin|].
      left. by exists pre.
  - destruct (in_last_step self fs now fin k a pending j Hrec Hfin Hin Hk Heq)
      as (Hrec' & Hin' & Hrest).
    split; [exact Hrec'|]. exists fin.
    rewrite (proj1 (proj2 (assign_record_same now a j))). split; [exact Hfin|].
    right. exists (S k). split; [lia|]. by split.
Qed.

(** A thread that is through has made its last write. *)
Lemma pending_ok_through (self : BuildService) (fs : FS) j :
  pending_ok self fs j [] ->
  BuildJob.status j = "completed" /\ BuildJob.message j = "Build completed" /\
    (exists archive_path,
       BuildJob.artifact_path j = Some archive_path /\
       Fs.is_file fs archive_path = true /\
       exists now, archive_path = archive_path_of self now (BuildJob.project_id j)) \/
  BuildJob.status j = "failed" /\ BuildJob.message j <> EmptyString /\
    BuildJob.artifact_path j = None.
Proof.
  intros (fin & Hfin & [(pre & Heq & _)|(k & Hk & Heq & Hin)]).
  - destruct fin; try done; by destruct pre.
  - destruct fin as [| |step ratio message|archive_path|msg]; try done; simpl in *.
    + destruct k as [|[|[|[|[|k]]]]]; try done; try lia.
      destruct Hin as (Hst & Hmsg & Hart). left. split; [done|]. split; [apply Hmsg; lia|].
      exists archive_path. by destruct Hfin.
    + destruct k as [|[|[|k]]]; try done; try lia.
      destruct Hin as (Hst & Hmsg & Hart). right. split; [done|]. split; [|done].
      rewrite Hmsg by lia. done.
Qed.


Lemma span_of_four : (inject_Z (Z.of_nat 4) * span_of 4 == 4 # 5)%Q.
Proof. reflexivity. Qed.

Lemma plain_weaken lo hi a : (lo <= hi)%Q -> plain lo a -> plain hi a.
Proof. intros Hle. destruct a; simpl; try done. lra. Qed.

(** The assignments of the reports of a build. *)
Lemma plain_updates hi (trace : list event) :
  Forall (fun e : event => (0 <= ratio_of e <= hi)%Q /\ e.2 <> EmptyString) trace ->
  Forall (plain hi)
    (List.flat_map assignments
       (List.map (fun '(step, ratio, message) => Update step ratio message) trace)).
Proof.
  induction 1 as [|[[step ratio] message] trace [Hr Hm] _ IH]; [constructor|].
  cbn [List.map List.flat_map assignments app].
  repeat (apply Forall_cons_2; [done|]). exact IH.
Qed.

Lemma progress_through_app p pre post :
  progress_through p (pre ++ post) = progress_through (progress_through p pre) post.
Proof. apply foldl_app. Qed.

Section Registry.
Variable subprocess_run : list string -> FS -> CompletedProcess.
Variable self : BuildService.
Hypothesis subprocess_keeps : keeps_files subprocess_run.

Lemma recorded_build_keeps (tmp : Path) (now : Z) (project_id : string) (fs : FS) (p : Path) :
  fresh_dir self fs tmp -> Fs.is_file fs p = true ->
  Fs.is_file (w_fs (recorded_build subprocess_run self tmp now project_id fs).2) p = true.
Proof using subprocess_keeps.
  intros [Hfresh _] Hp. unfold recorded_build.
  apply (sound_build_mod subprocess_run (file_kept p)
           (fun fs q d => FsKeeps.is_file_insert_file fs q p d)
           (fun fs q => FsKeeps.is_file_mkdir_p_keeps fs q p)
           (fun c fs => subprocess_keeps c fs p)
           self tmp now project_id (Some recorder)); [|exact Hp].
  intros fs0. apply FsKeeps.is_file_rmtree.
  apply Hfresh. unfold Fs.is_file in Hp.
  destruct (fs !! p) as [n|]; [by eexists|discriminate Hp].
Qed.

Lemma recorded_build_message tmp now project_id fs e :
  (recorded_build subprocess_run self tmp now project_id fs).1 = Raise e ->
  exn_str e <> EmptyString.
Proof.
  intros H. unfold recorded_build in H.
  by eapply (sound_build_mod subprocess_run (fun _ => True)
               (fun _ _ _ _ => Logic.I) (fun _ _ _ => Logic.I) (fun _ _ _ => Logic.I)
               self tmp now project_id (Some recorder) (fun _ _ => Logic.I)
               (World fs [])).
Qed.

Lemma fresh_dir_archive (tmp : Path) (now : Z) (project_id : string) (fs : FS) :
  fresh_dir self fs tmp -> ~ tmp `prefix_of` archive_path_of self now project_id.
Proof.
  intros (_ & Hout1 & Hout2). rewrite archive_path_of_root.
  intros [k Hk]. destruct k as [|x k _] using rev_ind.
  - rewrite app_nil_r in Hk. apply Hout2. eexists. symmetry. exact Hk.
  - unfold PurePath.joinpath in Hk. rewrite app_assoc in Hk.
    apply app_inj_tail in Hk as [Hk _]. apply Hout1. by exists k.
Qed.

Lemma recorded_build_archive tmp now project_id fs archive_path :
  fresh_dir self fs tmp ->
  (recorded_build subprocess_run self tmp now project_id fs).1 = Ok archive_path ->
  Fs.is_file (w_fs (recorded_build subprocess_run self tmp now project_id fs).2)
             archive_path = true.
Proof.
  intros Hdir. pose proof (fresh_dir_archive tmp now project_id fs Hdir) as Hout.
  unfold recorded_build, build_mod.
  rewrite (build_steps_trace _ _ _ _ _ _ (steps_parametric subprocess_run self)).
  unfold spec_build_trace.
  destruct (spec_stage_slices _ _ _ _ _) as [[[[]|e] fs1] slices]; [|done].
  rewrite run_archive_build. cbn. intros [= <-].
  apply FsKeeps.is_file_rmtree; [exact Hout|].
  unfold Fs.is_file, Fs.write. by rewrite lookup_insert_eq.
Qed.

(** The reports of a build: ratios of [[0, 1]] and messages that say
    something; a build that returns reports one last, a build that raises
    stays within the slices of the stages. *)
Lemma recorded_build_reports tmp now project_id fs :
  let build := recorded_build subprocess_run self tmp now project_id fs in
  match build.1 with
  | Ok _ =>
      exists body,
        w_obs build.2 = body ++ [("archive", 1%Q, "Build complete")] /\
        Forall (fun e : event => (0 <= ratio_of e <= 1)%Q /\ e.2 <> EmptyString) body
  | Raise _ =>
      Forall (fun e : event => (0 <= ratio_of e <= 4 # 5)%Q /\ e.2 <> EmptyString)
             (w_obs build.2)
  end.
Proof.
  cbn zeta. pose proof (recorded_build_spoken subprocess_run self tmp now project_id fs) as Hsp.
  revert Hsp. unfold recorded_build, build_mod.
  rewrite (build_steps_trace _ _ _ _ _ _ (steps_parametric subprocess_run self)).
  pose proof (build_trace_progress (steps subprocess_run self) self tmp now project_id fs
                (steps_well_reported subprocess_run self)) as Hb.
  destruct (spec_build_trace (steps subprocess_run self) self tmp now project_id fs)
    as [[r fs1] trace].
  destruct Hb as (body & -> & Hw & _). cbn [fst snd w_obs]. intros Hsp.
  change (length (steps subprocess_run self)) with 4%nat in Hw.
  assert (Forall (fun e : event => (0 <= ratio_of e <= 4 # 5)%Q /\ e.2 <> EmptyString) body)
    as Hbody.
  { apply Forall_forall. intros e He. split.
    - rewrite <- span_of_four. apply (within_elem _ _ _ _ Hw).
      apply list_elem_of_fmap. by exists e.
    - apply (proj1 (Forall_forall _ _) Hsp). apply elem_of_app. by left. }
  destruct r as [archive_path|e].
  - exists body. split; [done|]. eapply Forall_impl; [exact Hbody|].
    intros e [[? ?] ?]. split; [|done]. split; [done|]. lra.
  - by rewrite app_nil_r.
Qed.

(** The assignments of a job, for the record of a job not yet begun. *)
Lemma job_assignments_ok (tmp : Path) (now : Z) (fs : FS) j :
  fresh_dir self fs tmp ->
  BuildJob.status j = "queued" -> (BuildJob.progress j == 0)%Q ->
  BuildJob.artifact_path j = None ->
  pending_ok self (w_fs (recorded_build subprocess_run self tmp now
                           (BuildJob.project_id j) fs).2) j
    (List.flat_map assignments
       (job_writes subprocess_run self tmp now (BuildJob.project_id j) fs)).
Proof.
  intros Hdir Hq Hzero Hart. unfold job_writes.
  pose proof (fun p => recorded_build_archive tmp now (BuildJob.project_id j) fs p Hdir)
    as Harch.
  pose proof (recorded_build_message tmp now (BuildJob.project_id j) fs) as Hmsg.
  pose proof (recorded_build_reports tmp now (BuildJob.project_id j) fs) as Hrep.
  pose proof (build_mod_archive_path subprocess_run self tmp now (BuildJob.project_id j)
                (Some recorder) (World fs [])) as Hpath.
  fold (recorded_build subprocess_run self tmp now (BuildJob.project_id j) fs) in Hpath.
  cbn zeta in Hrep.
  destruct (recorded_build subprocess_run self tmp now (BuildJob.project_id j) fs)
    as [r [fs1 trace]]. cbn [fst snd w_fs w_obs] in *.
  unfold writes_of. cbn [List.flat_map assignments app].
  rewrite List.flat_map_app. cbn [List.flat_map]. rewrite app_nil_r.
  destruct r as [archive_path|e].
  - exists (Complete archive_path). split.
    { split; [by apply Harch|]. exists now. by apply Hpath. }
    left. destruct Hrep as (body & -> & Hbody).
    eexists (SetStatus "running" :: SetMessage "Starting build" :: _).
    split; [reflexivity|]. split; [left; split; [done|by eexists]|]. split; [done|].
    split.
    + apply Forall_cons_2; [done|]. apply Forall_cons_2; [done|].
      apply plain_updates. apply Forall_app. split; [exact Hbody|].
      apply Forall_cons_2; [|apply Forall_nil_2]. split; [|done].
      unfold ratio_of. simpl. lra.
    + rewrite List.map_app, List.flat_map_app.
      change (progress_through ?p (?a :: ?b :: ?l)) with (progress_through p l).
      rewrite progress_through_app. reflexivity.
  - exists (Fail (exn_str e)). split; [by apply Hmsg|].
    left. eexists (SetStatus "running" :: SetMessage "Starting build" :: _).
    split; [reflexivity|]. split; [left; split; [done|by eexists]|]. split; [done|].
    split; [|lra].
    apply Forall_cons_2; [done|]. apply Forall_cons_2; [done|].
    by apply plain_updates.
Qed.

End Registry.

Section Steps.
Variable subprocess_run : list string -> FS -> CompletedProcess.
Variable self : BuildService.
Hypothesis subprocess_keeps : keeps_files subprocess_run.

Lemma invariant_initial c : initial c -> invariant self c.
Proof.
  intros (Hj & Hh & Ht). unfold invariant. rewrite Ht, Hh, Hj.
  split; [constructor|]. split; [constructor|].
  split; intros ? ? H; by rewrite lookup_empty in H.
Qed.

Lemma thread_ok_fs (fs fs' : FS) rt th :
  (forall p, Fs.is_file fs p = true -> Fs.is_file fs' p = true) ->
  thread_ok self fs rt th -> thread_ok self fs' rt th.
Proof.
  intros Hfs. destruct th as [job_id|job pending|]; simpl; [done| |done].
  intros (j & Hj & Hp). exists j. split; [done|]. by eapply pending_ok_fs.
Qed.

Lemma thread_loc_jobs rt rt' th : jobs rt' = jobs rt -> thread_loc rt' th = thread_loc rt th.
Proof. intros H. destruct th; simpl; by rewrite ?H. Qed.

Lemma omap_thread_loc_ext rt rt' (ths : list thread) :
  Forall (fun th => thread_loc rt' th = thread_loc rt th) ths ->
  omap (thread_loc rt') ths = omap (thread_loc rt) ths.
Proof. intros H. apply list_omap_ext. by apply Forall_Forall2_diag. Qed.

Lemma thread_loc_in_heap (fs : FS) rt th l :
  thread_ok self fs rt th -> thread_loc rt th = Some l -> is_Some (heap rt !! l).
Proof.
  destruct th as [job_id|job pending|]; simpl; [| |done].
  - intros (job & j & Hj & Hh & _) Hl. rewrite Hj in Hl. injection Hl as <-. by eexists.
  - intros (j & Hh & _) [= <-]. by eexists.
Qed.

Lemma invariant_start_build c job_id project_id :
  invariant self c ->
  jobs (c_rt c) !! job_id = None ->
  invariant self {| c_fs := c_fs c;
                    c_rt := (start_build job_id project_id (c_rt c)).2;
                    c_threads := c_threads c ++ [Spawned job_id] |}.
Proof.
  intros (Hth & Hnd & Hrec & Hids) Hfresh.
  pose proof (start_build_fresh job_id project_id (c_rt c)) as H.
  destruct (start_build job_id project_id (c_rt c)) as [l rt'].
  destruct H as (Hl & Hjobs' & j0 & Hheap' & Hst & Hart & Hprog & Hpid & Hid & Hmsg).
  cbn [snd].
  assert (forall th, thread_ok self (c_fs c) (c_rt c) th ->
            thread_ok self (c_fs c) rt' th /\ thread_loc rt' th = thread_loc (c_rt c) th)
    as HA.
  { intros [id|job pending|]; simpl; [| |done].
    - intros (job & j & Hj & Hh & Hrest).
      assert (id <> job_id) by (intros ->; congruence).
      assert (job <> l) by (intros ->; congruence).
      rewrite Hjobs', Hheap', lookup_insert_ne by done. split; [|done].
      exists job, j. by rewrite lookup_insert_ne.
    - intros (j & Hh & Hp). assert (job <> l) by (intros ->; congruence).
      split; [|done]. exists j. by rewrite Hheap', lookup_insert_ne. }
  split; [|split; [|split]]; cbn [c_fs c_rt c_threads].
  - apply Forall_app. split.
    + eapply Forall_impl; [exact Hth|]. intros th Hok. by apply HA.
    + apply Forall_cons_2; [|apply Forall_nil_2]. simpl. exists l, j0.
      by rewrite Hjobs', Hheap', !lookup_insert_eq.
  - rewrite omap_app. simpl. rewrite Hjobs', lookup_insert_eq. simpl.
    rewrite (omap_thread_loc_ext (c_rt c) rt').
    2:{ eapply Forall_impl; [exact Hth|]. intros th Hok. by apply HA. }
    apply NoDup_app. split; [exact Hnd|]. split; [|apply NoDup_singleton].
    intros x Hx Hxl. apply list_elem_of_singleton in Hxl as ->.
    apply list_elem_of_omap in Hx as (th & Hin & Hloc).
    destruct (thread_loc_in_heap (c_fs c) (c_rt c) th l) as [j Hj]; [|done|congruence].
    by eapply (proj1 (Forall_forall _ _) Hth).
  - intros job j. rewrite Hheap'. destruct (decide (job = l)) as [->|Hne].
    + rewrite lookup_insert_eq. intros [= <-]. unfold record_ok.
      rewrite Hprog, Hmsg, Hst, Hart. repeat split; try done. by left.
    + rewrite lookup_insert_ne by done. apply Hrec.
  - intros id job. rewrite Hjobs', Hheap'. destruct (decide (id = job_id)) as [->|Hne].
    + rewrite lookup_insert_eq. intros [= <-]. exists j0. by rewrite lookup_insert_eq.
    + rewrite lookup_insert_ne by done. intros Hjob.
      destruct (Hids id job Hjob) as (j & Hj & Hidj). exists j. split; [|done].
      rewrite lookup_insert_ne; [done|]. intros ->. congruence.
Qed.

Lemma invariant_thread_build c before after job_id job j tmp now :
  invariant self c ->
  c_threads c = before ++ Spawned job_id :: after ->
  get_job (c_rt c) job_id = Some job ->
  deref (c_rt c) job = Some j ->
  fresh_dir self (c_fs c) tmp ->
  invariant self
    {| c_fs := w_fs (recorded_build subprocess_run self tmp now
                       (BuildJob.project_id j) (c_fs c)).2;
       c_rt := c_rt c;
       c_threads := before ++
         Running job (List.flat_map assignments
                        (job_writes subprocess_run self tmp now
                           (BuildJob.project_id j) (c_fs c))) :: after |}.
Proof using subprocess_keeps.
  intros (Hth & Hnd & Hrec & Hids) Hthreads Hget Hderef Hdir.
  rewrite Hthreads in Hth, Hnd.
  apply Forall_app in Hth as [Hbefore Hrest]. apply Forall_cons in Hrest as [Hme Hafter].
  assert (forall p, Fs.is_file (c_fs c) p = true ->
            Fs.is_file (w_fs (recorded_build subprocess_run self tmp now
                                (BuildJob.project_id j) (c_fs c)).2) p = true) as Hkeep
    by (intros p; by apply recorded_build_keeps).
  simpl in Hme. destruct Hme as (job0 & j0 & Hj0 & Hh0 & Hq0 & Ha0).
  unfold get_job in Hget. unfold deref in Hderef.
  assert (job0 = job) as -> by congruence. assert (j0 = j) as -> by congruence.
  split; [|split; [|split]]; cbn [c_fs c_rt c_threads].
  - apply Forall_app. split; [|apply Forall_cons_2].
    + eapply Forall_impl; [exact Hbefore|]. intros th. by apply thread_ok_fs.
    + simpl. exists j. split; [done|].
      apply job_assignments_ok; try done.
      destruct (Hrec job j Hh0) as (_ & _ & [[_ H]|[H|[[H _]|[H _]]]] & _);
        [done|congruence..].
    + eapply Forall_impl; [exact Hafter|]. intros th. by apply thread_ok_fs.
  - rewrite omap_app in *. simpl in *. by rewrite Hj0 in Hnd.
  - intros l j' Hl. eapply record_ok_fs; [exact Hkeep|]. by eapply Hrec.
  - exact Hids.
Qed.

Lemma invariant_thread_assign c before after job a pending :
  invariant self c ->
  c_threads c = before ++ Running job (a :: pending) :: after ->
  invariant self {| c_fs := c_fs c;
                    c_rt := apply_assign job (c_rt c) a;
                    c_threads := before ++ Running job pending :: after |}.
Proof.
  intros (Hth & Hnd & Hrec & Hids) Hthreads. rewrite Hthreads in Hth, Hnd.
  apply Forall_app in Hth as [Hbefore Hrest]. apply Forall_cons in Hrest as [Hme Hafter].
  simpl in Hme. destruct Hme as (j & Hj & Hpending).
  rewrite omap_app in Hnd. cbn [omap thread_loc list_omap] in Hnd.
  apply NoDup_app in Hnd as (Hnd1 & Hdisj & Hnd2).
  apply NoDup_cons in Hnd2 as [Hnotin Hnd2].
  set (now := (time_time (clock (c_rt c))).1).
  destruct (assign_ok self (c_fs c) now a pending j (Hrec job j Hj) Hpending)
    as [Hrec' Hp'].
  assert (forall ths, Forall (thread_ok self (c_fs c) (c_rt c)) ths ->
            job ∉ omap (thread_loc (c_rt c)) ths ->
            Forall (thread_ok self (c_fs c) (apply_assign job (c_rt c) a)) ths) as HB.
  { intros ths Hths Hjob. apply Forall_forall. intros th Hin.
    pose proof (proj1 (Forall_forall _ _) Hths th Hin) as Hok.
    assert (forall l, thread_loc (c_rt c) th = Some l -> l <> job) as Hne.
    { intros l Hl ->. apply Hjob. apply list_elem_of_omap. by exists th. }
    destruct th as [id|l p|]; simpl in *; [| |done].
    - destruct Hok as (l & j' & Hl & Hh & Hrest).
      exists l, j'. rewrite apply_assign_jobs, apply_assign_other by auto. done.
    - destruct Hok as (j' & Hh & Hrest). exists j'.
      rewrite apply_assign_other by auto. done. }
  split; [|split; [|split]]; cbn [c_fs c_rt c_threads].
  - apply Forall_app. split; [|apply Forall_cons_2].
    + apply HB; [done|]. intros Hin. by apply (Hdisj job Hin), list_elem_of_here.
    + simpl. exists (assign_record now a j). split; [|done].
      rewrite apply_assign_heap. fold now. by rewrite lookup_alter_eq, Hj.
    + by apply HB.
  - rewrite (omap_thread_loc_ext (c_rt c)).
    2:{ apply Forall_forall. intros th _. apply thread_loc_jobs, apply_assign_jobs. }
    rewrite omap_app. cbn [omap thread_loc list_omap].
    apply NoDup_app. split; [done|]. split; [done|]. by apply NoDup_cons.
  - intros l j'. rewrite apply_assign_heap. fold now.
    destruct (decide (l = job)) as [->|Hne].
    + rewrite lookup_alter_eq, Hj. by intros [= <-].
    + rewrite lookup_alter_ne by done. apply Hrec.
  - intros id l. rewrite apply_assign_jobs, apply_assign_heap. fold now. intros Hl.
    destruct (Hids id l Hl) as (j' & Hj' & Hid).
    destruct (decide (l = job)) as [->|Hne].
    + rewrite lookup_alter_eq, Hj'. eexists. split; [reflexivity|].
      by rewrite (proj1 (assign_record_same now a j')).
    + rewrite lookup_alter_ne by done. by exists j'.
Qed.

Lemma invariant_step c c' :
  invariant self c -> step subprocess_run self c c' -> invariant self c'.
Proof using subprocess_keeps.
  intros Hinv Hstep.
  destruct Hstep as [c job_id project_id Hfresh
                    |c before after job_id Hthreads Hget
                    |c before after job_id job j tmp now Hthreads Hget Hderef Hdir
                    |c before after job a pending Hthreads].
  - by apply invariant_start_build.
  - destruct Hinv as (Hth & _). rewrite Hthreads in Hth.
    apply Forall_app in Hth as [_ Hrest]. apply Forall_cons in Hrest as [Hme _].
    simpl in Hme. destruct Hme as (job & j & Hj & _). unfold get_job in Hget. congruence.
  - by eapply invariant_thread_build.
  - by eapply invariant_thread_assign.
Qed.

Lemma invariant_steps c c' :
  invariant self c -> rtc (step subprocess_run self) c c' -> invariant self c'.
Proof using subprocess_keeps.
  intros Hinv Hsteps. induction Hsteps as [|c c1 c' Hstep _ IH]; [done|].
  apply IH. by eapply invariant_step.
Qed.

Lemma reachable_invariant c : reachable subprocess_run self c -> invariant self c.
Proof using subprocess_keeps.
  intros (c0 & Hinit & Hsteps). eapply invariant_steps; [|exact Hsteps].
  by apply invariant_initial.
Qed.



(** A step leaves every job under its id, and its record with its id,
    its project and its time of creation. *)
Lemma step_keeps_identity c c' job_id job j :
  step subprocess_run self c c' ->
  get_job (c_rt c) job_id = Some job -> deref (c_rt c) job = Some j ->
  get_job (c_rt c') job_id = Some job /\
  exists j', deref (c_rt c') job = Some j' /\
    BuildJob.id j' = BuildJob.id j /\
    BuildJob.project_id j' = BuildJob.project_id j /\
    BuildJob.created_at j' = BuildJob.created_at j.
Proof.
  intros Hstep Hget Hj. unfold get_job, deref in *.
  destruct Hstep as [c id project_id Hfresh
                    |c before after id Hthreads Hgone
                    |c before after id job' j' tmp now Hthreads Hget' Hderef Hdir
                    |c before after job' a pending Hthreads]; cbn [c_rt];
    try (split; [done|by exists j]).
  - pose proof (start_build_fresh id project_id (c_rt c)) as H.
    destruct (start_build id project_id (c_rt c)) as [l rt']. cbn [snd].
    destruct H as (Hl & -> & j0 & -> & _).
    assert (job_id <> id) by (intros ->; congruence).
    assert (job <> l) by (intros ->; congruence).
    rewrite !lookup_insert_ne by done. split; [done|by exists j].
  - rewrite apply_assign_jobs, apply_assign_heap. split; [done|].
    destruct (decide (job = job')) as [<-|Hne].
    + rewrite lookup_alter_eq, Hj. eexists. split; [reflexivity|].
      apply assign_record_same.
    + rewrite lookup_alter_ne by done. by exists j.
Qed.

End Steps.

(** ** Terminal states *)


(** A thread can always go on: the process can go from the call of
    [start_build] to any of the assignments of the job, and so to the
    last, where [_run_job] ends. *)
Lemma thread_advances subprocess_run self fs rt before after job made rest :
  rtc (step subprocess_run self)
      {| c_fs := fs; c_rt := rt;
         c_threads := before ++ Running job (made ++ rest) :: after |}
      {| c_fs := fs; c_rt := foldl (apply_assign job) rt made;
         c_threads := before ++ Running job rest :: after |}.
Proof.
  revert rt. induction made as [|a made IH]; intros rt; [apply rtc_refl|].
  eapply rtc_l; [|apply IH].
  by apply (step_thread_assign subprocess_run self
              {| c_fs := fs; c_rt := rt;
                 c_threads := before ++ Running job (a :: made ++ rest) :: after |}
              before after job a (made ++ rest)).
Qed.

Lemma job_runs_so_far subprocess_run self fs rt threads job_id project_id tmp now n :
  jobs rt !! job_id = None ->
  fresh_dir self fs tmp ->
  let '(job, rt1) := start_build job_id project_id rt in
  let pending :=
    List.flat_map assignments (job_writes subprocess_run self tmp now project_id fs) in
  rtc (step subprocess_run self)
      {| c_fs := fs; c_rt := rt; c_threads := threads |}
      {| c_fs := w_fs (recorded_build subprocess_run self tmp now project_id fs).2;
         c_rt := foldl (apply_assign job) rt1 (take n pending);
         c_threads := threads ++ [Running job (drop n pending)] |}.
Proof.
  intros Hfresh Hdir.
  pose proof (start_build_fresh job_id project_id rt) as H.
  pose proof (step_start_build subprocess_run self
                {| c_fs := fs; c_rt := rt; c_threads := threads |}
                job_id project_id Hfresh) as Hstart.
  destruct (start_build job_id project_id rt) as [job rt1] eqn:E.
  cbn [c_fs c_rt c_threads] in Hstart. rewrite E in Hstart. cbn [snd] in Hstart.
  destruct H as (Hl & Hjobs & j & Hheap & _ & _ & _ & Hpid & _).
  assert (get_job rt1 job_id = Some job) as Hget
    by (unfold get_job; by rewrite Hjobs, lookup_insert_eq).
  assert (deref rt1 job = Some j) as Hj
    by (unfold deref; by rewrite Hheap, lookup_insert_eq).
  cbn zeta. eapply rtc_l; [exact Hstart|].
  eapply rtc_l.
  { by eapply (step_thread_build subprocess_run self
                 {| c_fs := fs; c_rt := rt1; c_threads := threads ++ [Spawned job_id] |}
                 threads [] job_id job j tmp now). }
  cbn [c_fs c_rt]. rewrite Hpid.
  set (pending := List.flat_map assignments _).
  rewrite <- (take_drop n pending) at 1. apply thread_advances.
Qed.

Lemma job_runs_to_end subprocess_run self fs rt threads job_id project_id tmp now :
  jobs rt !! job_id = None ->
  fresh_dir self fs tmp ->
  let '(job, rt1) := start_build job_id project_id rt in
  rtc (step subprocess_run self)
      {| c_fs := fs; c_rt := rt; c_threads := threads |}
      {| c_fs := w_fs (recorded_build subprocess_run self tmp now project_id fs).2;
         c_rt := (_run_job subprocess_run self tmp now job_id fs rt1).2;
         c_threads := threads ++ [Running job []] |}.
Proof.
  intros Hfresh Hdir.
  pose proof (job_runs_so_far subprocess_run self fs rt threads job_id project_id tmp now
                (length (List.flat_map assignments
                           (job_writes subprocess_run self tmp now project_id fs)))
                Hfresh Hdir) as Hrun.
  pose proof (start_build_fresh job_id project_id rt) as H.
  destruct (start_build job_id project_id rt) as [job rt1] eqn:E.
  destruct H as (Hl & Hjobs & j & Hheap & _ & _ & _ & Hpid & _).
  assert (get_job rt1 job_id = Some job) as Hget
    by (unfold get_job; by rewrite Hjobs, lookup_insert_eq).
  assert (deref rt1 job = Some j) as Hj
    by (unfold deref; by rewrite Hheap, lookup_insert_eq).
  cbn zeta in Hrun. rewrite firstn_all, drop_all in Hrun.
  erewrite run_job_writes by done. rewrite Hpid. cbn [snd].
  by rewrite <- foldl_assignments.
Qed.

(** From any of its assignments a job runs on to the end of [_run_job]. *)
Lemma job_runs_on subprocess_run self fs rt threads job_id project_id tmp now n :
  jobs rt !! job_id = None ->
  let '(job, rt1) := start_build job_id project_id rt in
  let pending :=
    List.flat_map assignments (job_writes subprocess_run self tmp now project_id fs) in
  rtc (step subprocess_run self)
      {| c_fs := w_fs (recorded_build subprocess_run self tmp now project_id fs).2;
         c_rt := foldl (apply_assign job) rt1 (take n pending);
         c_threads := threads ++ [Running job (drop n pending)] |}
      {| c_fs := w_fs (recorded_build subprocess_run self tmp now project_id fs).2;
         c_rt := (_run_job subprocess_run self tmp now job_id fs rt1).2;
         c_threads := threads ++ [Running job []] |}.
Proof.
  intros Hfresh.
  pose proof (start_build_fresh job_id project_id rt) as H.
  destruct (start_build job_id project_id rt) as [job rt1] eqn:E.
  destruct H as (Hl & Hjobs & j & Hheap & _ & _ & _ & Hpid & _).
  assert (get_job rt1 job_id = Some job) as Hget
    by (unfold get_job; by rewrite Hjobs, lookup_insert_eq).
  assert (deref rt1 job = Some j) as Hj
    by (unfold deref; by rewrite Hheap, lookup_insert_eq).
  cbn zeta. set (pending := List.flat_map assignments _).
  pose proof (thread_advances subprocess_run self
                (w_fs (recorded_build subprocess_run self tmp now project_id fs).2)
                (foldl (apply_assign job) rt1 (take n pending)) threads [] job
                (drop n pending) []) as Hrun.
  rewrite app_nil_r, <- foldl_app, take_drop in Hrun.
  erewrite run_job_writes by done. rewrite Hpid. cbn [snd].
  by rewrite <- foldl_assignments.
Qed.

(** ** References to records *)

(** C5, as the code has it: [get_job] returns the record the registry
    holds, not a copy.  The reference [start_build] returns is the one
    stored; a reference once returned stays the one [get_job] returns, and
    what is read through it after [update], [complete] or [fail] is the
    record as the write left it. *)
Theorem get_job_shares_record :
  (forall job_id project_id rt,
     let '(job, rt') := start_build job_id project_id rt in
     get_job rt' job_id = Some job /\ poll rt' job_id = deref rt' job) /\
  (forall rt job_id job wr,
     get_job rt job_id = Some job ->
     get_job (apply_write job rt wr) job_id = Some job /\
     poll (apply_write job rt wr) job_id = deref (apply_write job rt wr) job) /\
  (forall rt job j step ratio message archive_path msg,
     deref rt job = Some j ->
     (exists j', deref (update job step ratio message rt) job = Some j' /\
                 BuildJob.status j' = "running" /\ BuildJob.progress j' = ratio /\
                 BuildJob.message j' = message) /\
     (exists j', deref (complete job archive_path rt) job = Some j' /\
                 BuildJob.status j' = "completed" /\ BuildJob.progress j' = 1%Q /\
                 BuildJob.artifact_path j' = Some archive_path) /\
     (exists j', deref (fail job msg rt) job = Some j' /\
                 BuildJob.status j' = "failed" /\ BuildJob.message j' = msg)).
Proof.
  split; [|split].
  - intros job_id project_id rt.
    pose proof (start_build_fresh job_id project_id rt) as H.
    destruct (start_build job_id project_id rt) as [job rt'].
    destruct H as (_ & Hjobs & _).
    assert (get_job rt' job_id = Some job) as Hget
      by (unfold get_job; by rewrite Hjobs, lookup_insert_eq).
    split; [exact Hget|]. unfold poll. by rewrite Hget.
  - intros rt job_id job wr Hget.
    assert (get_job (apply_write job rt wr) job_id = Some job) as Hget'
      by (unfold get_job in *; by rewrite apply_write_jobs).
    split; [exact Hget'|]. unfold poll. by rewrite Hget'.
  - intros rt job j step ratio message archive_path msg Hj. unfold deref in *.
    unfold update, complete, fail. destruct (time_time (clock rt)) as [now c]. simpl.
    rewrite !lookup_alter_eq, Hj. simpl. split; [|split]; by eexists.
Qed.

(** ** Worked examples *)

Lemma fresh_dir_decide (self : BuildService) (fs : FS) (tmp : Path) :
  bool_decide (map_Forall (fun (p : Path) (_ : node) => ~ tmp `prefix_of` p) fs /\
               ~ tmp `prefix_of` Fs.abspath (cwd self) (build_root self) /\
               ~ Fs.abspath (cwd self) (build_root self) `prefix_of` tmp) = true ->
  fresh_dir self fs tmp.
Proof.
  intros H. apply bool_decide_eq_true in H as (Hall & H1 & H2). split; [|done].
  intros p [n Hn]. by apply (Hall p n).
Qed.

Example example_fresh_dir : fresh_dir Example.service Example.fs_abc Example.tmp.
Proof. apply fresh_dir_decide. vm_compute. reflexivity. Qed.

Example example_reachable :
  reachable Example.converter_fails Example.service Example.c_end.
Proof.
  exists Example.c_start. split; [done|].
  exact (job_runs_to_end Example.converter_fails Example.service Example.fs_abc
           Example.rt0 [] "job-1" "abc" Example.tmp 1700000000 eq_refl example_fresh_dir).
Qed.

Example example_keeps_files : keeps_files Example.converter_fails.
Proof. intros command fs p H. exact H. Qed.

Example example_job1 :
  get_job Example.rt1 "job-1" = Some Example.job1 /\
  deref Example.rt1 Example.job1 = Some Example.queued1.
Proof. split; vm_compute; reflexivity. Qed.

Example example_build_trace :
  let out := recorded_build Example.converter_fails Example.service Example.tmp
               1700000000 "abc" Example.fs_abc in
  out.1 = Ok ["/"; "srv"; "openck3"; "storage"; "builds"; "abc-1700000000.zip"] /\
  List.map ratio_of (w_obs out.2)
  = [0 # 5; 5 # 25; 1 # 5; 10 # 25; 2 # 5; 15 # 25; 3 # 5; 20 # 25; 4 # 5; 1]%Q.
Proof. split; vm_compute; reflexivity. Qed.

(** A texture that wants converting and no converter: the texture in DDS
    is processed, half of the second slice, then the job fails with the
    message of the stage, below full progress and without artifact. *)
Example example_failed_job :
  let fs := <[ (["storage"; "assets"; "dds"; "abc"; "banner.png"] : Path) := File (Bytes "PNG") ]>
              Example.fs_abc in
  let rt := (_run_job Example.converter_fails Example.service Example.tmp 1700000000
                      "job-1" fs Example.rt1).2 in
  (fun j => (BuildJob.status j, BuildJob.progress j, BuildJob.message j,
             BuildJob.artifact_path j)) <$> poll rt "job-1"
  = Some ("failed", (15 # 50)%Q, "No DDS converter (ImageMagick or texconv) available", None).
Proof. vm_compute. reflexivity. Qed.

(** The same project with the textures it can pack: the job completes. *)
Example example_completed_job :
  let rt := (_run_job Example.converter_fails Example.service Example.tmp 1700000000
                      "job-1" Example.fs_abc Example.rt1).2 in
  (fun j => (BuildJob.status j, BuildJob.progress j, BuildJob.message j,
             BuildJob.artifact_path j)) <$> poll rt "job-1"
  = Some ("completed", 1%Q, "Build completed",
          Some ["/"; "srv"; "openck3"; "storage"; "builds"; "abc-1700000000.zip"]).
Proof. vm_compute. reflexivity. Qed.

(** In binary64 as in the rationals: the slice of four stages is the
    number Python prints as [0.2], the last report of a stage is the first
    of the next, the report before the archive is below [1], and the
    reports of a build with one, two and three files in its first three
    stages never decrease. *)
Example binary64_slices :
  let span := Binary64.span_of 4 in
  span = 0x1.999999999999ap-3%float /\
  List.map (fun index => Binary64.in_stage span index 1) [1; 2; 3; 4]%float
  = List.map (Binary64.before_stage span) [2; 3; 4; 5]%float /\
  PrimFloat.ltb (Binary64.before_stage span 5) 1 = true /\
  Binary64.nondecreasing
    [ Binary64.before_stage span 1; Binary64.in_stage span 1 (1 / 1);
      Binary64.before_stage span 2; Binary64.in_stage span 2 (1 / 2);
      Binary64.in_stage span 2 (2 / 2);
      Binary64.before_stage span 3; Binary64.in_stage span 3 (1 / 3);
      Binary64.in_stage span 3 (2 / 3); Binary64.in_stage span 3 (3 / 3);
      Binary64.before_stage span 4; Binary64.in_stage span 4 1;
      Binary64.before_stage span 5; 1 ]%float = true.
Proof. repeat split; vm_compute; reflexivity. Qed.


(** * The rest of the build service *)

(** ** The converter: which one, and what it is asked *)

(** X1: [_detect_converter] takes the first of [magick], [convert] and
    [texconv] that [shutil.which] finds: whenever one of the three is
    found a converter is taken, and none is taken exactly when none of
    the three is found.  The converter taken is one [shutil.which]
    finds, no candidate before it is found, and
    [_build_converter_command] has a command for it, which begins with
    the converter's name. *)
Theorem detect_converter_first_found (which : string -> bool) :
  _detect_converter which
  = (if which "magick" then Some "magick"
     else if which "convert" then Some "convert"
     else if which "texconv" then Some "texconv" else None) /\
  (forall c, c = "magick" \/ c = "convert" \/ c = "texconv" ->
     which c = true -> is_Some (_detect_converter which)) /\
  (_detect_converter which = None <->
   which "magick" = false /\ which "convert" = false /\ which "texconv" = false) /\
  (forall c, _detect_converter which = Some c ->
     which c = true /\
     (c = "magick" \/
      c = "convert" /\ which "magick" = false \/
      c = "texconv" /\ which "magick" = false /\ which "convert" = false) /\
     forall (self : BuildService) (source destination : Path),
       _converter self = Some c ->
       exists args, _build_converter_command self source destination = Ok (c :: args)).
Proof.
  unfold _detect_converter. simpl.
  destruct (which "magick") eqn:Hm; [|destruct (which "convert") eqn:Hc;
    [|destruct (which "texconv") eqn:Ht]].
  all: split; [reflexivity|]; split; [|split].
  all: try (intros c [-> | [-> | ->]] Hw; by eauto || congruence).
  all: try (split; [discriminate|intros (? & ? & ?); congruence]).
  all: try (split; [done|done]).
  all: try discriminate.
  all: intros c [= <-]; (split; [done|]); (split; [tauto|]);
    intros self source destination Hself; unfold _build_converter_command;
    rewrite Hself; simpl; eauto.
Qed.

Lemma detect_converter_first_found_witness :
  let which := fun c => String.eqb c "convert" || String.eqb c "texconv" in
  _detect_converter which = Some "convert" /\
  which "convert" = true /\
  ("convert" = "magick" \/
   "convert" = "convert" /\ which "magick" = false \/
   "convert" = "texconv" /\ which "magick" = false /\ which "convert" = false) /\
  forall (self : BuildService) (source destination : Path),
    _converter self = Some "convert" ->
    exists args, _build_converter_command self source destination = Ok ("convert" :: args).
Proof.
  cbn zeta.
  destruct (detect_converter_first_found
              (fun c => String.eqb c "convert" || String.eqb c "texconv"))
    as (Heq & _ & _ & Hsome).
  split; [exact Heq|]. apply Hsome. exact Heq.
Defined.

(** X2: no converter is detected exactly when none of the three is found, and
    a service configured with a name outside the three has no command. *)
Theorem converter_outside_the_three (self : BuildService) (c : string)
    (source destination : Path) :
  _converter self = Some c ->
  c <> "magick" -> c <> "convert" -> c <> "texconv" ->
  _build_converter_command self source destination
  = Raise (BuildError "Unsupported converter configured") /\
  forall which, _detect_converter which <> Some c.
Proof.
  intros Hself H1 H2 H3. split.
  - unfold _build_converter_command. rewrite Hself.
    rewrite bool_decide_eq_false_2 by congruence.
    rewrite bool_decide_eq_false_2; [done|].
    rewrite elem_of_union, !elem_of_singleton. tauto.
  - intros which. unfold _detect_converter. simpl.
    destruct (which "magick"); [congruence|].
    destruct (which "convert"); [congruence|].
    destruct (which "texconv"); congruence.
Qed.

Lemma converter_outside_the_three_witness :
  _build_converter_command {| _converter := Some "nvcompress"; build_root := ["builds"]; cwd := ["/"] |}
                           ["a.png"] ["gfx"; "a.dds"]
  = Raise (BuildError "Unsupported converter configured") /\
  forall which, _detect_converter which <> Some "nvcompress".
Proof.
  apply (converter_outside_the_three
           {| _converter := Some "nvcompress"; build_root := ["builds"]; cwd := ["/"] |} "nvcompress");
    [reflexivity|discriminate..].
Defined.

(** X3: with one of the three converters configured, a source that is not
    DDS is handed to the converter: the call succeeds exactly when the
    process exits with code zero, whatever the process left at the
    destination, and otherwise raises the error that names the source and
    carries what the process wrote to its error stream; the files are as
    the process left them. *)
Theorem convert_runs_converter (Obs : Type)
    (subprocess_run : list string -> FS -> CompletedProcess) (self : BuildService)
    (c : string) (source destination : Path) (w : world Obs) :
  _converter self = Some c ->
  c = "magick" \/ c = "convert" \/ c = "texconv" ->
  PyStr.lower (PurePath.suffix source) <> ".dds" ->
  let command :=
    if String.eqb c "texconv"
    then [ "texconv"; "-f"; "BC7_UNORM"; "-y"; "-o";
           Fs.to_str (PurePath.parent destination); Fs.to_str source ]
    else [ c; Fs.to_str source; Fs.to_str destination ] in
  let proc := subprocess_run command (Fs.mkdir_p (w_fs w) (PurePath.parent destination)) in
  _convert_to_dds subprocess_run self source destination w
  = (if returncode proc =? 0 then Ok tt
     else Raise (BuildError ("Failed to convert " +:+ PurePath.name source
                             +:+ " to DDS: " +:+ stderr proc)),
     World (fs_after proc) (w_obs w)).
Proof.
  intros Hself Hc Hsuffix. cbn zeta.
  unfold _convert_to_dds. rewrite run_bind_act. cbn [w_fs w_obs].
  destruct (String.eqb_spec (PyStr.lower (PurePath.suffix source)) ".dds") as [E|_];
    [contradiction|].
  rewrite Hself.
  assert (_build_converter_command self source destination
          = Ok (if String.eqb c "texconv"
                then [ "texconv"; "-f"; "BC7_UNORM"; "-y"; "-o";
                       Fs.to_str (PurePath.parent destination); Fs.to_str source ]
                else [ c; Fs.to_str source; Fs.to_str destination ])) as Hcmd.
  { unfold _build_converter_command. rewrite Hself.
    destruct Hc as [-> | [-> | ->]]; reflexivity. }
  destruct c as [|a c']; [by destruct Hc as [? | [? | ?]]|].
  rewrite run_bind_of_result, Hcmd, run_bind_fs_op. cbn [fst snd w_fs w_obs].
  by destruct (returncode _ =? 0).
Qed.

(** ** What a build writes, and where *)

Section Confined.
Context {Obs : Type} (W : Path -> Prop).

Lemma preserves_mkdir_p (p : Path) : preserves W (fun fs => Fs.mkdir_p fs p).
Proof. intros fs q n _ H. by rewrite FsFacts.lookup_mkdir_p_is_Some. Qed.

Lemma preserves_insert (p : Path) (x : node) : W p -> preserves W (fun fs => <[p := x]> fs).
Proof.
  intros Hp fs q n Hq H. rewrite lookup_insert_ne; [done|]. by intros ->.
Qed.

Lemma preserves_write (p : Path) (g : FS -> data) :
  W p -> preserves W (fun fs => Fs.write fs p (g fs)).
Proof. intros Hp fs q n Hq H. unfold Fs.write. by apply preserves_insert. Qed.

Lemma preserves_copy2 (src dst : Path) : W dst -> preserves W (fun fs => Fs.copy2 fs src dst).
Proof.
  intros Hp fs q n Hq H. unfold Fs.copy2. destruct (fs !! src) as [[|d]|]; try done.
  by apply preserves_insert.
Qed.

Lemma preserves_compose (f g : FS -> FS) :
  preserves W f -> preserves W g -> preserves W (fun fs => g (f fs)).
Proof. intros Hf Hg fs q n Hq H. by apply Hg, Hf. Qed.

Lemma preserves_save_metadata (p : Path) v :
  W p -> preserves W (fun fs => storage.save_metadata fs p v).
Proof.
  intros Hp fs q n Hq H. unfold storage.save_metadata, Fs.write.
  apply preserves_insert; [done..|]. by apply preserves_mkdir_p.
Qed.

Lemma preserves_ensure_storage_layout : preserves W storage.ensure_storage_layout.
Proof.
  intros fs q n Hq H. unfold storage.ensure_storage_layout. cbn [foldl].
  repeat (apply preserves_mkdir_p; [exact Hq|]). exact H.
Qed.

Lemma preserves_project_dir project_id :
  preserves W (fun fs => (storage.project_dir fs project_id).2).
Proof.
  intros fs q n Hq H. unfold storage.project_dir. cbn [snd].
  apply preserves_mkdir_p; [done|]. by apply preserves_ensure_storage_layout.
Qed.

Lemma confined_ret {A : Type} (a : A) : confined (Obs:=Obs) W (ret a).
Proof. by intros w q n _ H. Qed.

Lemma confined_raise {A : Type} e : confined (Obs:=Obs) W (raise (A:=A) e).
Proof. by intros w q n _ H. Qed.

Lemma confined_of_result {A : Type} (r : result A) : confined (Obs:=Obs) W (of_result r).
Proof. by intros w q n _ H. Qed.

Lemma confined_ask {A : Type} (f : FS -> A) : confined (Obs:=Obs) W (ask f).
Proof. by intros w q n _ H. Qed.

Lemma confined_fs_try {A : Type} (f : FS -> result A) : confined (Obs:=Obs) W (fs_try f).
Proof. by intros w q n _ H. Qed.

Lemma confined_notify (callback : option (ProgressCallback Obs)) step ratio message :
  confined W (notify callback step ratio message).
Proof. intros w q n _ H. by destruct callback. Qed.

Lemma confined_act (f : FS -> FS) : preserves W f -> confined (Obs:=Obs) W (act f).
Proof. intros Hf w q n Hq H. exact (Hf _ _ _ Hq H). Qed.

Lemma confined_fs_op {A : Type} (f : FS -> A * FS) :
  preserves W (fun fs => (f fs).2) -> confined (Obs:=Obs) W (fs_op f).
Proof.
  intros Hf w q n Hq H. unfold fs_op. specialize (Hf _ _ _ Hq H). simpl in Hf.
  destruct (f (w_fs w)). exact Hf.
Qed.

Lemma confined_bind {A B : Type} (m : M Obs A) (k : A -> M Obs B) :
  confined W m -> (forall a, confined W (k a)) -> confined W (bind m k).
Proof.
  intros Hm Hk w q n Hq H. unfold bind. specialize (Hm w q n Hq H).
  destruct (m w) as [[a|e] w']; [by apply Hk|done].
Qed.

Lemma confined_for_each {A : Type} (xs : list A) (body : A -> M Obs unit) :
  Forall (fun x => confined W (body x)) xs -> confined W (for_each xs body).
Proof.
  induction 1 as [|x xs Hx _ IH]; simpl; [apply confined_ret|].
  apply confined_bind; [exact Hx|]. intros _. exact IH.
Qed.

Lemma confined_with_cleanup {A : Type} (m : M Obs A) release :
  confined W m -> preserves W release -> confined W (with_cleanup m release).
Proof.
  intros Hm Hr w q n Hq H. unfold with_cleanup. specialize (Hm w q n Hq H).
  destruct (m w) as [r w']. by apply Hr.
Qed.

End Confined.

Lemma confined_weaken {Obs A : Type} (W W' : Path -> Prop) (m : M Obs A) :
  (forall q, W q -> W' q) -> confined W m -> confined W' m.
Proof. intros HW Hm w q n Hq H. apply Hm; [|done]. intros Hw. by apply Hq, HW. Qed.

Lemma prefix_of_joinpath (p q : Path) : p `prefix_of` p // q.
Proof. by exists q. Qed.

Lemma prefix_of_joinpath2 (p q r : Path) : p `prefix_of` p // q // r.
Proof. exists (q ++ r). unfold PurePath.joinpath. by rewrite app_assoc. Qed.

Ltac confined_step :=
  lazymatch goal with
  | |- confined _ (bind _ _) => apply confined_bind; [|intros ?]
  | |- confined _ (ret _) => apply confined_ret
  | |- confined _ (raise _) => apply confined_raise
  | |- confined _ (of_result _) => apply confined_of_result
  | |- confined _ (ask _) => apply confined_ask
  | |- confined _ (act _) => apply confined_act
  | |- confined _ (fs_op _) => apply confined_fs_op
  | |- confined _ (fs_try _) => apply confined_fs_try
  | |- confined _ (notify _ _ _ _) => apply confined_notify
  | |- confined _ (for_each _ _) => apply confined_for_each, Forall_forall; intros [? ?] _
  | |- confined _ (if ?b then _ else _) => destruct b
  | |- confined _ (match ?x with _ => _ end) => destruct x eqn:?
  end.

Section BuildConfined.
Variable subprocess_run : list string -> FS -> CompletedProcess.
Hypothesis subprocess_keeps : keeps_entries subprocess_run.
Context {Obs : Type}.

Lemma confined_convert_to_dds (W : Path -> Prop) self (source destination : Path) :
  W destination ->
  confined (Obs:=Obs) W (_convert_to_dds subprocess_run self source destination).
Proof using subprocess_keeps.
  intros Hd. unfold _convert_to_dds. repeat confined_step;
    eauto using preserves_mkdir_p, preserves_copy2.
  all: intros fs q n _ H; cbn [snd]; by apply subprocess_keeps.
Qed.

Lemma confined_collect_project_files project_id (destination : Path) callback :
  confined (Obs:=Obs) (fun q => destination `prefix_of` q)
           (_collect_project_files project_id destination callback).
Proof.
  unfold _collect_project_files, collect_files, collect_file. repeat confined_step;
    eauto using preserves_mkdir_p, preserves_project_dir.
  apply preserves_copy2, prefix_of_joinpath.
Qed.

Lemma confined_convert_dds_assets self project_id (destination : Path) callback :
  confined (Obs:=Obs) (fun q => destination `prefix_of` q)
           (_convert_dds_assets subprocess_run self project_id destination callback).
Proof using subprocess_keeps.
  unfold _convert_dds_assets, convert_files, convert_file. repeat confined_step;
    eauto using preserves_mkdir_p.
  apply confined_convert_to_dds, prefix_of_joinpath2.
Qed.

Lemma confined_package_audio_tracks project_id (destination : Path) callback :
  confined (Obs:=Obs) (fun q => destination `prefix_of` q)
           (_package_audio_tracks project_id destination callback).
Proof.
  unfold _package_audio_tracks, package_files, package_file. repeat confined_step;
    eauto using preserves_mkdir_p.
  - apply preserves_copy2, prefix_of_joinpath2.
  - apply preserves_save_metadata, prefix_of_joinpath2.
Qed.

Lemma confined_write_descriptor project_id (destination : Path) callback :
  confined (Obs:=Obs) (fun q => destination `prefix_of` q)
           (_write_descriptor project_id destination callback).
Proof.
  unfold _write_descriptor. repeat confined_step; eauto using preserves_project_dir.
  apply (preserves_write _ _ (fun _ => Bytes _)), prefix_of_joinpath.
Qed.

Lemma confined_build_stages self (tmp : Path) project_id callback :
  confined (Obs:=Obs) (fun q => tmp `prefix_of` q)
    (for_each (enumerate 1 (steps subprocess_run self)) (fun '(index, (__name__, step)) =>
       bind (notify callback (PyStr.removeprefix "_" __name__)
                    (inject_Z (index - 1) * span_of (length (steps subprocess_run self)))%Q
                    ("Running " +:+ PyStr.replace_char "_" " "
                                      (PyStr.removeprefix "_" __name__)))
            (fun _ => step Obs project_id (tmp // ["mod"])
                           (Some (step_callback callback
                                    (span_of (length (steps subprocess_run self))) index))))).
Proof using subprocess_keeps.
  assert (forall q : Path, tmp // ["mod"] `prefix_of` q -> tmp `prefix_of` q) as Hwork.
  { intros q [k ->]. apply prefix_of_joinpath2. }
  apply confined_for_each. unfold steps. cbn [enumerate].
  repeat apply Forall_cons_2; try apply Forall_nil_2;
    (apply confined_bind; [apply confined_notify|intros _]);
    apply (confined_weaken _ _ _ Hwork).
  - apply confined_collect_project_files.
  - apply confined_convert_dds_assets.
  - apply confined_package_audio_tracks.
  - apply confined_write_descriptor.
Qed.

Lemma confined_build_mod self (tmp : Path) now project_id callback :
  confined (Obs:=Obs)
           (fun q => tmp `prefix_of` q \/ q = archive_path_of self now project_id)
           (build_mod subprocess_run self tmp now project_id callback).
Proof using subprocess_keeps.
  assert (forall q : Path, tmp // ["mod"] `prefix_of` q ->
            tmp `prefix_of` q \/ q = archive_path_of self now project_id) as Hwork.
  { intros q [k ->]. left. apply prefix_of_joinpath2. }
  unfold build_mod, build_steps, steps.
  apply confined_with_cleanup.
  - do 2 (apply confined_bind; [apply confined_act, preserves_mkdir_p|intros _]).
    apply confined_bind.
    + apply confined_for_each. cbn [enumerate].
      repeat apply Forall_cons_2; try apply Forall_nil_2;
        (apply confined_bind; [apply confined_notify|intros _]);
        apply (confined_weaken _ _ _ Hwork).
      * apply confined_collect_project_files.
      * apply confined_convert_dds_assets.
      * apply confined_package_audio_tracks.
      * apply confined_write_descriptor.
    + intros _. apply confined_bind; [apply confined_notify|intros _].
      apply confined_bind; [|intros ?; apply confined_bind;
                                       [apply confined_notify|intros _; apply confined_ret]].
      intros w q n Hq H. rewrite run_archive_build. cbn [snd w_fs].
      unfold Fs.write. rewrite lookup_insert_ne by (intros <-; apply Hq; by right).
      by apply (preserves_mkdir_p
                  (fun q => tmp `prefix_of` q \/ q = archive_path_of self now project_id)
                  (build_root self) _ q n Hq).
  - intros fs q n Hq H. rewrite FsKeeps.lookup_rmtree; [done|]. tauto.
Qed.

End BuildConfined.

(** X4: a build removes its working directory on every exit and, with a
    converter that leaves what is there, changes nothing that was there
    outside of it, the archive of the same name apart; a build that raises
    leaves that archive too as it was. *)
Theorem build_leaves_sources (Obs : Type)
    (subprocess_run : list string -> FS -> CompletedProcess) (self : BuildService)
    (tmp : Path) (now : Z) (project_id : string)
    (callback : option (ProgressCallback Obs)) (w : world Obs) :
  keeps_entries subprocess_run ->
  let out := build_mod subprocess_run self tmp now project_id callback w in
  (forall p : Path, tmp `prefix_of` p -> w_fs out.2 !! p = None) /\
  (forall (p : Path) n,
     ~ tmp `prefix_of` p -> p <> archive_path_of self now project_id ->
     w_fs w !! p = Some n -> w_fs out.2 !! p = Some n) /\
  (forall e (p : Path) n,
     out.1 = Raise e -> ~ tmp `prefix_of` p ->
     w_fs w !! p = Some n -> w_fs out.2 !! p = Some n).
Proof.
  intros Hkeeps. cbn zeta. split; [|split].
  3:{ intros e p n Hraise Hp H. revert Hraise.
      unfold build_mod, build_steps, with_cleanup, _archive_build.
      rewrite !run_bind_act. cbn [w_fs w_obs].
      match goal with |- context [bind (for_each ?xs ?body) ?k ?w0] =>
        pose proof (confined_build_stages subprocess_run Hkeeps self tmp project_id callback
                      w0 p n Hp) as Hstages;
        change (bind (for_each xs body) k w0)
          with (match for_each xs body w0 with
                | (Ok a, w') => k a w'
                | (Raise e, w') => (Raise e, w')
                end);
        destruct (for_each xs body w0) as [[[]|e'] w1] end.
      - destruct callback as [cb|]; cbn; discriminate.
      - intros _. cbn [snd w_fs] in *. rewrite FsKeeps.lookup_rmtree by done.
        apply Hstages. by rewrite !FsFacts.lookup_mkdir_p_is_Some; rewrite ?FsFacts.lookup_mkdir_p_is_Some. }
  - intros p Hp. unfold build_mod, build_steps, with_cleanup.
    destruct (bind _ _ w) as [r w']. cbn [snd w_fs]. unfold Fs.rmtree.
    apply map_lookup_filter_None. right. intros n _ Hn. by apply Hn.
  - intros p n Hp Harchive H.
    apply (confined_build_mod subprocess_run Hkeeps self tmp now project_id callback);
      [tauto|exact H].
Qed.

Lemma build_leaves_sources_witness :
  let out := build_mod Example.converter_fails Example.service Example.tmp 1700000000
                       "abc" None (World Example.fs_abc tt) in
  (forall p : Path, Example.tmp `prefix_of` p -> w_fs out.2 !! p = None) /\
  (forall (p : Path) n,
     ~ Example.tmp `prefix_of` p ->
     p <> archive_path_of Example.service 1700000000 "abc" ->
     w_fs (World Example.fs_abc tt) !! p = Some n -> w_fs out.2 !! p = Some n) /\
  (forall e (p : Path) n,
     out.1 = Raise e -> ~ Example.tmp `prefix_of` p ->
     w_fs (World Example.fs_abc tt) !! p = Some n -> w_fs out.2 !! p = Some n).
Proof.
  apply (build_leaves_sources unit Example.converter_fails Example.service Example.tmp
           1700000000 "abc" None (World Example.fs_abc tt)).
  intros command fs p n H. exact H.
Defined.

(** ** The storage tree *)

Lemma lookup_foldl_mkdir_p (dirs : list Path) (fs : FS) (p : Path) :
  foldl Fs.mkdir_p fs dirs !! p
  = match fs !! p with
    | Some n => Some n
    | None => if bool_decide (Exists (fun q => p ∈ Fs.ancestors_and_self q) dirs)
              then Some Dir else None
    end.
Proof.
  revert fs. induction dirs as [|q dirs IH]; intros fs; cbn [foldl].
  - destruct (fs !! p); [done|]. rewrite bool_decide_eq_false_2; [done|].
    by intros ?%Exists_nil.
  - rewrite IH, FsFacts.lookup_mkdir_p. destruct (fs !! p) as [n|]; [done|].
    repeat case_bool_decide; try done; exfalso;
      match goal with H : _ |- _ => rewrite Exists_cons in H; tauto end.
Qed.

Lemma foldl_mkdir_p_again (dirs : list Path) (fs : FS) :
  foldl Fs.mkdir_p (foldl Fs.mkdir_p fs dirs) dirs = foldl Fs.mkdir_p fs dirs.
Proof.
  apply map_eq. intros p. rewrite lookup_foldl_mkdir_p.
  destruct (foldl Fs.mkdir_p fs dirs !! p) as [n|] eqn:E; [done|].
  rewrite lookup_foldl_mkdir_p in E. destruct (fs !! p); [done|].
  by case_bool_decide.
Qed.

Lemma storage_dirs_made (fs : FS) (root : Path) (project_id : string) :
  is_Some ((storage.asset_dir fs root project_id).2
           !! (storage.asset_dir fs root project_id).1).
Proof.
  change ((storage.asset_dir fs root project_id).2)
    with (foldl Fs.mkdir_p fs
            [ storage.BASE_STORAGE; storage.ASSET_ROOT; storage.DDS_ROOT;
              storage.AUDIO_ROOT; storage.PROJECT_ROOT; storage.WORKSHOP_ROOT;
              root // [project_id] ]).
  cbn [fst storage.asset_dir]. rewrite lookup_foldl_mkdir_p.
  destruct (fs !! (root // [project_id])); [by eexists|].
  rewrite bool_decide_eq_true_2; [by eexists|].
  apply Exists_exists. exists (root // [project_id]). split; [set_solver|].
  apply FsFacts.elem_of_ancestors. split; [|done].
  unfold PurePath.joinpath. by destruct root.
Qed.

(** X10: [ensure_storage_layout], [project_dir] and [asset_dir] make
    directories and nothing else: after them the directory asked for is
    there, what was there before is there unchanged, what is new is a
    directory, and a second call changes nothing. *)
Theorem storage_dirs_made_once (fs : FS) (root : Path) (project_id : string) :
  let made := storage.asset_dir fs root project_id in
  is_Some (made.2 !! made.1) /\
  made.1 = root // [project_id] /\
  Forall (fun p => is_Some (made.2 !! p))
         [ storage.BASE_STORAGE; storage.ASSET_ROOT; storage.DDS_ROOT; storage.AUDIO_ROOT;
           storage.PROJECT_ROOT; storage.WORKSHOP_ROOT ] /\
  (forall (p : Path) n, fs !! p = Some n -> made.2 !! p = Some n) /\
  (forall p : Path, fs !! p = None -> made.2 !! p = None \/ made.2 !! p = Some Dir) /\
  storage.asset_dir made.2 root project_id = made /\
  storage.project_dir fs project_id = storage.asset_dir fs storage.PROJECT_ROOT project_id /\
  storage.ensure_storage_layout (storage.ensure_storage_layout fs)
  = storage.ensure_storage_layout fs.
Proof.
  cbn zeta.
  assert (forall fs0 : FS,
            (storage.asset_dir fs0 root project_id).2
            = foldl Fs.mkdir_p fs0
                [ storage.BASE_STORAGE; storage.ASSET_ROOT; storage.DDS_ROOT;
                  storage.AUDIO_ROOT; storage.PROJECT_ROOT; storage.WORKSHOP_ROOT;
                  root // [project_id] ]) as Hfold by reflexivity.
  assert (forall (dirs : list Path) (q : Path),
            q ∈ dirs -> q <> [] -> is_Some (foldl Fs.mkdir_p fs dirs !! q)) as Hmade.
  { intros dirs q Hq Hne. rewrite lookup_foldl_mkdir_p. destruct (fs !! q); [by eexists|].
    rewrite bool_decide_eq_true_2; [by eexists|].
    apply Exists_exists. exists q. split; [done|]. by apply FsFacts.elem_of_ancestors. }
  split; [|split; [done|split; [|split; [|split; [|split; [|split; [reflexivity|]]]]]]].
  - rewrite Hfold. cbn [fst storage.asset_dir]. apply Hmade.
    + set_solver.
    + unfold PurePath.joinpath. by destruct root.
  - rewrite Hfold.
    repeat (apply Forall_cons_2; [apply Hmade; [set_solver|discriminate]|]).
    apply Forall_nil_2.
  - intros p n H. rewrite Hfold, lookup_foldl_mkdir_p. by rewrite H.
  - intros p H. rewrite Hfold, lookup_foldl_mkdir_p, H. case_bool_decide; auto.
  - apply injective_projections; [done|]. by rewrite !Hfold, foldl_mkdir_p_again.
  - apply (foldl_mkdir_p_again
             [ storage.BASE_STORAGE; storage.ASSET_ROOT; storage.DDS_ROOT;
               storage.AUDIO_ROOT; storage.PROJECT_ROOT; storage.WORKSHOP_ROOT ]).
Qed.

Lemma elem_of_List_filter {A : Type} (f : A -> bool) (l : list A) (x : A) :
  x ∈ List.filter f l <-> f x = true /\ x ∈ l.
Proof. rewrite !list_elem_of_In, filter_In. tauto. Qed.

Lemma List_map_fmap {A B : Type} (f : A -> B) (l : list A) : List.map f l = f <$> l.
Proof. induction l as [|x l IH]; simpl; [done|]. by rewrite IH. Qed.

Lemma elem_of_paths (fs : FS) (p : Path) :
  p ∈ List.map fst (map_to_list fs) <-> is_Some (fs !! p).
Proof.
  rewrite List_map_fmap, list_elem_of_fmap. split.
  - intros [[q n] [-> H%elem_of_map_to_list]]. by exists n.
  - intros [n H]. exists (p, n). split; [done|]. by apply elem_of_map_to_list.
Qed.

Lemma NoDup_paths (fs : FS) : NoDup (List.map fst (map_to_list fs)).
Proof. rewrite List_map_fmap. apply NoDup_fst_map_to_list. Qed.

(** X11: [iter_project_files] yields, each once, the files at any depth below
    a root that is there, and no directory; nothing when the root is not
    there. *)
Theorem iter_project_files_below (fs : FS) (root : Path) :
  NoDup (storage.iter_project_files fs root) /\
  (forall p : Path,
     p ∈ storage.iter_project_files fs root <->
     is_Some (fs !! root) /\ root `prefix_of` p /\ p <> root /\
     exists d, fs !! p = Some (File d)) /\
  (fs !! root = None -> storage.iter_project_files fs root = []).
Proof.
  unfold storage.iter_project_files, Fs.exists_, Fs.rglob.
  split; [|split].
  - destruct (fs !! root); simpl; [|constructor].
    apply NoDup_ListNoDup, List.NoDup_filter, List.NoDup_filter, NoDup_ListNoDup,
      NoDup_paths.
  - intros p. destruct (fs !! root) as [r|] eqn:Hroot; simpl.
    + rewrite !elem_of_List_filter, elem_of_paths. unfold Fs.is_file. split.
      * intros (Hfile & Hbelow & [n Hn]).
        apply bool_decide_eq_true in Hbelow as [Hpre Hne].
        split; [by eexists|]. split; [done|]. split; [done|].
        rewrite Hn in Hfile. destruct n as [|d]; [done|]. by exists d.
      * intros (_ & Hpre & Hne & d & Hd). rewrite Hd. split; [done|].
        split; [by apply bool_decide_eq_true|]. by eexists.
    + split; [by intros ?%elem_of_nil|]. by intros ([? [=]] & _).
  - by intros ->.
Qed.

(** ** Sidecars written and read back *)

Lemma json_nested_ind (P : json -> Prop) :
  P JNull -> (forall b, P (JBool b)) -> (forall n, P (JInt n)) -> (forall s, P (JStr s)) ->
  (forall items, Forall P items -> P (JArr items)) ->
  (forall members, Forall (fun kv => P (snd kv)) members -> P (JObj members)) ->
  forall v, P v.
Proof.
  intros H0 Hb Hn Hs Ha Ho. fix IH 1.
  intros [|b|n|s|items|members]; [exact H0|apply Hb|apply Hn|apply Hs| |].
  - apply Ha. induction items as [|x xs IHxs]; constructor; [apply IH|exact IHxs].
  - apply Ho. induction members as [|[k v] ms IHms]; constructor; [apply IH|exact IHms].
Qed.

Lemma insert_member_sorted kv members :
  keys_sorted members -> keys_sorted (Py.insert_member kv members).
Proof.
  induction members as [|a rest IH]; intros Hs; [done|]. cbn [Py.insert_member].
  destruct (String.leb (fst kv) (fst a)) eqn:E; [done|].
  assert (String.leb (fst a) (fst kv) = true) as Ha
    by (destruct (String.leb_total (fst a) (fst kv)); congruence).
  destruct rest as [|b rest]; [done|]. destruct Hs as [Hab Hs].
  specialize (IH Hs). cbn [Py.insert_member] in *.
  destruct (String.leb (fst kv) (fst b)); split; auto.
Qed.

Lemma sort_members_sorted members : keys_sorted (Py.sort_members members).
Proof.
  induction members as [|kv rest IH]; [done|]. by apply insert_member_sorted.
Qed.

Lemma sort_members_of_sorted members :
  keys_sorted members -> Py.sort_members members = members.
Proof.
  induction members as [|a rest IH]; intros Hs; [done|].
  unfold Py.sort_members in *. cbn [foldr].
  destruct rest as [|b rest]; [done|]. destruct Hs as [Hab Hs].
  rewrite (IH Hs). cbn [Py.insert_member]. by rewrite Hab.
Qed.

Lemma sort_members_map (f : json -> json) members :
  Py.sort_members (List.map (fun kv => (fst kv, f (snd kv))) members)
  = List.map (fun kv => (fst kv, f (snd kv))) (Py.sort_members members).
Proof.
  induction members as [|kv rest IH]; [done|].
  unfold Py.sort_members in *. cbn [List.map foldr]. rewrite IH.
  generalize (foldr Py.insert_member [] rest). intros l.
  induction l as [|a l IHl]; [done|]. cbn [Py.insert_member List.map fst].
  destruct (String.leb (fst kv) (fst a)); [done|]. cbn [List.map]. by rewrite IHl.
Qed.

Lemma sort_keys_again v : Py.sort_keys (Py.sort_keys v) = Py.sort_keys v.
Proof.
  induction v as [|b|n|s|items IH|members IH] using json_nested_ind; try done.
  - cbn [Py.sort_keys]. f_equal. rewrite List.map_map.
    apply List.map_ext_Forall. exact IH.
  - cbn [Py.sort_keys]. f_equal.
    rewrite (sort_members_map Py.sort_keys), sort_members_of_sorted
      by apply sort_members_sorted.
    rewrite <- (sort_members_map Py.sort_keys). f_equal.
    rewrite List.map_map. apply List.map_ext_Forall.
    eapply Forall_impl; [exact IH|]. intros [k v] Hv. simpl in *. by rewrite Hv.
Qed.

Lemma truthy_sort_keys v : Py.truthy (Py.sort_keys v) = Py.truthy v.
Proof.
  destruct v as [|b|n|s|items|members]; try done.
  - by destruct items.
  - destruct members as [|kv rest]; [done|]. cbn [Py.sort_keys Py.truthy List.map].
    unfold Py.sort_members. cbn [foldr].
    by destruct (foldr Py.insert_member [] _) as [|a l]; cbn [Py.insert_member];
      [|destruct (String.leb _ _)].
Qed.

Lemma mkdir_p_again (fs : FS) (p : Path) : Fs.mkdir_p (Fs.mkdir_p fs p) p = Fs.mkdir_p fs p.
Proof. apply (foldl_mkdir_p_again [p]). Qed.

(** X12: what [save_metadata] writes beside an asset, [load_asset_metadata]
    reads back: the payload with its keys in order, as true or false as
    the payload was; saving what was read changes nothing; without a
    sidecar the metadata read is the empty object. *)
Theorem metadata_round_trip (fs : FS) (asset_path : Path) (payload : json) :
  PurePath.name asset_path <> EmptyString ->
  let sidecar :=
    PurePath.with_suffix asset_path
      (PurePath.suffix asset_path +:+ storage.METADATA_EXTENSION) in
  let saved := storage.save_metadata fs sidecar payload in
  storage.load_asset_metadata saved asset_path = Ok (Py.sort_keys payload) /\
  Py.truthy (Py.sort_keys payload) = Py.truthy payload /\
  storage.save_metadata saved sidecar (Py.sort_keys payload) = saved /\
  (fs !! sidecar = None -> storage.load_asset_metadata fs asset_path = Ok (JObj [])).
Proof.
  intros _. cbn zeta. set (sidecar := PurePath.with_suffix _ _).
  split; [|split; [apply truthy_sort_keys|split]].
  - unfold storage.load_asset_metadata. fold sidecar.
    unfold storage.save_metadata, Fs.write, Fs.exists_, Fs.load_json, Fs.dump_json.
    by rewrite lookup_insert_eq.
  - unfold storage.save_metadata, Fs.write, Fs.dump_json.
    rewrite sort_keys_again. apply map_eq. intros q.
    destruct (decide (q = sidecar)) as [->|Hne].
    + by rewrite !lookup_insert_eq.
    + rewrite !lookup_insert_ne by done.
      rewrite FsFacts.lookup_mkdir_p, lookup_insert_ne by done.
      destruct (Fs.mkdir_p fs (PurePath.parent sidecar) !! q) as [n|] eqn:E; [done|].
      rewrite FsFacts.lookup_mkdir_p in E. destruct (fs !! q); [done|].
      by case_bool_decide.
  - intros Hnone. unfold storage.load_asset_metadata. fold sidecar.
    unfold Fs.exists_. by rewrite Hnone.
Qed.

Lemma metadata_round_trip_witness :
  let sidecar : Path := ["storage"; "assets"; "audio"; "abc"; "march.ogg.json"] in
  let saved := storage.save_metadata Example.fs_abc sidecar Example.credits in
  storage.load_asset_metadata saved Example.march
  = Ok (JObj [("composer", JStr "Anon"); ("title", JStr "March")]) /\
  Py.truthy (Py.sort_keys Example.credits) = Py.truthy Example.credits /\
  storage.save_metadata saved sidecar (Py.sort_keys Example.credits) = saved /\
  (Example.fs_abc !! sidecar = None ->
   storage.load_asset_metadata Example.fs_abc Example.march = Ok (JObj [])).
Proof.
  apply (metadata_round_trip Example.fs_abc Example.march Example.credits).
  vm_compute. discriminate.
Defined.

(** ** What the records of the registry show *)

(** X13: in every state the process can reach, the progress of a record
    lies in [[0, 1]], its message says something, and its status is one
    of four: queued, at progress zero and without artifact; running,
    without artifact; completed, at progress one, and for artifact none
    yet or the archive of its project, a file that is there, under the
    absolute path of the build root; failed, at a progress within the
    slices of the stages, four fifths at most, and without artifact.
    Once the worker is through, a completed record has the message of
    success and its artifact. *)
Theorem job_records_in_range subprocess_run (self : BuildService) c job j :
  keeps_files subprocess_run ->
  reachable subprocess_run self c ->
  deref (c_rt c) job = Some j ->
  (0 <= BuildJob.progress j <= 1)%Q /\
  BuildJob.message j <> EmptyString /\
  (BuildJob.status j = "queued" /\ (BuildJob.progress j == 0)%Q /\
     BuildJob.artifact_path j = None \/
   BuildJob.status j = "running" /\ BuildJob.artifact_path j = None \/
   BuildJob.status j = "completed" /\ (BuildJob.progress j == 1)%Q /\
     (BuildJob.artifact_path j = None \/
      exists now : Z,
        BuildJob.artifact_path j
        = Some (Fs.abspath (cwd self)
                  (build_root self
                   // [BuildJob.project_id j +:+ "-" +:+ pretty now +:+ ".zip"])) /\
        Fs.is_file (c_fs c)
          (Fs.abspath (cwd self)
             (build_root self
              // [BuildJob.project_id j +:+ "-" +:+ pretty now +:+ ".zip"])) = true) \/
   BuildJob.status j = "failed" /\ (BuildJob.progress j <= 4 # 5)%Q /\
     BuildJob.artifact_path j = None) /\
  (through c job ->
   BuildJob.status j = "completed" /\ BuildJob.message j = "Build completed" /\
     (exists now : Z,
        BuildJob.artifact_path j
        = Some (Fs.abspath (cwd self)
                  (build_root self
                   // [BuildJob.project_id j +:+ "-" +:+ pretty now +:+ ".zip"]))) \/
   BuildJob.status j = "failed").
Proof.
  intros Hkeeps Hreach Hj.
  destruct (reachable_invariant _ _ Hkeeps c Hreach) as (Hth & _ & Hrec & _).
  destruct (Hrec job j Hj) as (Hp & Hm & Hst & Ha).
  split; [exact Hp|]. split; [exact Hm|]. split.
  - destruct (BuildJob.artifact_path j) as [archive_path|] eqn:E.
    + destruct Ha as (Hc & Hfile & now & ->). right. right. left.
      split; [exact Hc|]. split.
      * destruct Hst as [[H _]|[H|[[_ H]|[H _]]]]; congruence.
      * right. exists now. by split.
    + destruct Hst as [[H H0]|[H|[[H H1]|[H H2]]]]; [left|right; left|right; right; left|
        right; right; right]; repeat split; auto.
  - intros Hin. apply (proj1 (Forall_forall _ _) Hth) in Hin.
    destruct Hin as (j0 & Hj0 & Hpending). unfold deref in Hj.
    assert (j0 = j) as -> by congruence.
    destruct (pending_ok_through self (c_fs c) j Hpending)
      as [(Hc & Hmsg & p & Hpath & _ & now & ->)|[Hf _]]; [left|by right].
    split; [exact Hc|]. split; [exact Hmsg|]. by exists now.
Qed.

(** X14: in every state the process can reach, the registry holds under each
    id a record that bears this id, and [list_jobs] lists the records of
    the registry and no other. *)
Theorem registry_ids subprocess_run (self : BuildService) c :
  keeps_files subprocess_run ->
  reachable subprocess_run self c ->
  (forall job_id job, get_job (c_rt c) job_id = Some job ->
     exists j, deref (c_rt c) job = Some j /\ BuildJob.id j = job_id) /\
  (forall job, job ∈ list_jobs (c_rt c) <->
     exists job_id, get_job (c_rt c) job_id = Some job) /\
  (forall job_id, get_job (c_rt c) job_id = None -> poll (c_rt c) job_id = None).
Proof.
  intros Hkeeps Hreach.
  destruct (reachable_invariant _ _ Hkeeps c Hreach) as (_ & _ & _ & Hids).
  split; [exact Hids|]. split.
  - intros job. unfold list_jobs, get_job. rewrite List_map_fmap, list_elem_of_fmap. split.
    + intros [[id l] [-> H%elem_of_map_to_list]]. by exists id.
    + intros [id H]. exists (id, job). split; [done|]. by apply elem_of_map_to_list.
  - intros job_id H. unfold poll. by rewrite H.
Qed.

(** X15: whatever steps the process takes, the registry keeps under an id the
    record it had there, and the record keeps its id, its project and its
    time of creation: a job is never dropped, replaced or renamed. *)
Theorem registry_keeps_identity subprocess_run (self : BuildService) c c' job_id job j :
  rtc (step subprocess_run self) c c' ->
  get_job (c_rt c) job_id = Some job -> deref (c_rt c) job = Some j ->
  get_job (c_rt c') job_id = Some job /\
  exists j', deref (c_rt c') job = Some j' /\
    BuildJob.id j' = BuildJob.id j /\
    BuildJob.project_id j' = BuildJob.project_id j /\
    BuildJob.created_at j' = BuildJob.created_at j.
Proof.
  intros Hsteps. revert j. induction Hsteps as [c|c c1 c' Hstep _ IH]; intros j Hget Hj.
  - split; [done|by exists j].
  - destruct (step_keeps_identity _ _ _ _ _ _ _ Hstep Hget Hj)
      as (Hget1 & j1 & Hj1 & Hid & Hpid & Hcreated).
    destruct (IH j1 Hget1 Hj1) as (Hget' & j' & Hj' & Hid' & Hpid' & Hcreated').
    split; [done|]. exists j'. split; [done|]. repeat split; congruence.
Qed.
(** ** The build endpoints *)

Lemma through_record subprocess_run (self : BuildService) c job_id job j :
  keeps_files subprocess_run ->
  reachable subprocess_run self c ->
  get_job (c_rt c) job_id = Some job -> poll (c_rt c) job_id = Some j ->
  through c job ->
  BuildJob.status j = "completed" ->
  exists archive_path, BuildJob.artifact_path j = Some archive_path.
Proof.
  intros Hkeeps Hreach Hget Hpoll Hin Hc.
  destruct (reachable_invariant _ _ Hkeeps c Hreach) as (Hth & _).
  apply (proj1 (Forall_forall _ _) Hth) in Hin. destruct Hin as (j0 & Hj0 & Hpending).
  unfold poll in Hpoll. rewrite Hget in Hpoll. unfold deref in Hpoll.
  assert (j0 = j) as -> by congruence.
  destruct (pending_ok_through self (c_fs c) j Hpending)
    as [(_ & _ & p & Hp & _)|[Hf _]]; [by exists p|congruence].
Qed.

(** X17: in every state the process can reach, [download_build] serves a
    file only for a job that is completed and has its artifact path: the
    file is the artifact of the job, it is there, and it is offered under
    its own name; for a job that is not completed or has no artifact path
    yet, and for an id the registry does not know, it answers 404.  Once
    the worker of a completed job is through, the file is served. *)
Theorem download_serves_archives subprocess_run (self : BuildService) c job_id :
  keeps_files subprocess_run ->
  reachable subprocess_run self c ->
  match api.download_build (c_rt c) job_id with
  | api.Response r =>
      exists j, poll (c_rt c) job_id = Some j /\ BuildJob.status j = "completed" /\
                BuildJob.artifact_path j = Some (api.path r) /\
                api.filename r = PurePath.name (api.path r) /\
                Fs.is_file (c_fs c) (api.path r) = true
  | api.HTTPException status_code detail =>
      status_code = 404 /\ detail = "Build artifact unavailable" /\
      forall j, poll (c_rt c) job_id = Some j ->
                BuildJob.status j <> "completed" \/ BuildJob.artifact_path j = None
  | api.Uncaught _ => False
  end /\
  (forall job j,
     get_job (c_rt c) job_id = Some job -> poll (c_rt c) job_id = Some j ->
     through c job -> BuildJob.status j = "completed" ->
     exists r, api.download_build (c_rt c) job_id = api.Response r).
Proof.
  intros Hkeeps Hreach. split.
  - destruct (reachable_invariant _ _ Hkeeps c Hreach) as (_ & _ & Hrec & _).
    unfold api.download_build, poll, get_job, deref.
    destruct (jobs (c_rt c) !! job_id) as [job|]; [|by repeat split].
    destruct (heap (c_rt c) !! job) as [j|] eqn:Hj; [|by repeat split].
    destruct (Hrec job j Hj) as (_ & _ & _ & Ha).
    destruct (String.eqb_spec (BuildJob.status j) "completed") as [Hs|Hs]; simpl.
    + destruct (BuildJob.artifact_path j) as [archive_path|] eqn:E.
      * destruct Ha as (_ & Hfile & _). exists j. by rewrite E.
      * repeat split. intros ? [= <-]. by right.
    + repeat split. intros ? [= <-]. by left.
  - intros job j Hget Hpoll Hin Hc.
    destruct (through_record subprocess_run self c job_id job j Hkeeps Hreach Hget Hpoll
                Hin Hc) as [p Hp].
    unfold api.download_build. rewrite Hpoll, Hc, Hp. simpl. by eexists.
Qed.

(** X18: in every state the process can reach, with a build root that is
    not the workshop directory, [upload_to_workshop] for a completed job
    that has its artifact path, and whose place in the workshop is not
    taken by a directory, copies the artifact there, changes nothing else
    that is there, and answers with the path of the copy; for a job that
    is not completed or has no artifact path yet it answers 404 and
    changes nothing.  Once the worker of a completed job is through, the
    job has its artifact path. *)
Theorem workshop_upload_copies_artifact subprocess_run (self : BuildService) c
    job_id visibility j :
  keeps_files subprocess_run ->
  reachable subprocess_run self c ->
  Fs.abspath (cwd self) (build_root self) <> storage.WORKSHOP_ROOT ->
  poll (c_rt c) job_id = Some j ->
  let out := api.upload_to_workshop job_id visibility (c_fs c) (c_rt c) in
  (BuildJob.status j <> "completed" \/ BuildJob.artifact_path j = None ->
   out = (api.HTTPException 404 "Completed build required for Workshop upload", c_fs c)) /\
  (forall artifact_path,
     BuildJob.status j = "completed" ->
     BuildJob.artifact_path j = Some artifact_path ->
     exists d,
       c_fs c !! artifact_path = Some (File d) /\
       let destination := storage.WORKSHOP_ROOT // [PurePath.name artifact_path] in
       (c_fs c !! destination <> Some Dir ->
        out.1 = api.Response [ ("status", "uploaded"); ("job_id", job_id);
                               ("visibility", visibility);
                               ("path", Fs.to_str destination) ] /\
        out.2 !! destination = Some (File d) /\
        forall (p : Path) n,
          p <> destination -> c_fs c !! p = Some n -> out.2 !! p = Some n)) /\
  (forall job,
     get_job (c_rt c) job_id = Some job -> through c job ->
     BuildJob.status j = "completed" ->
     exists artifact_path, BuildJob.artifact_path j = Some artifact_path).
Proof.
  intros Hkeeps Hreach Hroot Hpoll. cbn zeta.
  destruct (reachable_invariant _ _ Hkeeps c Hreach) as (_ & _ & Hrec & _).
  split; [|split].
  - unfold api.upload_to_workshop. rewrite Hpoll. intros [Hs|Ha].
    + by destruct (String.eqb_spec (BuildJob.status j) "completed").
    + rewrite Ha. by destruct (negb _).
  - intros artifact_path Hs Ha.
    unfold api.upload_to_workshop. rewrite Hpoll, Hs, Ha.
    change (negb ("completed" =? "completed")%string) with false. cbv iota.
    unfold poll, get_job, deref in Hpoll.
    destruct (jobs (c_rt c) !! job_id) as [job|]; [|done].
    pose proof (Hrec job j Hpoll) as (_ & _ & _ & Hart). rewrite Ha in Hart.
    destruct Hart as (_ & Hfile & now & Hnow).
    unfold Fs.is_file in Hfile.
    destruct (c_fs c !! artifact_path) as [[|d]|] eqn:Hd; try done.
    exists d. split; [done|]. cbv zeta. intros Hdir.
    set (destination := storage.WORKSHOP_ROOT // [PurePath.name artifact_path]) in *.
    assert (artifact_path <> destination) as Hne.
    { rewrite Hnow, archive_path_of_root. unfold destination.
      unfold PurePath.joinpath. intros [? _]%app_inj_tail. contradiction. }
    assert (Fs.mkdir_p (c_fs c) storage.WORKSHOP_ROOT !! destination
            = c_fs c !! destination) as Hdest.
    { apply FsFacts.lookup_mkdir_p_other. intros [k Hk]. apply (f_equal length) in Hk.
      unfold destination, PurePath.joinpath in Hk. rewrite !length_app in Hk.
      simpl in Hk. lia. }
    assert (Fs.mkdir_p (c_fs c) storage.WORKSHOP_ROOT !! artifact_path = Some (File d))
      as Hsrc by (by apply FsFacts.lookup_mkdir_p_file).
    assert (Fs.is_dir (Fs.mkdir_p (c_fs c) storage.WORKSHOP_ROOT) destination = false)
      as Hfree.
    { unfold Fs.is_dir. rewrite Hdest. by destruct (c_fs c !! destination) as [[|?]|]. }
    unfold api.copy2. rewrite !Hfree. unfold Fs.exists_. rewrite Hsrc.
    rewrite bool_decide_eq_false_2 by done. cbn [andb fst snd].
    split; [done|]. split; [by rewrite lookup_insert_eq|].
    intros p n Hp H. rewrite lookup_insert_ne by done.
    by rewrite FsFacts.lookup_mkdir_p_is_Some.
  - intros job Hget Hin Hc.
    exact (through_record subprocess_run self c job_id job j Hkeeps Hreach Hget Hpoll
             Hin Hc).
Qed.
(** ** Uploads, and the builds that follow them *)

Lemma for_each_raises {Obs A : Type} (body : A -> M Obs unit) (xs : list A) (x : A) :
  x ∈ xs ->
  (forall w, exists e, (body x w).1 = Raise e) ->
  forall w, exists e, (for_each xs body w).1 = Raise e.
Proof.
  intros Hin Hx. induction xs as [|y xs IH]; intros w; [by apply elem_of_nil in Hin|].
  cbn [for_each]. unfold bind. destruct (body y w) as [[[]|e] w1] eqn:E.
  - apply elem_of_cons in Hin as [->|Hin]; [|by apply IH].
    destruct (Hx w) as [e He]. rewrite E in He. discriminate He.
  - by exists e.
Qed.

Lemma elem_of_enumerate {A : Type} (xs : list A) (x : A) start :
  x ∈ xs -> exists index, (index, x) ∈ enumerate start xs.
Proof.
  revert start. induction xs as [|y xs IH]; intros start Hin;
    [by apply elem_of_nil in Hin|].
  apply elem_of_cons in Hin as [->|Hin]; cbn [enumerate].
  - exists start. apply list_elem_of_here.
  - destruct (IH (start + 1) Hin) as [index Hi]. exists index.
    by apply list_elem_of_further.
Qed.

Lemma elem_of_iterdir (fs : FS) (dir : Path) (x : string) n :
  fs !! (dir // [x]) = Some n -> dir // [x] ∈ Fs.iterdir fs dir.
Proof.
  intros H. unfold Fs.iterdir. apply elem_of_List_filter. split.
  - apply bool_decide_eq_true. split; [|apply parent_snoc].
    unfold PurePath.joinpath. by destruct dir.
  - apply elem_of_paths. by eexists.
Qed.

Lemma json_suffix (dir : Path) (x : string) :
  x <> EmptyString -> PurePath.suffix (dir // [x +:+ ".json"]) = ".json".
Proof. intros Hx. by apply (suffix_of_extension dir x "json"). Qed.

Lemma suffix_empty_name : PurePath.suffix [EmptyString] = EmptyString.
Proof. reflexivity. Qed.

Lemma elem_of_allowed (ext : string) :
  ext ∈ allowed_extensions <-> ext = ".ogg" \/ ext = ".wav".
Proof. unfold allowed_extensions. by rewrite elem_of_union, !elem_of_singleton. Qed.

Lemma json_not_allowed : PyStr.lower ".json" ∉ allowed_extensions.
Proof. rewrite elem_of_allowed. by intros [?|?]. Qed.


(** What an upload that is answered leaves: the asset under its name in
    the asset directory of the project, its metadata beside it, and no
    temporary file. *)
Lemma upload_answered (json_loads : string -> option json)
    (allowed_extensions : gset string) (unsupported : string) (required : list string)
    (missing : string -> string) (root : Path) (kind : string) (temp_path : Path)
    (project_id filename content : string) (metadata : option string)
    (fs fs' : FS) (r : storage.AssetRecord) :
  api.upload json_loads allowed_extensions unsupported required missing root kind
             temp_path project_id filename content metadata fs
  = (api.Response r, fs') ->
  ~ root `prefix_of` temp_path ->
  let asset := root // [project_id] // [filename] in
  let sidecar := root // [project_id] // [filename +:+ ".json"] in
  PyStr.lower (PurePath.suffix [filename]) ∈ allowed_extensions /\
  api.first_missing required (storage.metadata r) = None /\
  (exists members, storage.metadata r = JObj members) /\
  fs' !! asset = Some (File (Bytes content)) /\
  fs' !! sidecar = Some (File (JsonDoc (Py.sort_keys (storage.metadata r)))) /\
  fs' !! temp_path = None /\
  is_Some (fs' !! (root // [project_id])).
Proof.
  intros Hup Htemp. cbn zeta. unfold api.upload in Hup.
  case_bool_decide as Hext; [done|].
  destruct (api._parse_metadata json_loads metadata) as [payload| |] eqn:Hparse; try done.
  destruct (api.first_missing required payload) eqn:Hmissing; [done|].
  cbn [storage.asset_dir] in Hup.
  set (dir := root // [project_id]) in *.
  set (fs2 := Fs.mkdir_p (storage.ensure_storage_layout (Fs.write fs temp_path _)) dir)
    in *.
  assert (temp_path <> dir // [filename] /\ temp_path <> dir // [filename +:+ ".json"])
    as [Hne1 Hne2].
  { split; intros ->; apply Htemp; apply prefix_of_joinpath2. }
  assert (fs2 !! temp_path = Some (File (Bytes content))) as Hfile.
  { unfold fs2. apply FsFacts.lookup_mkdir_p_file.
    unfold storage.ensure_storage_layout. cbn [foldl].
    repeat apply FsFacts.lookup_mkdir_p_file. unfold Fs.write. apply lookup_insert_eq. }
  unfold api._persist_upload in Hup. rewrite parent_snoc in Hup.
  rewrite (FsFacts.lookup_mkdir_p_file _ _ _ _ Hfile) in Hup.
  rewrite sidecar_path, parent_snoc, name_snoc in Hup.
  assert (exists members, payload = JObj members) as Hobj.
  { unfold api._parse_metadata in Hparse.
    destruct metadata as [[|a raw]|]; try (injection Hparse as <-; by eexists).
    destruct (json_loads _) as [[| | | | |members]|]; try done.
    injection Hparse as <-. by eexists. }
  assert (forall fs3 : FS,
            (api.Response {| storage.project_id := project_id; storage.filename := filename;
                             storage.kind := kind; storage.metadata := payload |},
             delete temp_path
               (storage.save_metadata
                  (<[dir // [filename] := File (Bytes content)]> (delete temp_path fs3))
                  (dir // [filename +:+ ".json"]) payload))
            = (api.Response r, fs') ->
            PyStr.lower (PurePath.suffix [filename]) ∈ allowed_extensions /\
            api.first_missing required (storage.metadata r) = None /\
            (exists members, storage.metadata r = JObj members) /\
            fs' !! (dir // [filename]) = Some (File (Bytes content)) /\
            fs' !! (dir // [filename +:+ ".json"])
            = Some (File (JsonDoc (Py.sort_keys (storage.metadata r)))) /\
            fs' !! temp_path = None /\
            (is_Some (fs3 !! dir) -> is_Some (fs' !! dir))) as Hdone.
  { intros fs3 [= <- <-]. cbn [storage.metadata].
    split; [done|]. split; [done|]. split; [done|]. split; [|split; [|split]].
    - rewrite lookup_delete_ne by done. apply lookup_save_metadata_other.
      + unfold PurePath.joinpath. intros [_ H]%app_inj_tail. by apply append_json_ne in H.
      + apply lookup_insert_eq.
    - rewrite lookup_delete_ne by done.
      unfold storage.save_metadata, Fs.write, Fs.dump_json. apply lookup_insert_eq.
    - apply lookup_delete_eq.
    - intros [n Hn].
      assert (forall x : string, dir <> dir // [x]) as Hlen.
      { intros x H. apply (f_equal length) in H. unfold PurePath.joinpath in H.
        rewrite length_app in H. simpl in H. lia. }
      assert (temp_path <> dir) as Hne3.
      { intros ->. apply Htemp. apply prefix_of_joinpath. }
      exists n. rewrite lookup_delete_ne by done.
      apply lookup_save_metadata_other; [apply Hlen|].
      rewrite lookup_insert_ne by (intros H; by apply (Hlen filename)).
      by rewrite lookup_delete_ne. }
  assert (is_Some (Fs.mkdir_p fs2 dir !! dir)) as Hdir.
  { rewrite FsFacts.lookup_mkdir_p. destruct (fs2 !! dir); [by eexists|].
    rewrite bool_decide_eq_true_2; [by eexists|]. apply FsFacts.elem_of_ancestors.
    split; [|done]. unfold dir, PurePath.joinpath. by destruct root. }
  destruct (Fs.mkdir_p fs2 dir !! (dir // [filename])) as [[|d]|]; [done|..];
    (destruct (Hdone (Fs.mkdir_p fs2 dir)) as (? & ? & ? & ? & ? & ? & Hd); [done|]);
    repeat split; auto.
Qed.

Lemma has_key_truthy key payload : api.has_key key payload = true -> Py.truthy payload = true.
Proof.
  destruct payload as [| | | | |members]; try done. simpl.
  destruct members; [|done]. by intros [? [=]]%bool_decide_eq_true.
Qed.

(** X20: an audio upload that is answered leaves the track in the audio
    directory of the project and beside it a sidecar that holds its title
    and composer; as the sidecar is a file of that directory and no sound,
    the audio stage of a build of the project raises from then on. *)
Theorem uploaded_audio_fails_the_stage (Obs : Type) (json_loads : string -> option json)
    (temp_path : Path) (project_id filename content : string) (metadata : option string)
    (fs fs' : FS) (r : storage.AssetRecord) (destination : Path)
    (callback : option (ProgressCallback Obs)) (obs : Obs) :
  api.upload_audio json_loads temp_path project_id filename content metadata fs
  = (api.Response r, fs') ->
  ~ storage.AUDIO_ROOT `prefix_of` temp_path ->
  let asset := storage.AUDIO_ROOT // [project_id] // [filename] in
  fs' !! asset = Some (File (Bytes content)) /\
  api.has_key "title" (storage.metadata r) = true /\
  api.has_key "composer" (storage.metadata r) = true /\
  storage.load_asset_metadata fs' asset = Ok (Py.sort_keys (storage.metadata r)) /\
  Py.truthy (Py.sort_keys (storage.metadata r)) = true /\
  exists e,
    (_package_audio_tracks project_id destination callback (World fs' obs)).1 = Raise e.
Proof.
  intros Hup Htemp. cbn zeta.
  destruct (upload_answered _ _ _ _ _ _ _ _ _ _ _ _ _ _ _ Hup Htemp)
    as (Hext & Hmissing & _ & Hasset & Hsidecar & _ & Hdir).
  assert (api.has_key "title" (storage.metadata r) = true /\
          api.has_key "composer" (storage.metadata r) = true) as [Htitle Hcomposer].
  { unfold api.first_missing in Hmissing. cbn [List.find] in Hmissing.
    destruct (api.has_key "title" _); [|done].
    by destruct (api.has_key "composer" _). }
  assert (filename <> EmptyString) as Hname.
  { intros ->. rewrite suffix_empty_name in Hext.
    apply elem_of_allowed in Hext as [?|?]; discriminate. }
  split; [done|]. split; [done|]. split; [done|]. split; [|split].
  - unfold storage.load_asset_metadata. rewrite sidecar_path, parent_snoc, name_snoc.
    unfold Fs.exists_, Fs.load_json. by rewrite Hsidecar.
  - rewrite truthy_sort_keys. by eapply has_key_truthy.
  - unfold _package_audio_tracks. rewrite run_bind_ask. unfold Fs.exists_.
    cbn [w_fs]. destruct Hdir as [n ->]. cbn [negb].
    rewrite run_bind_act, run_bind_ask. cbn [w_fs w_obs].
    set (fs1 := Fs.mkdir_p fs' _). set (files := List.filter _ _).
    assert (storage.AUDIO_ROOT // [project_id] // [filename +:+ ".json"] ∈ files) as Hin.
    { apply elem_of_List_filter. split.
      - unfold Fs.is_file, fs1. by rewrite (FsFacts.lookup_mkdir_p_file _ _ _ _ Hsidecar).
      - eapply elem_of_iterdir. unfold fs1.
        by apply (FsFacts.lookup_mkdir_p_file _ _ _ _ Hsidecar). }
    destruct (elem_of_enumerate files _ 1 Hin) as [index Hindex].
    unfold package_files.
    apply (for_each_raises _ _ _ Hindex). intros w.
    cbv beta iota. unfold bind at 1. rewrite package_file_rejects.
    + by eexists.
    + rewrite json_suffix by done. apply json_not_allowed.
Qed.

(** X21: a texture upload that is answered leaves a sidecar in the texture
    directory of the project; the texture stage takes it for a texture to
    convert, so that without a converter it raises from then on. *)
Theorem uploaded_texture_needs_converter (Obs : Type)
    (subprocess_run : list string -> FS -> CompletedProcess) (self : BuildService)
    (json_loads : string -> option json)
    (temp_path : Path) (project_id filename content : string) (metadata : option string)
    (fs fs' : FS) (r : storage.AssetRecord) (destination : Path)
    (callback : option (ProgressCallback Obs)) (obs : Obs) :
  api.upload_dds json_loads temp_path project_id filename content metadata fs
  = (api.Response r, fs') ->
  ~ storage.DDS_ROOT `prefix_of` temp_path ->
  _converter self = None ->
  fs' !! (storage.DDS_ROOT // [project_id] // [filename]) = Some (File (Bytes content)) /\
  api.has_key "usage" (storage.metadata r) = true /\
  (_convert_dds_assets subprocess_run self project_id destination callback
                       (World fs' obs)).1
  = Raise (BuildError "No DDS converter (ImageMagick or texconv) available").
Proof.
  intros Hup Htemp Hnone.
  destruct (upload_answered _ _ _ _ _ _ _ _ _ _ _ _ _ _ _ Hup Htemp)
    as (Hext & Hmissing & _ & Hasset & Hsidecar & _ & Hdir).
  assert (filename <> EmptyString) as Hname.
  { intros ->. rewrite suffix_empty_name in Hext.
    rewrite !elem_of_union, !elem_of_singleton in Hext.
    destruct Hext as [[[[?|?]|?]|?]|?]; discriminate. }
  split; [done|]. split.
  { unfold api.first_missing in Hmissing. cbn [List.find] in Hmissing.
    by destruct (api.has_key "usage" _). }
  unfold _convert_dds_assets. rewrite run_bind_ask. unfold Fs.exists_.
  cbn [w_fs]. destruct Hdir as [n ->]. cbn [negb].
  rewrite run_bind_act, run_bind_ask. cbn [w_fs w_obs].
  set (fs1 := Fs.mkdir_p fs' _). set (files := List.filter _ _).
  rewrite convert_files_no_converter by done.
  assert (forallb is_dds files = false) as ->; [|done].
  apply not_true_iff_false. rewrite forallb_forall. intros Hall.
  specialize (Hall (storage.DDS_ROOT // [project_id] // [filename +:+ ".json"])).
  unfold is_dds in Hall. rewrite json_suffix in Hall by done.
  enough (String.eqb (PyStr.lower ".json") ".dds" = true) as H by (vm_compute in H; done).
  apply Hall. apply list_elem_of_In, elem_of_List_filter. split.
  - unfold Fs.is_file, fs1. by rewrite (FsFacts.lookup_mkdir_p_file _ _ _ _ Hsidecar).
  - eapply elem_of_iterdir. unfold fs1.
    by apply (FsFacts.lookup_mkdir_p_file _ _ _ _ Hsidecar).
Qed.

(** ** The archive of a build *)

Lemma parent_prefix (p : Path) : PurePath.parent p `prefix_of` p.
Proof.
  unfold PurePath.parent. destruct (decide (p = [])) as [->|Hne]; [done|].
  exists [List.last p EmptyString]. by apply app_removelast_last.
Qed.

Section Untouched.
Context {Obs : Type} (W : Path -> Prop) (q : Path).
Hypothesis apart : forall p : Path, W p -> ~ q `prefix_of` p.

Lemma leaves_mkdir_p (p : Path) : W p -> leaves q (fun fs => Fs.mkdir_p fs p).
Proof using apart. intros Hp fs. apply FsFacts.lookup_mkdir_p_other. by apply apart. Qed.

Lemma leaves_mkdir_p_parent (p : Path) :
  W p -> leaves q (fun fs => Fs.mkdir_p fs (PurePath.parent p)).
Proof using apart.
  intros Hp fs. apply FsFacts.lookup_mkdir_p_other. intros Hq.
  apply (apart p Hp). etrans; [exact Hq|apply parent_prefix].
Qed.

Lemma leaves_insert (p : Path) (x : node) : W p -> leaves q (fun fs => <[p := x]> fs).
Proof using apart.
  intros Hp fs. rewrite lookup_insert_ne; [done|]. intros ->. by apply (apart q Hp).
Qed.

Lemma leaves_copy2 (src dst : Path) : W dst -> leaves q (fun fs => Fs.copy2 fs src dst).
Proof using apart.
  intros Hp fs. unfold Fs.copy2. destruct (fs !! src) as [[|d]|]; try done.
  by apply leaves_insert.
Qed.

Lemma leaves_save_metadata (p : Path) v :
  W p -> leaves q (fun fs => storage.save_metadata fs p v).
Proof using apart.
  intros Hp fs. unfold storage.save_metadata, Fs.write.
  rewrite (leaves_insert p _ Hp). by apply leaves_mkdir_p_parent.
Qed.

Lemma untouched_ret {A : Type} (a : A) : untouched (Obs:=Obs) q (ret a).
Proof. by intros w. Qed.

Lemma untouched_raise {A : Type} e : untouched (Obs:=Obs) q (raise (A:=A) e).
Proof. by intros w. Qed.

Lemma untouched_of_result {A : Type} (r : result A) : untouched (Obs:=Obs) q (of_result r).
Proof. by intros w. Qed.

Lemma untouched_ask {A : Type} (f : FS -> A) : untouched (Obs:=Obs) q (ask f).
Proof. by intros w. Qed.

Lemma untouched_fs_try {A : Type} (f : FS -> result A) : untouched (Obs:=Obs) q (fs_try f).
Proof. by intros w. Qed.

Lemma untouched_notify (callback : option (ProgressCallback Obs)) step ratio message :
  untouched q (notify callback step ratio message).
Proof. intros w. by destruct callback. Qed.

Lemma untouched_act (f : FS -> FS) : leaves q f -> untouched (Obs:=Obs) q (act f).
Proof. intros Hf w. exact (Hf _). Qed.

Lemma untouched_fs_op {A : Type} (f : FS -> A * FS) :
  leaves q (fun fs => (f fs).2) -> untouched (Obs:=Obs) q (fs_op f).
Proof.
  intros Hf w. unfold fs_op. specialize (Hf (w_fs w)). simpl in Hf.
  destruct (f (w_fs w)). exact Hf.
Qed.

Lemma untouched_bind {A B : Type} (m : M Obs A) (k : A -> M Obs B) :
  untouched q m -> (forall a, untouched q (k a)) -> untouched q (bind m k).
Proof.
  intros Hm Hk w. unfold bind. specialize (Hm w).
  destruct (m w) as [[a|e] w']; [|done]. rewrite <- Hm. apply Hk.
Qed.

Lemma untouched_for_each {A : Type} (xs : list A) (body : A -> M Obs unit) :
  Forall (fun x => untouched q (body x)) xs -> untouched q (for_each xs body).
Proof.
  induction 1 as [|x xs Hx _ IH]; simpl; [apply untouched_ret|].
  apply untouched_bind; [exact Hx|]. intros _. exact IH.
Qed.

End Untouched.

Ltac untouched_step :=
  lazymatch goal with
  | |- untouched _ (bind _ _) => apply untouched_bind; [|intros ?]
  | |- untouched _ (ret _) => apply untouched_ret
  | |- untouched _ (raise _) => apply untouched_raise
  | |- untouched _ (of_result _) => apply untouched_of_result
  | |- untouched _ (ask _) => apply untouched_ask
  | |- untouched _ (act _) => apply untouched_act
  | |- untouched _ (fs_op _) => apply untouched_fs_op
  | |- untouched _ (fs_try _) => apply untouched_fs_try
  | |- untouched _ (notify _ _ _ _) => apply untouched_notify
  | |- untouched _ (for_each _ _) => apply untouched_for_each, Forall_forall; intros [? ?] _
  | |- untouched _ (if ?b then _ else _) => destruct b
  | |- untouched _ (match ?x with _ => _ end) => destruct x eqn:?
  end.

(** The manifest of a project is read by the last stage as the build
    found it: the stages before write below the working directory. *)
Section ManifestUntouched.
Variable subprocess_run : list string -> FS -> CompletedProcess.
Context {Obs : Type} (project_id : string) (destination : Path).

Let manifest : Path := storage.PROJECT_ROOT // [project_id] // ["project.json"].

Hypothesis subprocess_leaves : converter_leaves manifest subprocess_run.
Hypothesis apart : forall p : Path, destination `prefix_of` p -> ~ manifest `prefix_of` p.

Lemma leaves_project_dir :
  leaves manifest (fun fs => (storage.project_dir fs project_id).2).
Proof. intros fs. by apply (lookup_project_dir_below fs project_id ["project.json"]). Qed.

Lemma untouched_convert_to_dds self (source target : Path) :
  destination `prefix_of` target ->
  untouched (Obs:=Obs) manifest (_convert_to_dds subprocess_run self source target).
Proof using subprocess_leaves apart.
  intros Hd. unfold _convert_to_dds. repeat untouched_step;
    eauto using leaves_mkdir_p_parent, leaves_copy2.
  all: intros fs; cbn [snd]; by apply subprocess_leaves.
Qed.

Lemma untouched_collect_project_files callback :
  untouched (Obs:=Obs) manifest (_collect_project_files project_id destination callback).
Proof using apart.
  unfold _collect_project_files, collect_files, collect_file. repeat untouched_step;
    eauto using leaves_project_dir.
  - apply (leaves_mkdir_p_parent _ _ apart), prefix_of_joinpath.
  - apply (leaves_copy2 _ _ apart), prefix_of_joinpath.
Qed.

Lemma untouched_convert_dds_assets self callback :
  untouched (Obs:=Obs) manifest
            (_convert_dds_assets subprocess_run self project_id destination callback).
Proof using subprocess_leaves apart.
  unfold _convert_dds_assets, convert_files, convert_file. repeat untouched_step.
  - apply (leaves_mkdir_p _ _ apart), prefix_of_joinpath.
  - apply untouched_convert_to_dds, prefix_of_joinpath2.
Qed.

Lemma untouched_package_audio_tracks callback :
  untouched (Obs:=Obs) manifest (_package_audio_tracks project_id destination callback).
Proof using apart.
  unfold _package_audio_tracks, package_files, package_file. repeat untouched_step.
  - apply (leaves_mkdir_p _ _ apart), prefix_of_joinpath.
  - apply (leaves_copy2 _ _ apart), prefix_of_joinpath2.
  - apply (leaves_save_metadata _ _ apart), prefix_of_joinpath2.
Qed.

End ManifestUntouched.

Lemma bind_ok {Obs A B : Type} (m : M Obs A) (k : A -> M Obs B) w b w2 :
  bind m k w = (Ok b, w2) -> exists a w1, m w = (Ok a, w1) /\ k a w1 = (Ok b, w2).
Proof.
  unfold bind. destruct (m w) as [[a|e] w1]; [|done]. intros H. by exists a, w1.
Qed.

Lemma notify_ok {Obs : Type} (callback : option (ProgressCallback Obs)) step ratio message w :
  exists obs, notify callback step ratio message w = (Ok tt, World (w_fs w) obs).
Proof. destruct callback as [cb|]; [by eexists|]. exists (w_obs w). by destruct w. Qed.

(** A descriptor stage that returns has read the manifest of the project,
    or found none, and has written what [_render_descriptor] makes of it. *)
Lemma write_descriptor_ok {Obs : Type} project_id (destination : Path)
    (callback : option (ProgressCallback Obs)) w w' :
  _write_descriptor project_id destination callback w = (Ok tt, w') ->
  exists metadata descriptor,
    (w_fs w !! (storage.PROJECT_ROOT // [project_id] // ["project.json"]) = None /\
     metadata = JObj [] \/
     w_fs w !! (storage.PROJECT_ROOT // [project_id] // ["project.json"])
     = Some (File (JsonDoc metadata))) /\
    _render_descriptor project_id metadata = Ok descriptor /\
    w_fs w' !! (destination // ["descriptor.mod"]) = Some (File (Bytes descriptor)).
Proof.
  unfold _write_descriptor. rewrite run_bind_fs_op, run_bind_fs_try. cbn [w_fs w_obs fst snd].
  unfold Fs.exists_, Fs.load_json.
  rewrite (lookup_project_dir_below (w_fs w) project_id ["project.json"]) by done.
  destruct (w_fs w !! (storage.PROJECT_ROOT // [project_id] // ["project.json"]))
    as [[|[s|metadata|members]]|] eqn:Hmanifest; try done.
  all: rewrite run_bind_of_result.
  all: match goal with |- context [_render_descriptor ?id ?v] =>
         destruct (_render_descriptor id v) as [descriptor|e] eqn:Hrender; [|done];
         intros Hrun; exists v, descriptor; revert Hrun end.
  all: rewrite run_bind_fs_try; cbn [w_fs w_obs];
    destruct (Fs.open_w _ _) as [[]|e]; [|done];
    rewrite run_bind_act; cbn [w_fs w_obs];
    match goal with |- notify ?cb ?s ?r ?m ?w0 = _ -> _ =>
      destruct (notify_ok cb s r m w0) as [obs ->] end;
    intros [= <-]; (split; [auto|]); (split; [done|]); apply lookup_insert_eq.
Qed.

Lemma elem_of_members (fs : FS) (root rel : Path) d :
  rel <> [] -> fs !! (root // rel) = Some (File d) -> (rel, d) ∈ Fs.members fs root.
Proof.
  intros Hrel H. unfold Fs.members. apply list_elem_of_omap.
  exists (root // rel, File d). split; [by apply elem_of_map_to_list|]. cbn [fst snd].
  rewrite bool_decide_eq_true_2.
  - unfold PurePath.relative_to, PurePath.joinpath. by rewrite drop_app_length.
  - split; [apply prefix_of_joinpath|].
    unfold PurePath.joinpath. intros Heq. apply Hrel.
    apply (app_inv_head root). by rewrite app_nil_r.
Qed.

Lemma manifest_apart (tmp : Path) project_id (p : Path) :
  ~ tmp `prefix_of` storage.PROJECT_ROOT // [project_id] // ["project.json"] ->
  ~ storage.PROJECT_ROOT // [project_id] // ["project.json"] `prefix_of` tmp ->
  tmp // ["mod"] `prefix_of` p ->
  ~ storage.PROJECT_ROOT // [project_id] // ["project.json"] `prefix_of` p.
Proof.
  intros H1 H2 Hp Hq.
  destruct (prefix_weak_total _ _ _ Hp Hq) as [H|H].
  - apply H1. etrans; [|exact H]. apply prefix_of_joinpath.
  - destruct H as [k Hk]. unfold PurePath.joinpath in Hk.
    destruct k as [|x k _] using rev_ind.
    + rewrite app_nil_r in Hk. by apply app_inj_tail in Hk as [_ ?].
    + rewrite app_assoc in Hk. apply app_inj_tail in Hk as [Hk _].
      apply H2. exists k. exact Hk.
Qed.

(** X6: a build that returns has written its archive in the build root,
    under the absolute path that ends in the name of the project and the
    second of the clock, and the archive holds at its root the
    [descriptor.mod] that [_render_descriptor] made of the manifest
    [project.json] the project had when the build began, of the empty
    manifest when it had none; the converter and the temporary directory
    are taken to stay clear of the manifest. *)
Theorem archive_holds_descriptor (Obs : Type)
    (subprocess_run : list string -> FS -> CompletedProcess) (self : BuildService)
    (tmp : Path) (now : Z) (project_id : string)
    (callback : option (ProgressCallback Obs)) (w w' : world Obs) (archive_path : Path) :
  let manifest := storage.PROJECT_ROOT // [project_id] // ["project.json"] in
  converter_leaves manifest subprocess_run ->
  ~ tmp `prefix_of` manifest -> ~ manifest `prefix_of` tmp ->
  build_mod subprocess_run self tmp now project_id callback w = (Ok archive_path, w') ->
  ~ tmp `prefix_of` archive_path ->
  archive_path
  = Fs.abspath (cwd self) (build_root self // [project_id +:+ "-" +:+ pretty now +:+ ".zip"]) /\
  exists members metadata descriptor,
    (w_fs w !! manifest = None /\ metadata = JObj [] \/
     w_fs w !! manifest = Some (File (JsonDoc metadata))) /\
    w_fs w' !! archive_path = Some (File (ZipArchive members)) /\
    _render_descriptor project_id metadata = Ok descriptor /\
    (["descriptor.mod"], Bytes descriptor) ∈ members.
Proof.
  cbn zeta. intros Hconv Htmp1 Htmp2 Hbuild Htmp.
  assert (archive_path = archive_path_of self now project_id) as Hpath.
  { eapply build_mod_archive_path. by rewrite Hbuild. }
  split; [exact Hpath|].
  pose proof (manifest_apart tmp project_id) as Hapart.
  specialize (fun p => Hapart p Htmp1 Htmp2).
  set (manifest := storage.PROJECT_ROOT // [project_id] // ["project.json"]) in *.
  revert Hbuild. unfold build_mod, build_steps, with_cleanup.
  rewrite !run_bind_act. cbn [w_fs w_obs].
  assert (Fs.mkdir_p (Fs.mkdir_p (w_fs w) tmp) (tmp // ["mod"]) !! manifest
          = w_fs w !! manifest) as Hstart.
  { rewrite !FsFacts.lookup_mkdir_p_other; [done|done|]. by apply Hapart. }
  destruct (bind (for_each _ _) _ _) as [r w2] eqn:Hrun. intros [= -> <-].
  apply bind_ok in Hrun as ([] & w1 & Hloop & Hrest).
  cbn [enumerate steps for_each] in Hloop.
  apply bind_ok in Hloop as ([] & wa & Ha & Hloop).
  apply bind_ok in Hloop as ([] & wb & Hb & Hloop).
  apply bind_ok in Hloop as ([] & wc & Hc & Hloop).
  apply bind_ok in Hloop as ([] & wd & Hlast & [= <-]).
  apply bind_ok in Hlast as ([] & we & Hnote & Hlast).
  assert (w_fs we !! manifest = w_fs w !! manifest) as Hread.
  { match type of Hnote with notify ?cb ?s ?r ?m ?w0 = _ =>
      destruct (notify_ok cb s r m w0) as [obs Hobs] end.
    rewrite Hobs in Hnote. injection Hnote as <-. cbn [w_fs].
    match type of Ha with ?m ?w0 = _ =>
      assert (untouched manifest m) as Ua
        by (apply untouched_bind; [apply untouched_notify|intros _];
            by apply untouched_collect_project_files);
      specialize (Ua w0); rewrite Ha in Ua end.
    match type of Hb with ?m ?w0 = _ =>
      assert (untouched manifest m) as Ub
        by (apply untouched_bind; [apply untouched_notify|intros _];
            by apply untouched_convert_dds_assets);
      specialize (Ub w0); rewrite Hb in Ub end.
    match type of Hc with ?m ?w0 = _ =>
      assert (untouched manifest m) as Uc
        by (apply untouched_bind; [apply untouched_notify|intros _];
            by apply untouched_package_audio_tracks);
      specialize (Uc w0); rewrite Hc in Uc end.
    cbn [snd w_fs] in Ua, Ub, Uc. congruence. }
  apply write_descriptor_ok in Hlast as (metadata & descriptor & Hmanifest & Hrender & Hfile).
  fold manifest in Hmanifest. rewrite Hread in Hmanifest.
  apply bind_ok in Hrest as ([] & wf & Hnote' & Hrest).
  match type of Hnote' with notify ?cb ?s ?r ?m ?w0 = _ =>
    destruct (notify_ok cb s r m w0) as [obs Hobs] end.
  rewrite Hobs in Hnote'. injection Hnote' as <-.
  apply bind_ok in Hrest as (p & wg & Harchive & Hrest).
  rewrite run_archive_build in Harchive. cbv zeta in Harchive. injection Harchive as <- <-.
  apply bind_ok in Hrest as ([] & wh & Hnote' & [= <-]).
  match type of Hnote' with notify ?cb ?s ?r ?m ?w0 = _ =>
    destruct (notify_ok cb s r m w0) as [obs' Hobs'] end.
  rewrite Hobs' in Hnote'. injection Hnote' as <-. subst w2. cbn [w_fs].
  eexists _, metadata, descriptor. split; [exact Hmanifest|].
  split; [|split; [exact Hrender|]].
  - rewrite FsKeeps.lookup_rmtree by exact Htmp.
    unfold Fs.write. apply lookup_insert_eq.
  - apply elem_of_members; [done|]. by apply FsFacts.lookup_mkdir_p_file.
Qed.
(** ** The endpoints that list and refuse *)

(** X16: [list_builds] answers with the dictionaries [get_build] answers with,
    one for each id of the registry, and [get_build] answers 404 for an
    id without a record. *)
Theorem list_builds_lists_gets (rt : Runtime) :
  (forall d, d ∈ api.list_builds rt <-> exists job_id, api.get_build rt job_id = api.Response d) /\
  (forall job_id, poll rt job_id = None ->
     api.get_build rt job_id = api.HTTPException 404 "Build not found") /\
  (forall job_id j, poll rt job_id = Some j ->
     api.get_build rt job_id = api.Response (BuildJob.to_dict j) /\
     BuildJob.d_status (BuildJob.to_dict j) = BuildJob.status j /\
     (BuildJob.d_progress (BuildJob.to_dict j) == BuildJob.progress j)%Q /\
     BuildJob.d_artifact_path (BuildJob.to_dict j) = Fs.to_str <$> BuildJob.artifact_path j).
Proof.
  split; [|split].
  - intros d. unfold api.list_builds, api.get_build, poll, get_job, list_jobs.
    rewrite list_elem_of_omap. split.
    + intros (job & Hjob & Hd). rewrite List_map_fmap in Hjob.
      apply list_elem_of_fmap in Hjob as ([id l] & -> & Hl%elem_of_map_to_list).
      exists id. rewrite Hl. cbn [snd] in Hd. destruct (deref rt l); [|done].
      by injection Hd as <-.
    + intros [id H]. destruct (jobs rt !! id) as [l|] eqn:Hl; [|done].
      exists l. split.
      * rewrite List_map_fmap. apply list_elem_of_fmap. exists (id, l).
        split; [done|]. by apply elem_of_map_to_list.
      * destruct (deref rt l); [|done]. by injection H as <-.
  - intros job_id H. unfold api.get_build. by rewrite H.
  - intros job_id j H. unfold api.get_build. rewrite H. split; [done|].
    split; [done|]. split; [reflexivity|]. by destruct j as [? ? ? ? ? [?|] ? ?].
Qed.

(** X19: an upload that is refused with an HTTP error has written nothing: the
    extension, the metadata and its required keys are checked before the
    first write; the status is 415 for the extension, 400 for metadata
    that is no JSON object, 422 for a missing key. *)
Theorem refused_upload_writes_nothing (json_loads : string -> option json)
    (temp_path : Path) (project_id filename content : string) (metadata : option string)
    (fs fs' : FS) (status_code : Z) (detail : string) :
  api.upload_audio json_loads temp_path project_id filename content metadata fs
  = (api.HTTPException status_code detail, fs') ->
  fs' = fs /\
  (status_code = 415 /\ detail = "Unsupported audio format" /\
   PyStr.lower (PurePath.suffix [filename]) <> ".ogg" /\
   PyStr.lower (PurePath.suffix [filename]) <> ".wav" \/
   status_code = 400 /\
   (detail = "Invalid metadata payload" \/ detail = "Metadata must be an object") \/
   status_code = 422 /\
   (detail = "Audio metadata must include 'title'" \/
    detail = "Audio metadata must include 'composer'")).
Proof.
  unfold api.upload_audio, api.upload.
  case_bool_decide as Hext.
  { intros [= <- <- <-]. split; [done|]. left. split; [done|]. split; [done|].
    split; intros H; apply Hext; rewrite H, !elem_of_union, !elem_of_singleton; auto. }
  destruct (api._parse_metadata json_loads metadata) as [payload|code msg|e] eqn:Hparse.
  - destruct (api.first_missing _ payload) as [key|] eqn:Hkey.
    + intros [= <- <- <-]. split; [done|]. right; right. split; [done|].
      unfold api.first_missing in Hkey. cbn [List.find] in Hkey.
      destruct (negb (api.has_key "title" payload)); [injection Hkey as <-; by left|].
      destruct (negb (api.has_key "composer" payload)); [injection Hkey as <-; by right|].
      done.
    + cbn [storage.asset_dir]. by destruct (api._persist_upload _ _ _) as [[[]|e] fs3].
  - intros [= <- <- <-]. split; [done|]. right; left.
    unfold api._parse_metadata in Hparse.
    destruct metadata as [[|a raw]|]; try done.
    destruct (json_loads _) as [[| | | | |members]|]; try done;
      injection Hparse as <- <-; auto.
  - done.
Qed.

(** ** The stage that collects the files of the project *)

Lemma collect_file_copies {Obs : Type} (project_path destination file_path : Path)
    (w : world Obs) d :
  w_fs w !! file_path = Some (File d) ->
  let target := destination // PurePath.relative_to file_path project_path in
  collect_file project_path destination file_path w
  = (Ok tt, World (<[target := File d]> (Fs.mkdir_p (w_fs w) (PurePath.parent target)))
                  (w_obs w)).
Proof.
  intros Hd. cbn zeta. unfold collect_file. rewrite run_bind_act. unfold act, Fs.copy2.
  cbn [w_fs w_obs]. by rewrite (FsFacts.lookup_mkdir_p_file _ _ _ d Hd).
Qed.

Lemma relative_to_inj (root p q : Path) :
  root `prefix_of` p -> root `prefix_of` q ->
  PurePath.relative_to p root = PurePath.relative_to q root -> p = q.
Proof.
  intros [k ->] [k' ->]. unfold PurePath.relative_to. rewrite !drop_app_length.
  by intros ->.
Qed.

Lemma collect_loop {Obs : Type} (project_path destination : Path)
    (callback : option (ProgressCallback Obs)) (total : Z) (files : list Path) :
  NoDup files ->
  forall (start : Z) (w : world Obs),
  (forall f, f ∈ files ->
     project_path `prefix_of` f /\ ~ destination `prefix_of` f /\
     exists d, w_fs w !! f = Some (File d)) ->
  let out :=
    for_each (enumerate start files) (fun '(index, file_path) =>
      bind (collect_file project_path destination file_path) (fun _ =>
        notify callback "collect" (true_div index total)
               ("Copied " +:+ Fs.to_str (PurePath.relative_to file_path project_path))))
      w in
  out.1 = Ok tt /\
  (forall f, f ∈ files ->
     w_fs out.2 !! (destination // PurePath.relative_to f project_path) = w_fs w !! f) /\
  (forall (q : Path) n,
     (forall f, f ∈ files -> q <> destination // PurePath.relative_to f project_path) ->
     w_fs w !! q = Some n -> w_fs out.2 !! q = Some n).
Proof.
  induction 1 as [|f files Hnotin Hnodup IH]; intros start w Hfiles; cbn zeta.
  - cbn [enumerate for_each]. split; [done|]. split; [|done].
    by intros f ?%elem_of_nil.
  - destruct (Hfiles f) as (Hpre & Hout & d & Hd); [apply list_elem_of_here|].
    set (target := destination // PurePath.relative_to f project_path).
    set (fs1 := <[target := File d]> (Fs.mkdir_p (w_fs w) (PurePath.parent target))).
    match goal with |- context [for_each _ ?b _] => set (body := b) end.
    assert (exists obs, for_each (enumerate start (f :: files)) body w
                        = for_each (enumerate (start + 1) files) body (World fs1 obs))
      as [obs ->].
    { cbn [enumerate for_each]. unfold body at 1. unfold bind at 1. unfold bind at 1.
      rewrite (collect_file_copies _ _ _ _ d Hd).
      match goal with |- context [notify callback ?s ?r ?m ?w0] =>
        destruct (notify_ok callback s r m w0) as [obs ->] end.
      by exists obs. }
    assert (forall (q : Path) n, q <> target -> w_fs w !! q = Some n -> fs1 !! q = Some n)
      as Hkeep.
    { intros q n Hq H. unfold fs1. rewrite lookup_insert_ne by done.
      by rewrite FsFacts.lookup_mkdir_p_is_Some. }
    assert (forall f', f' ∈ files -> f' <> target) as Hsrc.
    { intros f' Hin ->. destruct (Hfiles target) as (_ & Hno & _);
        [by apply list_elem_of_further|]. apply Hno, prefix_of_joinpath. }
    destruct (IH (start + 1) (World fs1 obs)) as (Hok & Hcopied & Hkept).
    { intros f' Hin. destruct (Hfiles f') as (Hpre' & Hout' & d' & Hd');
        [by apply list_elem_of_further|].
      split; [done|]. split; [done|]. exists d'. apply Hkeep; [by apply Hsrc|done]. }
    cbn zeta in Hok, Hcopied, Hkept. cbn [w_fs] in Hcopied, Hkept. fold body in Hok, Hcopied, Hkept.
    split; [exact Hok|]. split.
    + intros f' [->|Hin]%elem_of_cons.
      * trans (Some (File d)); [|done]. apply Hkept; [|apply lookup_insert_eq].
        intros f' Hin Heq. apply Hnotin.
        assert (f = f') as ->; [|done].
        destruct (Hfiles f') as (Hpre' & _); [by apply list_elem_of_further|].
        apply (relative_to_inj project_path); [done..|].
        unfold target, PurePath.joinpath in Heq. by apply app_inv_head in Heq.
      * rewrite (Hcopied f' Hin).
        destruct (Hfiles f') as (_ & _ & d' & Hd'); [by apply list_elem_of_further|].
        trans (Some (File d')); [|done]. apply Hkeep; [by apply Hsrc|done].
    + intros q n Hq Hn. apply Hkept.
      * intros f' Hin. apply Hq. by apply list_elem_of_further.
      * apply Hkeep; [|done]. apply Hq, list_elem_of_here.
Qed.

Lemma iter_project_files_NoDup (fs : FS) (root : Path) :
  NoDup (storage.iter_project_files fs root).
Proof.
  unfold storage.iter_project_files, Fs.rglob. destruct (negb _); [constructor|].
  apply NoDup_ListNoDup, List.NoDup_filter, List.NoDup_filter, NoDup_ListNoDup,
    NoDup_paths.
Qed.

Lemma elem_of_iter_project_files (fs : FS) (root p : Path) :
  p ∈ storage.iter_project_files fs root <->
  is_Some (fs !! root) /\ root `prefix_of` p /\ p <> root /\
  exists d, fs !! p = Some (File d).
Proof.
  unfold storage.iter_project_files, Fs.exists_, Fs.rglob.
  destruct (fs !! root) as [r|] eqn:Hroot; simpl.
  - rewrite !elem_of_List_filter, elem_of_paths. unfold Fs.is_file. split.
    + intros (Hfile & Hbelow & [n Hn]).
      apply bool_decide_eq_true in Hbelow as [Hpre Hne].
      split; [by eexists|]. split; [done|]. split; [done|].
      rewrite Hn in Hfile. destruct n as [|d]; [done|]. by exists d.
    + intros (_ & Hpre & Hne & d & Hd). rewrite Hd. split; [done|].
      split; [by apply bool_decide_eq_true|]. by eexists.
  - split; [by intros ?%elem_of_nil|]. by intros ([? [=]] & _).
Qed.

Lemma project_dir_files (fs : FS) project_id (p : Path) d :
  (storage.project_dir fs project_id).2 !! p = Some (File d) <-> fs !! p = Some (File d).
Proof.
  change ((storage.project_dir fs project_id).2)
    with (foldl Fs.mkdir_p fs
            [ storage.BASE_STORAGE; storage.ASSET_ROOT; storage.DDS_ROOT;
              storage.AUDIO_ROOT; storage.PROJECT_ROOT; storage.WORKSHOP_ROOT;
              storage.PROJECT_ROOT // [project_id] ]).
  rewrite lookup_foldl_mkdir_p. destruct (fs !! p) as [n|]; [done|].
  by case_bool_decide.
Qed.

(** X7: the stage that collects, run with a destination that holds no file:
    it returns, every file of the project, at any depth, is then in the
    destination under its path relative to the project and with its
    content, and nothing that was there outside the destination has
    changed. *)
Theorem collect_copies_project_files (Obs : Type) (project_id : string)
    (destination : Path) (callback : option (ProgressCallback Obs)) (w : world Obs) :
  (forall (p : Path) d, destination `prefix_of` p -> w_fs w !! p <> Some (File d)) ->
  let out := _collect_project_files project_id destination callback w in
  out.1 = Ok tt /\
  (forall (rel : Path) d,
     rel <> [] ->
     w_fs w !! (storage.PROJECT_ROOT // [project_id] // rel) = Some (File d) ->
     w_fs out.2 !! (destination // rel) = Some (File d)) /\
  (forall (p : Path) n,
     ~ destination `prefix_of` p -> w_fs w !! p = Some n -> w_fs out.2 !! p = Some n).
Proof.
  intros Hfree. cbn zeta. split; [|split].
  3:{ intros p n Hp H. by apply (confined_collect_project_files project_id destination
                                   callback w p n). }
  all: unfold _collect_project_files; rewrite run_bind_fs_op, run_bind_ask;
    cbn [w_fs w_obs fst]; unfold collect_files; cbn zeta;
    set (project_path := storage.PROJECT_ROOT // [project_id]);
    set (fs1 := (storage.project_dir (w_fs w) project_id).2);
    set (files := storage.iter_project_files fs1 _);
    destruct (collect_loop project_path destination callback (len_or_1 files) files
                (iter_project_files_NoDup _ _) 1 (World fs1 (w_obs w)))
      as (Hok & Hcopied & _).
  1,3: intros f Hin; apply elem_of_iter_project_files in Hin as (_ & Hpre & _ & d & Hd);
    (split; [done|]); (split; [|by exists d]);
    intros Hdest; apply project_dir_files in Hd; by apply (Hfree f d).
  - exact Hok.
  - intros rel d Hrel Hd. cbn zeta in Hcopied. cbn [w_fs] in Hcopied.
    assert (project_path // rel ∈ files) as Hin.
    { apply elem_of_iter_project_files. split; [|split; [apply prefix_of_joinpath|split]].
      - unfold fs1, project_path. change (storage.PROJECT_ROOT // [project_id])
          with (storage.asset_dir (w_fs w) storage.PROJECT_ROOT project_id).1.
        apply (storage_dirs_made (w_fs w) storage.PROJECT_ROOT project_id).
      - unfold PurePath.joinpath. intros Heq. apply Hrel.
        apply (app_inv_head project_path). by rewrite app_nil_r.
      - exists d. by apply project_dir_files. }
    specialize (Hcopied _ Hin).
    assert (PurePath.relative_to (project_path // rel) project_path = rel) as Hrel'
      by apply drop_app_length.
    rewrite Hrel' in Hcopied.
    trans (fs1 !! (project_path // rel)); [exact Hcopied|]. by apply project_dir_files.
Qed.

Lemma report_loop_whole {A : Type} (body : A -> M (list event) unit) label
    (msg : A -> string) total (xs : list A) :
  (forall x w, (body x w).1 = Ok tt /\ w_obs (body x w).2 = w_obs w) ->
  forall start fs trace0,
    w_obs (for_each (enumerate start xs) (fun '(index, x) =>
             bind (body x) (fun _ => notify (Some recorder) label (true_div index total) (msg x)))
           (World fs trace0)).2
    = trace0 ++ List.map (fun '(index, x) => (label, true_div index total, msg x))
                         (enumerate start xs).
Proof.
  intros Hbody. induction xs as [|x xs IH]; intros start fs trace0; cbn [enumerate for_each].
  - by rewrite app_nil_r.
  - unfold bind at 1. unfold bind at 1.
    destruct (Hbody x (World fs trace0)) as [Hok Hobs].
    destruct (body x (World fs trace0)) as [r [fs1 o1]]. cbn [fst snd w_obs] in *. subst.
    cbn [notify call w_fs w_obs]. rewrite IH. cbn [List.map]. unfold recorder.
    by rewrite <- app_assoc.
Qed.

Lemma true_div_whole (n : Z) : 0 < n -> (true_div n n == 1)%Q.
Proof.
  intros Hn. unfold true_div. apply Qmult_inv_r.
  change 0%Q with (inject_Z 0). rewrite inject_Z_injective. lia.
Qed.

(** X8: the stage that collects reports once for each file, in the order of
    the files, the ratio [k / n] after the [k]-th of [n]: the last report
    of a project that has files is one. *)
Theorem collect_reports_each_file (project_id : string) (destination : Path) (fs : FS) :
  let project_path := storage.PROJECT_ROOT // [project_id] in
  let files :=
    storage.iter_project_files (storage.project_dir fs project_id).2 project_path in
  let out :=
    stage_alone (fun Obs => @_collect_project_files Obs) project_id destination fs in
  w_obs out.2
  = List.map (fun '(index, file_path) =>
                ("collect", true_div index (Z.of_nat (length files)),
                 "Copied " +:+ Fs.to_str (PurePath.relative_to file_path project_path)))
             (enumerate 1 files) /\
  length (w_obs out.2) = length files /\
  (files <> [] -> exists e, last (w_obs out.2) = Some e /\ (ratio_of e == 1)%Q).
Proof.
  cbn zeta. set (project_path := storage.PROJECT_ROOT // [project_id]).
  set (files := storage.iter_project_files _ _).
  assert (w_obs (stage_alone (fun Obs => @_collect_project_files Obs)
                             project_id destination fs).2
          = List.map (fun '(index, file_path) =>
                ("collect", true_div index (len_or_1 files),
                 "Copied " +:+ Fs.to_str (PurePath.relative_to file_path project_path)))
              (enumerate 1 files)) as Htrace.
  { unfold stage_alone, _collect_project_files.
    rewrite run_bind_fs_op, run_bind_ask. cbn [w_fs w_obs fst]. unfold collect_files.
    cbn zeta. fold project_path. fold files.
    apply (report_loop_whole
             (collect_file project_path destination) "collect"
             (fun file_path =>
                "Copied " +:+ Fs.to_str (PurePath.relative_to file_path project_path))
             (len_or_1 files) files).
    intros x w. split; [reflexivity|apply collect_file_silent]. }
  rewrite Htrace. split; [|split].
  - assert (files = [] \/ len_or_1 files = Z.of_nat (length files)) as [-> | ->];
      [|done..].
    destruct files as [|f files']; [by left|right]. unfold len_or_1. cbn [length].
    destruct (Z.of_nat (S _) =? 0) eqn:E; [|done]. apply Z.eqb_eq in E. lia.
  - by rewrite length_map, enumerate_length.
  - intros Hne. destruct (exists_last Hne) as (pre & x & Hfiles).
    rewrite Hfiles, enumerate_app, map_app. cbn [enumerate List.map].
    rewrite last_snoc. eexists. split; [reflexivity|]. unfold ratio_of. cbn [fst snd].
    assert (len_or_1 (pre ++ [x]) = 1 + Z.of_nat (length pre)) as ->.
    { unfold len_or_1. rewrite length_app. cbn [length].
      destruct (Z.of_nat _ =? 0) eqn:E; [apply Z.eqb_eq in E|]; lia. }
    apply true_div_whole. lia.
Qed.

(** ** The stage that packages the sounds *)

Lemma suffix_name (dir : Path) (x : string) : PurePath.suffix (dir // [x]) = PurePath.suffix [x].
Proof. unfold PurePath.suffix, PurePath.joinpath. by rewrite (name_snoc dir x). Qed.

Lemma audio_loop {Obs : Type} (source_root audio_root : Path)
    (callback : option (ProgressCallback Obs)) (total : Z) (names : list string) :
  NoDup names ->
  forall (start : Z) (w : world Obs),
  (forall x, x ∈ names ->
     PyStr.lower (PurePath.suffix [x]) ∈ allowed_extensions /\
     ~ audio_root `prefix_of` source_root // [x] /\
     ~ audio_root `prefix_of` source_root // [x +:+ ".json"] /\
     (exists d, w_fs w !! (source_root // [x]) = Some (File d)) /\
     w_fs w !! (source_root // [x +:+ ".json"]) = None) ->
  let out :=
    for_each (enumerate start ((fun x => source_root // [x]) <$> names))
      (fun '(index, file_path) =>
         bind (package_file audio_root file_path) (fun _ =>
           notify callback "audio" (true_div index total)
                  ("Packaged " +:+ PurePath.name file_path)))
      w in
  out.1 = Ok tt /\
  (forall x, x ∈ names ->
     w_fs out.2 !! (audio_root // [x]) = w_fs w !! (source_root // [x])) /\
  (forall (q : Path) n,
     (forall x, x ∈ names -> q <> audio_root // [x]) ->
     w_fs w !! q = Some n -> w_fs out.2 !! q = Some n) /\
  (forall q : Path,
     ~ audio_root `prefix_of` q -> w_fs w !! q = None -> w_fs out.2 !! q = None).
Proof.
  induction 1 as [|x names Hnotin Hnodup IH]; intros start w Hnames; cbn zeta.
  - cbn [fmap list_fmap enumerate for_each]. split; [done|]. split; [|done].
    by intros x ?%elem_of_nil.
  - destruct (Hnames x) as (Hext & Hout & Hout' & [d Hd] & Hside);
      [apply list_elem_of_here|].
    set (fs1 := <[audio_root // [x] := File d]> (w_fs w)).
    match goal with |- context [for_each _ ?b _] => set (body := b) end.
    assert (exists obs,
              for_each (enumerate start ((fun x => source_root // [x]) <$> x :: names))
                       body w
              = for_each (enumerate (start + 1) ((fun x => source_root // [x]) <$> names))
                         body (World fs1 obs)) as [obs ->].
    { cbn [fmap list_fmap enumerate for_each]. unfold body at 1.
      unfold bind at 1. unfold bind at 1.
      rewrite (package_file_accepts audio_root (source_root // [x]) w d).
      - rewrite parent_snoc, name_snoc, Hside.
        match goal with |- context [notify callback ?s ?r ?m ?w0] =>
          destruct (notify_ok callback s r m w0) as [obs ->] end.
        by exists obs.
      - by rewrite suffix_name.
      - done. }
    assert (forall q : Path, q <> audio_root // [x] -> fs1 !! q = w_fs w !! q) as Hkeep.
    { intros q Hq. unfold fs1. by rewrite lookup_insert_ne. }
    destruct (IH (start + 1) (World fs1 obs)) as (Hok & Hcopied & Hkept & Hnone).
    { intros y Hin. destruct (Hnames y) as (Hext' & Hy & Hy' & [d' Hd'] & Hside');
        [by apply list_elem_of_further|].
      split; [done|]. split; [done|]. split; [done|]. cbn [w_fs]. split.
      - exists d'. rewrite Hkeep; [done|]. intros Heq. apply Hy. rewrite Heq.
        apply prefix_of_joinpath.
      - rewrite Hkeep; [done|]. intros Heq. apply Hy'. rewrite Heq.
        apply prefix_of_joinpath. }
    cbn zeta in Hok, Hcopied, Hkept, Hnone. cbn [w_fs] in Hcopied, Hkept, Hnone.
    fold body in Hok, Hcopied, Hkept, Hnone.
    split; [exact Hok|]. split; [|split].
    + intros y [->|Hin]%elem_of_cons.
      * trans (Some (File d)); [|done]. apply Hkept; [|apply lookup_insert_eq].
        intros y Hin Heq. apply Hnotin. unfold PurePath.joinpath in Heq.
        apply app_inv_head in Heq. by injection Heq as ->.
      * rewrite (Hcopied y Hin). apply Hkeep.
        destruct (Hnames y) as (_ & Hy & _); [by apply list_elem_of_further|].
        intros Heq. apply Hy. rewrite Heq. apply prefix_of_joinpath.
    + intros q n Hq Hn. apply Hkept.
      * intros y Hin. apply Hq. by apply list_elem_of_further.
      * rewrite Hkeep; [done|]. apply Hq, list_elem_of_here.
    + intros q Hq Hn. apply Hnone; [done|]. rewrite Hkeep; [done|].
      intros ->. apply Hq, prefix_of_joinpath.
Qed.

Lemma parent_name (p : Path) : p <> [] -> PurePath.parent p // [PurePath.name p] = p.
Proof.
  intros Hp. unfold PurePath.parent, PurePath.name, PurePath.joinpath.
  symmetry. by apply app_removelast_last.
Qed.

Lemma elem_of_iterdir_iff (fs : FS) (dir p : Path) :
  p ∈ Fs.iterdir fs dir <-> p <> [] /\ PurePath.parent p = dir /\ is_Some (fs !! p).
Proof.
  unfold Fs.iterdir. rewrite elem_of_List_filter, elem_of_paths, bool_decide_eq_true.
  tauto.
Qed.

Lemma prefix_of_snoc (p dir : Path) (x : string) :
  p `prefix_of` dir // [x] -> p = dir // [x] \/ p `prefix_of` dir.
Proof.
  intros [k Hk]. unfold PurePath.joinpath in *.
  destruct (decide (k = [])) as [->|Hne].
  - left. by rewrite app_nil_r in Hk.
  - right. destruct (exists_last Hne) as (k' & y & ->).
    rewrite app_assoc in Hk. apply app_inj_tail in Hk as [-> _]. by exists k'.
Qed.

(** The files of a directory, by their names. *)
Lemma listing_names (fs : FS) (dir : Path) :
  exists names,
    NoDup names /\
    List.filter (Fs.is_file fs) (Fs.iterdir fs dir) = (fun x => dir // [x]) <$> names /\
    forall x, x ∈ names <-> exists d, fs !! (dir // [x]) = Some (File d).
Proof.
  set (files := List.filter (Fs.is_file fs) (Fs.iterdir fs dir)).
  assert (forall p : Path, p ∈ files <->
            p <> [] /\ PurePath.parent p = dir /\ exists d, fs !! p = Some (File d)) as Hfiles.
  { intros p. unfold files. rewrite elem_of_List_filter, elem_of_iterdir_iff.
    unfold Fs.is_file. split.
    - intros (Hfile & Hne & Hparent & _). split; [done|]. split; [done|].
      revert Hfile. destruct (fs !! p) as [[|d]|]; [done| |done]. intros _. by exists d.
    - intros (Hne & Hparent & d & Hd). rewrite Hd. split; [done|]. split; [done|].
      split; [done|]. by eexists. }
  assert (NoDup files) as Hnodup.
  { unfold files, Fs.iterdir.
    apply NoDup_ListNoDup, List.NoDup_filter, List.NoDup_filter, NoDup_ListNoDup,
      NoDup_paths. }
  exists (PurePath.name <$> files). split; [|split].
  - apply NoDup_fmap_2_strong; [|done]. intros p q Hp Hq Heq.
    apply Hfiles in Hp as (Hp & Hpp & _). apply Hfiles in Hq as (Hq & Hqp & _).
    rewrite <- (parent_name p Hp), <- (parent_name q Hq). congruence.
  - rewrite <- list_fmap_compose. rewrite <- (list_fmap_id files) at 1.
    apply list_fmap_ext. intros i p Hi. cbn.
    apply list_elem_of_lookup_2, Hfiles in Hi as (Hp & <- & _). symmetry.
    by apply parent_name.
  - intros x. rewrite list_elem_of_fmap. split.
    + intros (p & -> & (Hp & <- & d & Hd)%Hfiles). exists d. by rewrite parent_name.
    + intros [d Hd]. exists (dir // [x]). split; [by rewrite name_snoc|].
      apply Hfiles. split; [|split; [apply parent_snoc|by exists d]].
      unfold PurePath.joinpath. by destruct dir.
Qed.

(** The stage on a directory that holds sounds of the two formats and
    nothing else. *)
Lemma audio_stage_packages {Obs : Type} (project_id : string)
    (destination : Path) (callback : option (ProgressCallback Obs)) (w : world Obs) :
  let source_root := storage.AUDIO_ROOT // [project_id] in
  is_Some (w_fs w !! source_root) ->
  (forall (x : string) n,
     w_fs w !! (source_root // [x]) = Some n ->
     (exists d, n = File d) /\ PyStr.lower (PurePath.suffix [x]) ∈ allowed_extensions) ->
  (forall (p : Path) d, destination `prefix_of` p -> w_fs w !! p <> Some (File d)) ->
  ~ source_root `prefix_of` destination ->
  let out := _package_audio_tracks project_id destination callback w in
  out.1 = Ok tt /\
  (forall (x : string) d,
     w_fs w !! (source_root // [x]) = Some (File d) ->
     w_fs out.2 !! (destination // ["sound"] // [x]) = Some (File d)) /\
  (forall (p : Path) n,
     ~ destination `prefix_of` p -> w_fs w !! p = Some n -> w_fs out.2 !! p = Some n).
Proof.
  intros source_root Hroot Hsounds Hfree Hinside. cbn zeta. split; [|split].
  3:{ intros p n Hp H. by apply (confined_package_audio_tracks project_id destination
                                   callback w p n). }
  all: unfold _package_audio_tracks; fold source_root; rewrite run_bind_ask;
    unfold Fs.exists_; destruct Hroot as [r Hr]; rewrite Hr; cbn [negb];
    rewrite run_bind_act, run_bind_ask; cbn [w_fs w_obs]; unfold package_files; cbn zeta;
    set (audio_root := destination // ["sound"]);
    set (fs1 := Fs.mkdir_p (w_fs w) audio_root);
    destruct (listing_names fs1 source_root) as (names & Hnodup & -> & Hnames);
    destruct (audio_loop source_root audio_root callback
                (len_or_1 ((fun x => source_root // [x]) <$> names)) names Hnodup 1
                (World fs1 (w_obs w))) as (Hok & Hcopied & _).
  1,3: intros x Hx; apply Hnames in Hx as [d Hd];
    assert (w_fs w !! (source_root // [x]) = Some (File d)) as Hd0
      by (unfold fs1 in Hd; rewrite FsFacts.lookup_mkdir_p in Hd;
          destruct (w_fs w !! (source_root // [x])); [done|by case_bool_decide]);
    destruct (Hsounds x _ Hd0) as [_ Hext];
    assert (x <> EmptyString) as Hx
      by (intros ->; rewrite suffix_empty_name in Hext;
          apply elem_of_allowed in Hext as [?|?]; discriminate);
    assert (~ destination `prefix_of` source_root // [x]) as Hout
      by (intros Hpre; by apply (Hfree _ d Hpre));
    assert (~ destination `prefix_of` source_root // [x +:+ ".json"]) as Hout'
      by (intros [->|Hpre]%prefix_of_snoc;
          [apply Hinside, prefix_of_joinpath
          |apply Hout; etrans; [exact Hpre|apply prefix_of_joinpath]]);
    assert (forall q : Path, ~ destination `prefix_of` q -> ~ audio_root `prefix_of` q)
      as Haudio
      by (intros q Hq Hpre; apply Hq; etrans; [apply prefix_of_joinpath|exact Hpre]);
    (split; [done|]); (split; [by apply Haudio|]); (split; [by apply Haudio|]);
    (split; [by exists d|]); cbn [w_fs]; unfold fs1;
    rewrite FsFacts.lookup_mkdir_p_other;
    [destruct (w_fs w !! (source_root // [x +:+ ".json"])) as [n|] eqn:Hside; [|done];
     destruct (Hsounds _ _ Hside) as [_ Hjson];
     rewrite <- (suffix_name source_root), json_suffix in Hjson by done;
     by apply json_not_allowed in Hjson
    |intros [Heq|Hpre]%prefix_of_snoc;
     [apply Hinside; unfold PurePath.joinpath in Heq;
      apply app_inj_tail in Heq as [<- _]; done
     |apply Hinside; etrans; [apply prefix_of_joinpath|exact Hpre]]].
  - exact Hok.
  - intros x d Hd. cbn zeta in Hcopied. cbn [w_fs] in Hcopied.
    assert (fs1 !! (source_root // [x]) = Some (File d)) as Hd1
      by (by apply FsFacts.lookup_mkdir_p_file).
    trans (fs1 !! (source_root // [x])); [|done]. apply Hcopied, Hnames. by exists d.
Qed.

(** X9: the stage that packages, on a directory that holds sounds of the two
    formats and nothing else, with a destination that holds no file and
    does not lie in that directory: it returns, every sound is then in the
    [sound] folder of the destination under its name and with its content,
    and nothing that was there outside the destination has changed. *)
Theorem audio_stage_packages_sounds (Obs : Type) (project_id : string)
    (destination : Path) (callback : option (ProgressCallback Obs)) (w : world Obs) :
  let source_root := storage.AUDIO_ROOT // [project_id] in
  is_Some (w_fs w !! source_root) ->
  (forall (x : string) n,
     w_fs w !! (source_root // [x]) = Some n ->
     (exists d, n = File d) /\ PyStr.lower (PurePath.suffix [x]) ∈ allowed_extensions) ->
  (forall (p : Path) d, destination `prefix_of` p -> w_fs w !! p <> Some (File d)) ->
  ~ source_root `prefix_of` destination ->
  let out := _package_audio_tracks project_id destination callback w in
  out.1 = Ok tt /\
  (forall (x : string) d,
     w_fs w !! (source_root // [x]) = Some (File d) ->
     w_fs out.2 !! (destination // ["sound"] // [x]) = Some (File d)) /\
  (forall (p : Path) n,
     ~ destination `prefix_of` p -> w_fs w !! p = Some n -> w_fs out.2 !! p = Some n).
Proof. apply audio_stage_packages. Qed.

(** X5: the outcome of a build and the files it leaves do not depend on the
    callback: reporting progress is all a callback can do. *)
Theorem build_ignores_callback (O1 O2 : Type)
    (subprocess_run : list string -> FS -> CompletedProcess) (self : BuildService)
    (tmp : Path) (now : Z) (project_id : string)
    (callback1 : option (ProgressCallback O1)) (callback2 : option (ProgressCallback O2))
    (fs : FS) (obs1 : O1) (obs2 : O2) :
  let out1 := build_mod subprocess_run self tmp now project_id callback1 (World fs obs1) in
  let out2 := build_mod subprocess_run self tmp now project_id callback2 (World fs obs2) in
  out1.1 = out2.1 /\ w_fs out1.2 = w_fs out2.2.
Proof.
  cbn zeta.
  destruct (mrel_build_steps (fun _ _ => True) (steps subprocess_run self) self tmp now
              project_id callback1 callback2 (steps_parametric subprocess_run self)
              ltac:(done) (World fs obs1) (World fs obs2)) as [Hr [Hfs _]]; [done|].
  done.
Qed.


(** ** The files the audio stage turns away *)

(** A file of the audio directory that is no sound stops the stage. *)
Lemma audio_stage_rejects {Obs : Type} (project_id : string) (destination : Path)
    (callback : option (ProgressCallback Obs)) (w : world Obs) (x : string) d :
  is_Some (w_fs w !! (storage.AUDIO_ROOT // [project_id])) ->
  w_fs w !! (storage.AUDIO_ROOT // [project_id] // [x]) = Some (File d) ->
  PyStr.lower (PurePath.suffix [x]) ∉ allowed_extensions ->
  exists e, (_package_audio_tracks project_id destination callback w).1 = Raise e.
Proof.
  intros [n Hdir] Hfile Hext.
  unfold _package_audio_tracks. rewrite run_bind_ask. unfold Fs.exists_.
  rewrite Hdir. cbn [negb].
  rewrite run_bind_act, run_bind_ask. cbn [w_fs w_obs].
  set (fs1 := Fs.mkdir_p (w_fs w) _). set (files := List.filter _ _).
  assert (storage.AUDIO_ROOT // [project_id] // [x] ∈ files) as Hin.
  { apply elem_of_List_filter. split.
    - unfold Fs.is_file, fs1. by rewrite (FsFacts.lookup_mkdir_p_file _ _ _ _ Hfile).
    - eapply elem_of_iterdir. unfold fs1.
      by apply (FsFacts.lookup_mkdir_p_file _ _ _ _ Hfile). }
  destruct (elem_of_enumerate files _ 1 Hin) as [index Hindex].
  unfold package_files.
  apply (for_each_raises _ _ _ Hindex). intros w0.
  cbv beta iota. unfold bind at 1. rewrite package_file_rejects.
  - by eexists.
  - by rewrite suffix_name.
Qed.

(** C7: the allow-list of the audio stage has the two entries [.ogg] and
    [.wav].  When the stage comes to a file of the audio directory whose
    lowercased suffix is neither, it raises the error that names the
    suffix and leaves the files as the files listed before left them:
    nothing is copied for the file turned away.  A directory that holds
    such a file never lets the stage return.  On a directory that holds
    sounds of the two formats and nothing else the stage returns, with
    every sound in the [sound] folder under its name. *)
Theorem audio_allow_list :
  allowed_extensions = {[ ".ogg"; ".wav" ]} /\ size allowed_extensions = 2%nat /\
  (forall (Obs : Type) project_id (destination : Path)
          (callback : option (ProgressCallback Obs)) (w : world Obs)
          (pre post : list Path) (file_path : Path),
     let source_root := storage.AUDIO_ROOT // [project_id] in
     let audio_root := destination // ["sound"] in
     let fs1 := Fs.mkdir_p (w_fs w) audio_root in
     is_Some (w_fs w !! source_root) ->
     List.filter (Fs.is_file fs1) (Fs.iterdir fs1 source_root) = pre ++ file_path :: post ->
     PyStr.lower (PurePath.suffix file_path) ∉ allowed_extensions ->
     let before :=
       for_each pre (fun f => bind (package_file (Obs:=unit) audio_root f) (fun _ => ret tt))
                (World fs1 tt) in
     before.1 = Ok tt ->
     let out := _package_audio_tracks project_id destination callback w in
     out.1 = Raise (BuildError ("Unsupported audio format: "
                                +:+ PurePath.suffix file_path)) /\
     w_fs out.2 = w_fs before.2) /\
  (forall (Obs : Type) project_id (destination : Path)
          (callback : option (ProgressCallback Obs)) (w : world Obs) (x : string) d,
     let source_root := storage.AUDIO_ROOT // [project_id] in
     is_Some (w_fs w !! source_root) ->
     w_fs w !! (source_root // [x]) = Some (File d) ->
     PyStr.lower (PurePath.suffix [x]) ∉ allowed_extensions ->
     exists e, (_package_audio_tracks project_id destination callback w).1 = Raise e) /\
  (forall (Obs : Type) project_id (destination : Path)
          (callback : option (ProgressCallback Obs)) (w : world Obs),
     let source_root := storage.AUDIO_ROOT // [project_id] in
     is_Some (w_fs w !! source_root) ->
     (forall (x : string) n,
        w_fs w !! (source_root // [x]) = Some n ->
        (exists d, n = File d) /\ PyStr.lower (PurePath.suffix [x]) ∈ allowed_extensions) ->
     (forall (p : Path) d, destination `prefix_of` p -> w_fs w !! p <> Some (File d)) ->
     ~ source_root `prefix_of` destination ->
     let out := _package_audio_tracks project_id destination callback w in
     out.1 = Ok tt /\
     forall (x : string) d,
       w_fs w !! (source_root // [x]) = Some (File d) ->
       w_fs out.2 !! (destination // ["sound"] // [x]) = Some (File d)).
Proof.
  split; [reflexivity|]. split; [reflexivity|]. split; [|split].
  - intros Obs project_id destination callback w pre post file_path.
    cbn zeta. intros [n Hdir] Hfiles Hext Hbefore.
    unfold _package_audio_tracks. rewrite run_bind_ask. unfold Fs.exists_.
    rewrite Hdir. cbn [negb].
    rewrite run_bind_act, run_bind_ask. cbn [w_fs w_obs]. rewrite Hfiles.
    exact (package_files_abort (destination // ["sound"]) pre post file_path callback
             (World (Fs.mkdir_p (w_fs w) (destination // ["sound"])) (w_obs w))
             Hext Hbefore).
  - intros Obs project_id destination callback w x d. cbn zeta.
    apply audio_stage_rejects.
  - intros Obs project_id destination callback w. cbn zeta.
    intros Hroot Hsounds Hfree Hinside.
    destruct (audio_stage_packages project_id destination callback w
                Hroot Hsounds Hfree Hinside) as (Hok & Hcopied & _).
    by split.
Qed.

(** What the body of the loop does for a sound whose sidecar holds a JSON
    value: the sound is copied under its name, and the value, when it is
    not empty, is written beside it, its keys in order. *)
Lemma package_file_writes_sidecar {Obs : Type} audio_root file_path (w : world Obs) d v :
  PyStr.lower (PurePath.suffix file_path) ∈ allowed_extensions ->
  w_fs w !! file_path = Some (File d) ->
  w_fs w !! (PurePath.parent file_path // [PurePath.name file_path +:+ ".json"])
    = Some (File (JsonDoc v)) ->
  storage.load_asset_metadata (w_fs w) file_path = Ok v /\
  let out := package_file audio_root file_path w in
  out.1 = Ok tt /\
  w_fs out.2 !! (audio_root // [PurePath.name file_path]) = Some (File d) /\
  w_fs out.2 !! (audio_root // [PurePath.name file_path +:+ ".json"])
  = if Py.truthy v then Some (File (JsonDoc (Py.sort_keys v)))
    else w_fs w !! (audio_root // [PurePath.name file_path +:+ ".json"]).
Proof.
  intros Hext Hd Hside. split.
  - unfold storage.load_asset_metadata. rewrite sidecar_path.
    unfold Fs.exists_, Fs.load_json. by rewrite Hside.
  - cbn zeta. rewrite (package_file_accepts audio_root file_path w d Hext Hd), Hside.
    assert (audio_root // [PurePath.name file_path]
            <> audio_root // [PurePath.name file_path +:+ ".json"]) as Hne.
    { unfold PurePath.joinpath. intros H. apply app_inj_tail in H as [_ H].
      by apply append_json_ne in H. }
    destruct (Py.truthy v); (split; [reflexivity|]); cbn [snd w_fs]; split.
    + apply lookup_save_metadata_other; [done|apply lookup_insert_eq].
    + unfold storage.save_metadata, Fs.write. apply lookup_insert_eq.
    + apply lookup_insert_eq.
    + by rewrite lookup_insert_ne.
Qed.

(** C9, where the code goes wrong: [_package_audio_tracks] writes the
    sidecar of a sound beside the packaged sound, but the sidecar lies in
    the directory the stage lists and is no sound.  Whenever a sound has
    its sidecar beside it, as [upload_audio] leaves it, the sidecar is the
    metadata [load_asset_metadata] finds for the sound, and the stage
    raises: no run of the stage returns with the sound and its sidecar
    packaged. *)
Theorem sidecar_stops_stage (Obs : Type) (project_id : string) (destination : Path)
    (callback : option (ProgressCallback Obs)) (w : world Obs) (x : string) d v :
  let source_root := storage.AUDIO_ROOT // [project_id] in
  x <> EmptyString ->
  is_Some (w_fs w !! source_root) ->
  w_fs w !! (source_root // [x]) = Some (File d) ->
  w_fs w !! (source_root // [x +:+ ".json"]) = Some (File (JsonDoc v)) ->
  storage.load_asset_metadata (w_fs w) (source_root // [x]) = Ok v /\
  exists e, (_package_audio_tracks project_id destination callback w).1 = Raise e.
Proof.
  cbn zeta. intros Hx Hdir Hsound Hsidecar. split.
  - unfold storage.load_asset_metadata. rewrite sidecar_path, parent_snoc, name_snoc.
    unfold Fs.exists_, Fs.load_json. by rewrite Hsidecar.
  - apply (audio_stage_rejects project_id destination callback w (x +:+ ".json")
             (JsonDoc v) Hdir Hsidecar).
    rewrite <- (suffix_name (storage.AUDIO_ROOT // [project_id])), json_suffix by done.
    apply json_not_allowed.
Qed.

(** ** The theorems at work *)

Lemma job_progress_monotone_witness :
  let build := recorded_build Example.converter_fails Example.service Example.tmp
                 1700000000 "abc" Example.fs_abc in
  let history :=
    states_from Example.job1 Example.rt1
      (job_writes Example.converter_fails Example.service Example.tmp
                  1700000000 "abc" Example.fs_abc) in
  last history
  = Some (_run_job Example.converter_fails Example.service Example.tmp
                   1700000000 "job-1" Example.fs_abc Example.rt1).2 /\
  exists seen,
    Forall2 (fun rt' j' => poll rt' "job-1" = Some j') history seen /\
    nondecreasing (List.map BuildJob.progress seen) /\
    (forall j', j' ∈ seen -> (BuildJob.progress j' == 1)%Q ->
       exists archive_path, build.1 = Ok archive_path).
Proof.
  apply (job_progress_monotone Example.converter_fails Example.service Example.tmp
           1700000000 "job-1" Example.fs_abc Example.rt1 Example.job1 Example.queued1).
  - vm_compute. reflexivity.
  - vm_compute. reflexivity.
  - reflexivity.
Defined.



Lemma empty_input_stages_witness :
  _collect_project_files "abc" Example.work_dir (Some recorder) (World ∅ [])
  = (Ok tt, World (storage.project_dir ∅ "abc").2 []) /\
  _convert_dds_assets Example.converter_fails Example.service "abc" Example.work_dir
                      (Some recorder) (World ∅ [])
  = (Ok tt, World ∅ []) /\
  _package_audio_tracks "abc" Example.work_dir (Some recorder) (World ∅ [])
  = (Ok tt, World ∅ []).
Proof.
  destruct (empty_input_stages (list event) Example.converter_fails Example.service
              "abc" Example.work_dir (Some recorder) (World ∅ [])) as (H1 & H2 & H3).
  split; [|split].
  - apply H1. vm_compute. reflexivity.
  - apply H2. vm_compute. reflexivity.
  - apply H3. vm_compute. reflexivity.
Defined.

(** C4 as the specification words it fails on a project with nothing in
    it: each of the three stages ends without error and the callback has
    received no call, so none that reports completion. *)
Lemma empty_stages_report_nothing :
  let collect :=
    stage_alone (fun Obs => @_collect_project_files Obs) "abc" Example.work_dir ∅ in
  let convert :=
    stage_alone (fun Obs => @_convert_dds_assets Obs Example.converter_fails Example.service)
                "abc" Example.work_dir ∅ in
  let package :=
    stage_alone (fun Obs => @_package_audio_tracks Obs) "abc" Example.work_dir ∅ in
  (collect.1 = Ok tt /\ w_obs collect.2 = []) /\
  (convert.1 = Ok tt /\ w_obs convert.2 = []) /\
  (package.1 = Ok tt /\ w_obs package.2 = []) /\
  ~ (exists e, e ∈ w_obs collect.2 /\ (ratio_of e == 1)%Q).
Proof.
  assert (w_obs (stage_alone (fun Obs => @_collect_project_files Obs) "abc"
                             Example.work_dir ∅).2 = []) as H
    by (vm_compute; reflexivity).
  cbn zeta. rewrite H. repeat split; try (vm_compute; reflexivity).
  intros (e & He & _). by apply elem_of_nil in He.
Qed.

(** C5 as the specification words it fails on the first job there is:
    the reference [get_job] returned shows, after an [update], the record
    as the update left it. *)
Lemma get_job_reference_is_live :
  let job := Example.job1 in
  let rt2 := update job "collect" (1 # 5) "Copied events.txt" Example.rt1 in
  get_job Example.rt1 "job-1" = Some job /\
  (BuildJob.progress <$> deref Example.rt1 job) = Some 0%Q /\
  (BuildJob.progress <$> deref rt2 job) = Some (1 # 5)%Q /\
  deref rt2 job <> deref Example.rt1 job.
Proof.
  cbn zeta. split; [vm_compute; reflexivity|]. split; [vm_compute; reflexivity|].
  split; [vm_compute; reflexivity|].
  intros H. apply (f_equal (fmap BuildJob.progress)) in H. vm_compute in H. discriminate H.
Qed.

(** The build of a project with nothing in it: the three stages that walk
    files report nothing, the reports of the pipeline between them carry
    the progress to the end. *)
Example example_empty_project_build :
  let out := build_mod Example.converter_fails Example.service Example.tmp 1700000000
                       "new" (Some recorder) (World (∅ : FS) []) in
  out.1 = Ok ["/"; "srv"; "openck3"; "storage"; "builds"; "new-1700000000.zip"] /\
  List.map (fun e => (e.1.1, ratio_of e)) (w_obs out.2)
  = [ ("collect_project_files", 0 # 5); ("convert_dds_assets", 1 # 5);
      ("package_audio_tracks", 2 # 5); ("write_descriptor", 3 # 5);
      ("descriptor", 20 # 25); ("archive", 4 # 5); ("archive", 1%Q) ].
Proof. split; vm_compute; reflexivity. Qed.

Lemma progress_slicing_witness :
  (span_of 4 == 1 / (inject_Z (Z.of_nat 4) + 1))%Q /\
  (inject_Z (Z.of_nat 4) * span_of 4 + span_of 4 == 1)%Q /\
  build_steps (steps Example.converter_fails Example.service) Example.service Example.tmp
              1700000000 "abc" (Some recorder) (World Example.fs_abc [])
  = (let '(r, fs', trace) :=
       spec_build_trace (steps Example.converter_fails Example.service) Example.service
                        Example.tmp 1700000000 "abc" Example.fs_abc in
     (r, World fs' trace)).
Proof.
  destruct progress_slicing as (Hspan & _ & _ & _ & Hsteps & _).
  destruct (Hspan 4%nat) as [H1 H2].
  split; [exact H1|]. split; [exact H2|].
  apply Hsteps. apply steps_parametric.
Defined.

Lemma get_job_shares_record_witness :
  (get_job (apply_write Example.job1 Example.rt1 (Update "collect" (1 # 5) "Copied events.txt"))
           "job-1" = Some Example.job1 /\
   poll (apply_write Example.job1 Example.rt1 (Update "collect" (1 # 5) "Copied events.txt"))
        "job-1"
   = deref (apply_write Example.job1 Example.rt1 (Update "collect" (1 # 5) "Copied events.txt"))
           Example.job1) /\
  (exists j', deref (update Example.job1 "collect" (1 # 5) "Copied events.txt" Example.rt1)
                    Example.job1 = Some j' /\
              BuildJob.status j' = "running" /\ BuildJob.progress j' = (1 # 5)%Q /\
              BuildJob.message j' = "Copied events.txt").
Proof.
  destruct get_job_shares_record as (_ & Hwrite & Hsame).
  split.
  - apply Hwrite. vm_compute. reflexivity.
  - destruct (Hsame Example.rt1 Example.job1 Example.queued1 "collect" (1 # 5)%Q
                "Copied events.txt" ["storage"; "builds"; "abc-1700000000.zip"]
                "No DDS converter (ImageMagick or texconv) available") as (H & _ & _).
    + vm_compute. reflexivity.
    + exact H.
Defined.


Lemma audio_allow_list_witness :
  let song : Path := ["storage"; "assets"; "audio"; "abc"; "song.mp3"] in
  let theme : Path := ["storage"; "assets"; "audio"; "abc"; "theme.wav"] in
  let rejected := _package_audio_tracks "abc" Example.work_dir None (World Example.fs_mp3 tt) in
  let accepted :=
    _package_audio_tracks "abc" Example.work_dir None (World Example.fs_sounds tt) in
  (rejected.1 = Raise (BuildError ("Unsupported audio format: " +:+ PurePath.suffix song)) /\
   w_fs rejected.2
   = w_fs (for_each [theme; Example.march]
             (fun f => bind (package_file (Obs:=unit) (Example.work_dir // ["sound"]) f)
                            (fun _ => ret tt))
             (World (Fs.mkdir_p Example.fs_mp3 (Example.work_dir // ["sound"])) tt)).2) /\
  w_fs rejected.2 !! (Example.work_dir // ["sound"] // ["song.mp3"]) = None /\
  accepted.1 = Ok tt /\
  (forall (x : string) d,
     Example.fs_sounds !! (storage.AUDIO_ROOT // ["abc"] // [x]) = Some (File d) ->
     w_fs accepted.2 !! (Example.work_dir // ["sound"] // [x]) = Some (File d)).
Proof.
  cbn zeta. destruct audio_allow_list as (_ & _ & Habort & _ & Haccept).
  split; [|split].
  - apply (Habort unit "abc" Example.work_dir None (World Example.fs_mp3 tt)
             [ ["storage"; "assets"; "audio"; "abc"; "theme.wav"]; Example.march ] []
             ["storage"; "assets"; "audio"; "abc"; "song.mp3"]).
    + exists Dir. vm_compute. reflexivity.
    + vm_compute. reflexivity.
    + vm_compute. set_solver.
    + vm_compute. reflexivity.
  - vm_compute. reflexivity.
  - apply (Haccept unit "abc" Example.work_dir None (World Example.fs_sounds tt)).
    + exists Dir. vm_compute. reflexivity.
    + intros x n H. cbn [w_fs] in H. apply elem_of_list_to_map_2 in H.
      repeat (apply elem_of_cons in H as [H|H]); [..|by apply elem_of_nil in H];
        try discriminate H; injection H as -> ->;
        (split; [by eexists|]); apply elem_of_allowed; [by left|by right].
    + intros p d [k ->] H. cbn [w_fs] in H. apply elem_of_list_to_map_2 in H.
      repeat (apply elem_of_cons in H as [H|H]); [..|by apply elem_of_nil in H];
        discriminate H.
    + intros [k Hk]. discriminate Hk.
Defined.

(** The file turned away is the first the stage lists: nothing at all is
    packaged. *)
Example mp3_alone_rejected :
  let fs : FS :=
    list_to_map
      [ (["storage"; "assets"; "audio"; "abc"], Dir);
        (["storage"; "assets"; "audio"; "abc"; "song.mp3"], File (Bytes "ID3")) ] in
  _package_audio_tracks "abc" Example.work_dir None (World fs tt)
  = (Raise (BuildError "Unsupported audio format: .mp3"),
     World (Fs.mkdir_p fs (Example.work_dir // ["sound"])) tt).
Proof. vm_compute. reflexivity. Qed.


(** A descriptor stage run alone, before any working directory is made. *)
Example descriptor_without_destination :
  (_write_descriptor "abc" Example.work_dir None (World Example.fs_abc tt)).1
  = Raise (BuiltinError "FileNotFoundError"
             "[Errno 2] No such file or directory: '/tmp/openck3-abc-k3x9/mod/descriptor.mod'").
Proof. vm_compute. reflexivity. Qed.

Lemma validate_audio_case_insensitive_witness :
  (PurePath.suffix (["storage"; "assets"; "audio"; "abc"] ++ ["march" +:+ ".OGG"]) = ".OGG" /\
   _validate_audio (["storage"; "assets"; "audio"; "abc"] ++ ["march" +:+ ".OGG"]) = Ok tt) /\
  (PurePath.suffix (["storage"; "assets"; "audio"; "abc"] ++ ["song" +:+ ".Mp3"]) = ".Mp3" /\
   _validate_audio (["storage"; "assets"; "audio"; "abc"] ++ ["song" +:+ ".Mp3"])
   = Raise (BuildError ("Unsupported audio format: " +:+ ".Mp3"))).
Proof.
  destruct validate_audio_case_insensitive as (_ & Hyes & Hno & _).
  split.
  - apply Hyes; [discriminate|]. left. vm_compute. reflexivity.
  - apply Hno; [discriminate|]. vm_compute. reflexivity.
Defined.

Lemma sidecar_stops_stage_witness :
  storage.load_asset_metadata (Example.fs_sidecar Example.credits) Example.march
  = Ok Example.credits /\
  exists e,
    (_package_audio_tracks "abc" Example.work_dir None
       (World (Example.fs_sidecar Example.credits) tt)).1 = Raise e.
Proof.
  apply (sidecar_stops_stage unit "abc" Example.work_dir None
           (World (Example.fs_sidecar Example.credits) tt) "march.ogg" (Bytes "OggS")
           Example.credits).
  - discriminate.
  - exists Dir. vm_compute. reflexivity.
  - vm_compute. reflexivity.
  - vm_compute. reflexivity.
Defined.

(** The stage over the sound [march.ogg] and its sidecar, as an upload
    leaves them: the sidecar is turned away as a sound of an unsupported
    format, and nothing is in the [sound] folder. *)
Example sidecar_rejected_as_audio :
  let out := _package_audio_tracks "abc" Example.work_dir None
               (World (Example.fs_sidecar Example.credits) tt) in
  out.1 = Raise (BuildError "Unsupported audio format: .json") /\
  w_fs out.2 !! (Example.work_dir // ["sound"] // ["march.ogg"]) = None /\
  w_fs out.2 !! (Example.work_dir // ["sound"] // ["march.ogg.json"]) = None.
Proof. repeat split; vm_compute; reflexivity. Qed.

(** ** The further theorems at work *)

Lemma fs_abc_entries (p : Path) n :
  Example.fs_abc !! p = Some n ->
  (p, n) ∈ [ (["storage"], Dir); (["storage"; "builds"], Dir);
             (["storage"; "projects"], Dir); (["storage"; "projects"; "abc"], Dir);
             (["storage"; "projects"; "abc"; "events.txt"], File (Bytes "namespace = abc"));
             (["storage"; "assets"], Dir); (["storage"; "assets"; "dds"], Dir);
             (["storage"; "assets"; "dds"; "abc"], Dir);
             (["storage"; "assets"; "dds"; "abc"; "crest.dds"], File (Bytes "DDS "));
             (["storage"; "assets"; "audio"], Dir);
             (["storage"; "assets"; "audio"; "abc"], Dir);
             (["storage"; "assets"; "audio"; "abc"; "march.OGG"], File (Bytes "OggS")) ].
Proof. apply elem_of_list_to_map_2. Qed.

Ltac fs_abc_cases H :=
  apply fs_abc_entries in H;
  repeat (apply elem_of_cons in H as [H|H]); [..|by apply elem_of_nil in H].

Lemma convert_runs_converter_witness :
  let banner : Path := ["storage"; "assets"; "dds"; "abc"; "banner.png"] in
  let target : Path := Example.work_dir // ["gfx"] // ["banner.dds"] in
  _convert_to_dds Sample.converter_idle Sample.service_magick banner target
                  (World Example.fs_abc tt)
  = (Ok tt, World (Fs.mkdir_p Example.fs_abc (Example.work_dir // ["gfx"])) tt).
Proof.
  cbn zeta.
  rewrite (convert_runs_converter unit Sample.converter_idle Sample.service_magick "magick"
             ["storage"; "assets"; "dds"; "abc"; "banner.png"]
             (Example.work_dir // ["gfx"] // ["banner.dds"]) (World Example.fs_abc tt)).
  - reflexivity.
  - reflexivity.
  - by left.
  - vm_compute. discriminate.
Defined.

Lemma job_records_in_range_witness :
  exists j, deref (c_rt Example.c_torn) Example.job1 = Some j /\
  (0 <= BuildJob.progress j <= 1)%Q /\
  BuildJob.message j <> EmptyString /\
  (BuildJob.status j = "queued" /\ (BuildJob.progress j == 0)%Q /\
     BuildJob.artifact_path j = None \/
   BuildJob.status j = "running" /\ BuildJob.artifact_path j = None \/
   BuildJob.status j = "completed" /\ (BuildJob.progress j == 1)%Q /\
     (BuildJob.artifact_path j = None \/
      exists now : Z,
        BuildJob.artifact_path j
        = Some (Fs.abspath (cwd Example.service)
                  (build_root Example.service
                   // [BuildJob.project_id j +:+ "-" +:+ pretty now +:+ ".zip"])) /\
        Fs.is_file (c_fs Example.c_torn)
          (Fs.abspath (cwd Example.service)
             (build_root Example.service
              // [BuildJob.project_id j +:+ "-" +:+ pretty now +:+ ".zip"])) = true) \/
   BuildJob.status j = "failed" /\ (BuildJob.progress j <= 4 # 5)%Q /\
     BuildJob.artifact_path j = None) /\
  (through Example.c_torn Example.job1 ->
   BuildJob.status j = "completed" /\ BuildJob.message j = "Build completed" /\
     (exists now : Z,
        BuildJob.artifact_path j
        = Some (Fs.abspath (cwd Example.service)
                  (build_root Example.service
                   // [BuildJob.project_id j +:+ "-" +:+ pretty now +:+ ".zip"]))) \/
   BuildJob.status j = "failed").
Proof.
  exists (BuildJob.mk "job-1" "abc" "completed" 1 "Build complete" None
                      (inject_Z 1700000000) (inject_Z 1700000011)).
  split; [vm_compute; reflexivity|].
  apply (job_records_in_range Example.converter_fails Example.service Example.c_torn
           Example.job1
           (BuildJob.mk "job-1" "abc" "completed" 1 "Build complete" None
                        (inject_Z 1700000000) (inject_Z 1700000011))
           example_keeps_files).
  - exists Example.c_start. split; [repeat split; reflexivity|].
    exact (job_runs_so_far Example.converter_fails Example.service Example.fs_abc
             Example.rt0 [] "job-1" "abc" Example.tmp 1700000000
             (length Example.assigns1 - 4) eq_refl example_fresh_dir).
  - vm_compute. reflexivity.
Defined.

Lemma registry_ids_witness :
  (forall job_id job, get_job (c_rt Example.c_end) job_id = Some job ->
     exists j, deref (c_rt Example.c_end) job = Some j /\ BuildJob.id j = job_id) /\
  (forall job, job ∈ list_jobs (c_rt Example.c_end) <->
     exists job_id, get_job (c_rt Example.c_end) job_id = Some job) /\
  (forall job_id, get_job (c_rt Example.c_end) job_id = None ->
     poll (c_rt Example.c_end) job_id = None).
Proof.
  exact (registry_ids Example.converter_fails Example.service Example.c_end
           example_keeps_files example_reachable).
Defined.

Lemma registry_keeps_identity_witness :
  get_job (c_rt Example.c_end) "job-1" = Some Example.job1 /\
  exists j', deref (c_rt Example.c_end) Example.job1 = Some j' /\
    BuildJob.id j' = BuildJob.id Example.queued1 /\
    BuildJob.project_id j' = BuildJob.project_id Example.queued1 /\
    BuildJob.created_at j' = BuildJob.created_at Example.queued1.
Proof.
  apply (registry_keeps_identity Example.converter_fails Example.service
           {| c_fs := Example.fs_abc; c_rt := Example.rt1; c_threads := [Spawned "job-1"] |}
           Example.c_end "job-1" Example.job1 Example.queued1).
  - eapply rtc_l.
    + apply (step_thread_build Example.converter_fails Example.service
               {| c_fs := Example.fs_abc; c_rt := Example.rt1;
                  c_threads := [Spawned "job-1"] |}
               [] [] "job-1" Example.job1 Example.queued1 Example.tmp 1700000000);
        [reflexivity|vm_compute; reflexivity|vm_compute; reflexivity
        |exact example_fresh_dir].
    + exact (job_runs_on Example.converter_fails Example.service Example.fs_abc
               Example.rt0 [] "job-1" "abc" Example.tmp 1700000000 0 eq_refl).
  - vm_compute. reflexivity.
  - vm_compute. reflexivity.
Defined.

Lemma download_serves_archives_witness :
  match api.download_build (c_rt Example.c_end) "job-1" with
  | api.Response r =>
      exists j, poll (c_rt Example.c_end) "job-1" = Some j /\
                BuildJob.status j = "completed" /\
                BuildJob.artifact_path j = Some (api.path r) /\
                api.filename r = PurePath.name (api.path r) /\
                Fs.is_file (c_fs Example.c_end) (api.path r) = true
  | api.HTTPException status_code detail =>
      status_code = 404 /\ detail = "Build artifact unavailable" /\
      forall j, poll (c_rt Example.c_end) "job-1" = Some j ->
                BuildJob.status j <> "completed" \/ BuildJob.artifact_path j = None
  | api.Uncaught _ => False
  end /\
  (forall job j,
     get_job (c_rt Example.c_end) "job-1" = Some job ->
     poll (c_rt Example.c_end) "job-1" = Some j ->
     through Example.c_end job -> BuildJob.status j = "completed" ->
     exists r, api.download_build (c_rt Example.c_end) "job-1" = api.Response r).
Proof.
  exact (download_serves_archives Example.converter_fails Example.service Example.c_end
           "job-1" example_keeps_files example_reachable).
Defined.

Example example_download :
  api.download_build (c_rt Example.c_end) "job-1"
  = api.Response {| api.path := ["/"; "srv"; "openck3"; "storage"; "builds";
                                 "abc-1700000000.zip"];
                    api.filename := "abc-1700000000.zip" |}.
Proof. vm_compute. reflexivity. Qed.

(** Between the assignment of the status and that of the artifact path a
    completed job has nothing to download. *)
Example example_download_too_early :
  (BuildJob.status <$> poll (c_rt Example.c_torn) "job-1") = Some "completed" /\
  api.download_build (c_rt Example.c_torn) "job-1"
  = api.HTTPException 404 "Build artifact unavailable".
Proof. split; vm_compute; reflexivity. Qed.

Lemma workshop_upload_copies_artifact_witness :
  exists j, poll (c_rt Example.c_end) "job-1" = Some j /\
  let out := api.upload_to_workshop "job-1" "private" (c_fs Example.c_end)
                                    (c_rt Example.c_end) in
  (BuildJob.status j <> "completed" \/ BuildJob.artifact_path j = None ->
   out = (api.HTTPException 404 "Completed build required for Workshop upload",
          c_fs Example.c_end)) /\
  (forall artifact_path,
     BuildJob.status j = "completed" ->
     BuildJob.artifact_path j = Some artifact_path ->
     exists d,
       c_fs Example.c_end !! artifact_path = Some (File d) /\
       let destination := storage.WORKSHOP_ROOT // [PurePath.name artifact_path] in
       (c_fs Example.c_end !! destination <> Some Dir ->
        out.1 = api.Response [ ("status", "uploaded"); ("job_id", "job-1");
                               ("visibility", "private");
                               ("path", Fs.to_str destination) ] /\
        out.2 !! destination = Some (File d) /\
        forall (p : Path) n,
          p <> destination -> c_fs Example.c_end !! p = Some n -> out.2 !! p = Some n)) /\
  (forall job,
     get_job (c_rt Example.c_end) "job-1" = Some job -> through Example.c_end job ->
     BuildJob.status j = "completed" ->
     exists artifact_path, BuildJob.artifact_path j = Some artifact_path).
Proof.
  exists (BuildJob.mk "job-1" "abc" "completed" 1 "Build completed"
            (Some ["/"; "srv"; "openck3"; "storage"; "builds"; "abc-1700000000.zip"])
            (inject_Z 1700000000) (inject_Z 1700000012)).
  split; [vm_compute; reflexivity|].
  apply (workshop_upload_copies_artifact Example.converter_fails Example.service
           Example.c_end "job-1" "private"
           (BuildJob.mk "job-1" "abc" "completed" 1 "Build completed"
              (Some ["/"; "srv"; "openck3"; "storage"; "builds"; "abc-1700000000.zip"])
              (inject_Z 1700000000) (inject_Z 1700000012))
           example_keeps_files example_reachable).
  - discriminate.
  - vm_compute. reflexivity.
Defined.

Example example_workshop_upload :
  (api.upload_to_workshop "job-1" "private" (c_fs Example.c_end) (c_rt Example.c_end)).1
  = api.Response [ ("status", "uploaded"); ("job_id", "job-1"); ("visibility", "private");
                   ("path", "storage/workshop/abc-1700000000.zip") ].
Proof. vm_compute. reflexivity. Qed.

Lemma uploaded_audio_fails_the_stage_witness :
  let out := api.upload_audio Sample.json_loads Sample.temp_audio "abc" "hymn.ogg" "OggS"
                              (Some Sample.credits_text) Example.fs_abc in
  let asset : Path := storage.AUDIO_ROOT // ["abc"] // ["hymn.ogg"] in
  exists r, out.1 = api.Response r /\
  out.2 !! asset = Some (File (Bytes "OggS")) /\
  api.has_key "title" (storage.metadata r) = true /\
  api.has_key "composer" (storage.metadata r) = true /\
  storage.load_asset_metadata out.2 asset = Ok (Py.sort_keys (storage.metadata r)) /\
  Py.truthy (Py.sort_keys (storage.metadata r)) = true /\
  exists e,
    (_package_audio_tracks "abc" Example.work_dir None (World out.2 tt)).1 = Raise e.
Proof.
  cbn zeta. eexists. split; [vm_compute; reflexivity|].
  apply (uploaded_audio_fails_the_stage unit Sample.json_loads Sample.temp_audio "abc"
           "hymn.ogg" "OggS" (Some Sample.credits_text) Example.fs_abc).
  - apply injective_projections; cbn [fst snd]; [vm_compute; reflexivity|reflexivity].
  - intros [k Hk]. discriminate Hk.
Defined.

Lemma uploaded_texture_needs_converter_witness :
  let out := api.upload_dds Sample.json_loads Sample.temp_dds "abc" "banner.png" "PNG"
                            (Some Sample.usage_text) Example.fs_abc in
  exists r, out.1 = api.Response r /\
  out.2 !! (storage.DDS_ROOT // ["abc"] // ["banner.png"]) = Some (File (Bytes "PNG")) /\
  api.has_key "usage" (storage.metadata r) = true /\
  (_convert_dds_assets Example.converter_fails Example.service "abc" Example.work_dir None
                       (World out.2 tt)).1
  = Raise (BuildError "No DDS converter (ImageMagick or texconv) available").
Proof.
  cbn zeta. eexists. split; [vm_compute; reflexivity|].
  apply (uploaded_texture_needs_converter unit Example.converter_fails Example.service
           Sample.json_loads Sample.temp_dds "abc" "banner.png" "PNG"
           (Some Sample.usage_text) Example.fs_abc).
  - apply injective_projections; cbn [fst snd]; [vm_compute; reflexivity|reflexivity].
  - intros [k Hk]. discriminate Hk.
  - reflexivity.
Defined.

Lemma refused_upload_writes_nothing_witness :
  let out := api.upload_audio Sample.json_loads Sample.temp_audio "abc" "hymn.ogg" "OggS"
                              (Some "[]") Example.fs_abc in
  out.1 = api.HTTPException 400 "Metadata must be an object" /\
  out.2 = Example.fs_abc /\
  (400 = 415 /\ "Metadata must be an object" = "Unsupported audio format" /\
   PyStr.lower (PurePath.suffix ["hymn.ogg"]) <> ".ogg" /\
   PyStr.lower (PurePath.suffix ["hymn.ogg"]) <> ".wav" \/
   400 = 400 /\
   ("Metadata must be an object" = "Invalid metadata payload" \/
    "Metadata must be an object" = "Metadata must be an object") \/
   400 = 422 /\
   ("Metadata must be an object" = "Audio metadata must include 'title'" \/
    "Metadata must be an object" = "Audio metadata must include 'composer'")).
Proof.
  cbn zeta. split; [vm_compute; reflexivity|].
  apply (refused_upload_writes_nothing Sample.json_loads Sample.temp_audio "abc" "hymn.ogg"
           "OggS" (Some "[]") Example.fs_abc).
  apply injective_projections; cbn [fst snd]; [vm_compute; reflexivity|reflexivity].
Defined.

Lemma archive_holds_descriptor_witness :
  let out := build_mod Example.converter_fails Example.service Example.tmp 1700000000
                       "abc" None (World Example.fs_abc tt) in
  let archive_path : Path :=
    ["/"; "srv"; "openck3"; "storage"; "builds"; "abc-1700000000.zip"] in
  let manifest : Path := storage.PROJECT_ROOT // ["abc"] // ["project.json"] in
  out.1 = Ok archive_path /\
  archive_path
  = Fs.abspath (cwd Example.service)
      (build_root Example.service // ["abc" +:+ "-" +:+ pretty 1700000000 +:+ ".zip"]) /\
  exists members metadata descriptor,
    (Example.fs_abc !! manifest = None /\ metadata = JObj [] \/
     Example.fs_abc !! manifest = Some (File (JsonDoc metadata))) /\
    w_fs out.2 !! archive_path = Some (File (ZipArchive members)) /\
    _render_descriptor "abc" metadata = Ok descriptor /\
    (["descriptor.mod"], Bytes descriptor) ∈ members.
Proof.
  cbn zeta. split; [vm_compute; reflexivity|].
  apply (archive_holds_descriptor unit Example.converter_fails Example.service Example.tmp
           1700000000 "abc" None (World Example.fs_abc tt)
           (build_mod Example.converter_fails Example.service Example.tmp 1700000000
                      "abc" None (World Example.fs_abc tt)).2
           ["/"; "srv"; "openck3"; "storage"; "builds"; "abc-1700000000.zip"]).
  - intros command fs. reflexivity.
  - intros [k Hk]. discriminate Hk.
  - intros [k Hk]. discriminate Hk.
  - vm_compute. reflexivity.
  - intros [k Hk]. discriminate Hk.
Defined.

(** The archive of the project [iron], whose manifest names it and tags
    it: the member [descriptor.mod] is the manifest rendered. *)
Example example_archive_of_manifest :
  let manifest : json :=
    JObj [("name", JStr "Iron"); ("tags", JArr [JStr "flavor"; JStr "ui"])] in
  let fs : FS :=
    <[ (["storage"; "projects"; "iron"; "project.json"] : Path) := File (JsonDoc manifest) ]>
      Example.fs_abc in
  let out := build_mod Example.converter_fails Example.service Example.tmp 1700000000
                       "iron" None (World fs tt) in
  match w_fs out.2 !! (["/"; "srv"; "openck3"; "storage"; "builds";
                        "iron-1700000000.zip"] : Path) with
  | Some (File (ZipArchive members)) =>
      snd <$> List.find (fun m : Path * data => bool_decide (m.1 = ["descriptor.mod"]))
                        members
  | _ => None
  end
  = Some (Bytes (PyStr.join nl [ "version=" +:+ dq +:+ "1.0" +:+ dq;
                                 "name=" +:+ dq +:+ "Iron" +:+ dq;
                                 "supported_version=" +:+ dq +:+ "1.11.*" +:+ dq;
                                 "tags={ flavor,ui }" ] +:+ nl)).
Proof. vm_compute. reflexivity. Qed.

Lemma collect_copies_project_files_witness :
  let out := _collect_project_files "abc" Example.work_dir None (World Example.fs_abc tt) in
  out.1 = Ok tt /\
  (forall (rel : Path) d,
     rel <> [] ->
     Example.fs_abc !! (storage.PROJECT_ROOT // ["abc"] // rel) = Some (File d) ->
     w_fs out.2 !! (Example.work_dir // rel) = Some (File d)) /\
  (forall (p : Path) n,
     ~ Example.work_dir `prefix_of` p -> Example.fs_abc !! p = Some n ->
     w_fs out.2 !! p = Some n).
Proof.
  apply (collect_copies_project_files unit "abc" Example.work_dir None
           (World Example.fs_abc tt)).
  intros p d [k ->] H. cbn [w_fs] in H. fs_abc_cases H; discriminate H.
Defined.

Example example_collected :
  w_fs (_collect_project_files "abc" Example.work_dir None (World Example.fs_abc tt)).2
    !! (Example.work_dir // ["events.txt"])
  = Some (File (Bytes "namespace = abc")).
Proof. vm_compute. reflexivity. Qed.

Lemma audio_stage_packages_sounds_witness :
  let source_root := storage.AUDIO_ROOT // ["abc"] in
  let out := _package_audio_tracks "abc" Example.work_dir None (World Example.fs_abc tt) in
  out.1 = Ok tt /\
  (forall (x : string) d,
     Example.fs_abc !! (source_root // [x]) = Some (File d) ->
     w_fs out.2 !! (Example.work_dir // ["sound"] // [x]) = Some (File d)) /\
  (forall (p : Path) n,
     ~ Example.work_dir `prefix_of` p -> Example.fs_abc !! p = Some n ->
     w_fs out.2 !! p = Some n).
Proof.
  apply (audio_stage_packages_sounds unit "abc" Example.work_dir None
           (World Example.fs_abc tt)).
  - by eexists.
  - intros x n H. cbn [w_fs] in H. fs_abc_cases H; try discriminate H.
    injection H as -> ->. split; [by eexists|]. apply elem_of_allowed. by left.
  - intros p d [k ->] H. cbn [w_fs] in H. fs_abc_cases H; discriminate H.
  - intros [k Hk]. discriminate Hk.
Defined.
